(** * Behavioural CAPTCHA: a shallow embedding of the verification engine

    The development follows the repository file by file:

    - [JS]         the fragment of JavaScript the sources rely on: IEEE-754
                   binary64 numbers (Rocq's primitive floats), [Math.max],
                   [Math.min], truthiness, and parsed JSON values;
    - [Server]     backend/server.js (the version with the ML service, and the
                   earlier version without it);
    - [Tracking]   frontend/src/hooks/useBehaviorTracking.ts;
    - [Keystrokes] frontend/src/components/analytics/KeystrokeAnalyzer.tsx;
    - [Captcha]    frontend/src/components/captcha/ChallengeSystem.tsx and
                   CompleteCaptchaSystem.tsx;
    - [Reports]    the other endpoints of backend/server.js;
    - [Api]        frontend/src/services/captchaApi.ts;
    - [System], [Lifecycle]
                   the analysis and the states of CompleteCaptchaSystem.tsx;
    - [HookAnalytics], [Drawing], [KeyCounts]
                   the analytics of the hook, the drawing challenge, and
                   the key counts of the keystroke analyzer.

    Definitions come first, the theorems about them follow. *)

From Stdlib Require Import Bool List Ascii String ZArith Lia Floats.
From Stdlib Require Uint63.
Import ListNotations.

Set Warnings "-inexact-float,-register-all".

Local Open Scope string_scope.
Local Open Scope float_scope.

(* ================================================================== *)
(** * JavaScript values *)
(* ================================================================== *)

Module JS.

(** A JavaScript number is a binary64 float.  [of_int] is the number an
    integer denotes, exact below [2^53] in magnitude; [length_num] is the
    [.length] of an array (array lengths stay below [2^32]). *)
Definition of_int (z : Z) : float :=
  if (z <? 0)%Z then - of_uint63 (Uint63.of_Z (- z))
  else of_uint63 (Uint63.of_Z z).

Definition length_num {A : Type} (l : list A) : float :=
  of_int (Z.of_nat (List.length l)).

(** [a > b] is [b < a]. *)
Definition gtb (a b : float) : bool := b <? a.
Infix ">?" := gtb (at level 70, no associativity) : float_scope.

(** Truthiness of a number: everything but [NaN], [+0] and [-0]. *)
Definition truthy_num (v : float) : bool := negb (is_nan v || (v =? 0)).

(** A field that may be missing from the object reads as [undefined],
    which arithmetic and comparisons take as [NaN]. *)
Definition to_number (v : option float) : float :=
  match v with Some x => x | None => nan end.

(** The same for a field that holds a whole number. *)
Definition int_to_number (v : option Z) : float :=
  match v with Some z => of_int z | None => nan end.

(** [v || 0] on a numeric field. *)
Definition or_zero (v : option float) : float :=
  match v with
  | Some x => if truthy_num x then x else 0
  | None => 0
  end.

(** [Math.max] and [Math.min] of two numbers.  Two floats are ordered one
    way, or the other, or equal, or unordered (one of them is [NaN], and
    the result is [NaN]); of two zeros [max] prefers [+0] and [min]
    prefers [-0]. *)
Definition Math_max (a b : float) : float :=
  if a <? b then b
  else if b <? a then a
  else if a =? b then (if get_sign a then b else a)
  else nan.

Definition Math_min (a b : float) : float :=
  if a <? b then a
  else if b <? a then b
  else if a =? b then (if get_sign a then a else b)
  else nan.

Definition Math_abs (a : float) : float := abs a.

(** The numbers 1000 and 1 as sign, mantissa and exponent, which is how
    the specification of the primitive operations sees them. *)
Definition SF_thousand : spec_float := S754_finite false 8796093022208000 (-43).
Definition SF_one : spec_float := S754_finite false 4503599627370496 (-52).

(** Values as [JSON.parse] produces them (an object lists each of its
    keys once), with [undefined] for what a property read may give. *)
Inductive value : Type :=
| VUndefined
| VNull
| VBool (b : bool)
| VNum (n : float)
| VStr (s : string)
| VArr (items : list value)
| VObj (fields : list (string * value)).

Definition truthy (v : value) : bool :=
  match v with
  | VUndefined | VNull => false
  | VBool b => b
  | VNum n => truthy_num n
  | VStr s => negb (String.eqb s "")
  | VArr _ | VObj _ => true
  end.

Fixpoint assoc (name : string) (fields : list (string * value)) : option value :=
  match fields with
  | [] => None
  | (k, v) :: rest => if String.eqb k name then Some v else assoc name rest
  end.

(** Exceptions: an [Error] with its message, the [Error] of the ML
    service, whose message is [ML Service error: ] followed by [detail]
    converted to a string, and a [TypeError]. *)
Inductive exn : Type :=
| Error (message : string)
| MLServiceError (detail : value)
| TypeError.

Definition result (A : Type) : Type := (exn + A)%type.

Definition ret {A} (a : A) : result A := inr a.
Definition throw {A} (e : exn) : result A := inl e.
Definition bind {A B} (m : result A) (k : A -> result B) : result B :=
  match m with inl e => inl e | inr a => k a end.

(** [v.name] for a name that no prototype defines ([success],
    [prediction], [is_human], [risk_score], [confidence]): reading a
    property of [null] or [undefined] throws, an object gives its own
    field, every other value gives [undefined]. *)
Definition get (v : value) (name : string) : result value :=
  match v with
  | VUndefined | VNull => throw TypeError
  | VObj fields =>
      ret (match assoc name fields with Some x => x | None => VUndefined end)
  | _ => ret VUndefined
  end.

(** [v.toFixed(3)] exists on numbers only. *)
Definition toFixed (v : value) : result float :=
  match v with
  | VNum n => ret n
  | _ => throw TypeError
  end.

(** String conversion inside a template literal.  A parsed object converts
    through [Object.prototype.toString] unless it carries a field of its
    own called [toString] (never callable, so the conversion throws); an
    array converts its elements, skipping [null]. *)
Fixpoint stringifies (v : value) : bool :=
  match v with
  | VObj fields =>
      match assoc "toString" fields with Some _ => false | None => true end
  | VArr items =>
      (fix all (l : list value) : bool :=
         match l with
         | [] => true
         | x :: rest => stringifies x && all rest
         end) items
  | _ => true
  end.

Definition to_string_check (v : value) : result unit :=
  if stringifies v then ret tt else throw TypeError.

End JS.

Import JS.
Notation "x <- m ;; k" := (JS.bind m (fun x => k))
  (at level 61, m at next level, right associativity).

(* ================================================================== *)
(** * backend/server.js *)
(* ================================================================== *)

Module Server.

Record MouseData := {
  mx : float; my : float; mtimestamp : float;
  velocity : option float;
  acceleration : option float
}.

Record ClickData := { cx : float; cy : float; ctimestamp : float }.

(** The [timestamp] of a keystroke is missing when the client had no
    number for it; nothing on the server reads it. *)
Record KeystrokeData := {
  key : string; ktimestamp : option float;
  duration : option float
}.

(** [behaviorData] as the request carries it.  The arrays and the duration
    may be missing: the code guards every one of them. *)
Record BehaviorData := {
  mouseMovements : option (list MouseData);
  clicks : option (list ClickData);
  keystrokes : option (list KeystrokeData);
  sessionDuration : option float
}.

(** [arr.reduce((acc, v, i, arr) => i > 0 ? acc + Math.abs(v - arr[i-1]) : acc, 0)] *)
Fixpoint deltas_from (prev : float) (rest : list float) (acc : float) : float :=
  match rest with
  | [] => acc
  | v :: tl => deltas_from v tl (acc + Math_abs (v - prev))
  end.

Definition sum_abs_deltas (arr : list float) : float :=
  match arr with
  | [] => 0
  | v0 :: tl => deltas_from v0 tl 0
  end.

Definition avgVelocity (mm : list MouseData) : float :=
  fold_left (fun sum m => sum + or_zero (velocity m)) mm 0 / length_num mm.

Definition velocityVariation (mm : list MouseData) : float :=
  sum_abs_deltas (map (fun m => or_zero (velocity m)) mm)
  / Math_max (length_num mm - 1) 1.

(** [clicks.length / Math.max(sessionDuration / 1000, 1)] *)
Definition clickDenominator (sessionDuration : option float) : float :=
  Math_max (to_number sessionDuration / 1000) 1.

Definition clickFrequency (cl : list ClickData) (sessionDuration : option float) : float :=
  length_num cl / clickDenominator sessionDuration.

Definition avgDuration (ks : list KeystrokeData) : float :=
  fold_left (fun sum k => sum + or_zero (duration k)) ks 0 / length_num ks.

(** Fallback risk calculation (if the ML service is down). *)
Definition calculateBasicRiskScore (behaviorData : BehaviorData) : float :=
  let riskScore := 0.5 in
  (* Mouse movement analysis *)
  let riskScore :=
    match mouseMovements behaviorData with
    | Some ((_ :: _) as mm) =>
        let avgV := avgVelocity mm in
        let varV := velocityVariation mm in
        let riskScore :=
          if (avgV >? 0.1) && (avgV <? 3.0) then riskScore - 0.1 else riskScore in
        let riskScore :=
          if varV >? 0.5 then riskScore - 0.1 else riskScore in
        let riskScore :=
          if (avgV >? 10) || (avgV =? 0) then riskScore + 0.2 else riskScore in
        let riskScore :=
          if varV <? 0.1 then riskScore + 0.2 else riskScore in
        riskScore
    | _ => riskScore + 0.3
    end in
  (* Click analysis *)
  let riskScore :=
    match clicks behaviorData with
    | Some ((_ :: _) as cl) =>
        let freq := clickFrequency cl (sessionDuration behaviorData) in
        let riskScore :=
          if (freq >? 0.1) && (freq <? 2.0) then riskScore - 0.1 else riskScore in
        let riskScore :=
          if freq >? 5.0 then riskScore + 0.2 else riskScore in
        riskScore
    | _ => riskScore
    end in
  (* Keystroke analysis *)
  let riskScore :=
    match keystrokes behaviorData with
    | Some ((_ :: _) as ks) =>
        let avgD := avgDuration ks in
        let riskScore :=
          if (avgD >? 50) && (avgD <? 300) then riskScore - 0.1 else riskScore in
        let riskScore :=
          if (avgD <? 20) || (avgD >? 500) then riskScore + 0.1 else riskScore in
        riskScore
    | _ => riskScore
    end in
  (* Session duration analysis *)
  let sd := to_number (sessionDuration behaviorData) in
  let riskScore := if sd >? 5000 then riskScore - 0.1 else riskScore in
  let riskScore := if sd <? 1000 then riskScore + 0.2 else riskScore in
  (* Clamp between 0 and 1 *)
  Math_max 0 (Math_min 1 riskScore).

(** The earlier server.js carries the same function, statement for
    statement, under the name [calculateRiskScore]. *)
Definition calculateRiskScore (behaviorData : BehaviorData) : float :=
  calculateBasicRiskScore behaviorData.

(** ** ML service integration *)

(** What [fetch] can do: reject (connection refused, reset, socket
    timeout), or answer with a status and a body that parses as JSON or
    does not. *)
Inductive fetch_outcome : Type :=
| FetchRejects (message : string)
| FetchResponds (ok : bool) (body : option value).

(** [callMLService(endpoint, data)], the request to [endpoint] coming to
    [o].  The message of a reply that is not OK is a template literal
    around [result.error || 'Unknown error'], which converts that value
    to a string. *)
Definition callMLService (endpoint : string) (o : fetch_outcome) : result value :=
  match o with
  | FetchRejects message => throw (Error message)
  | FetchResponds ok None => throw (Error "invalid json response body")
  | FetchResponds ok (Some result) =>
      if negb ok then
        error <- get result "error" ;;
        let detail := if truthy error then error else VStr "Unknown error" in
        _ <- to_string_check detail ;;
        throw (MLServiceError detail)
      else ret result
  end.

Inductive Method : Type := ml_model | fallback_algorithm.

(** The [result] object of the reply ([timestamp], [analysis] and
    [mlDetails] echo the request and the prediction and are left out). *)
Record RiskAssessment := {
  isHuman : value;
  riskScore : float;
  confidence : float;
  needsChallenge : bool;
  sessionId : string;
  method : Method
}.

(** The replies of the endpoint: 400 for a request without
    [behaviorData], 200 with an assessment, 500 from the outer [catch]
    (which no request of the shape modelled here reaches). *)
Inductive response : Type :=
| Status400
| Json200 (result : RiskAssessment)
| Status500.

(** The body of the inner [try]: everything up to and including the
    [console.log] of the prediction, which reads [riskScore.toFixed(3)]
    and [confidence.toFixed(3)]. *)
Definition tryMLService (o : fetch_outcome) : result (value * float * float) :=
  mlResponse <- callMLService "/predict" o ;;
  success <- get mlResponse "success" ;;
  guard <- (if truthy success then get mlResponse "prediction" else ret success) ;;
  if truthy guard then
    mlResult <- get mlResponse "prediction" ;;
    isHuman <- get mlResult "is_human" ;;
    riskScore <- get mlResult "risk_score" ;;
    confidence <- get mlResult "confidence" ;;
    _ <- to_string_check isHuman ;;
    r <- toFixed riskScore ;;
    c <- toFixed confidence ;;
    ret (isHuman, r, c)
  else throw (Error "ML service returned invalid response").

(** [app.post('/api/captcha/validate')], server.js with the ML service. *)
Definition validate (behaviorData : option BehaviorData) (sessionId : string)
    (o : fetch_outcome) : response :=
  match behaviorData with
  | None => Status400
  | Some behaviorData =>
      let '(isHuman, riskScore, confidence, method) :=
        match tryMLService o with
        | inr (isHuman, riskScore, confidence) =>
            (isHuman, riskScore, confidence, ml_model)
        | inl mlError =>
            (* Fallback to basic algorithm *)
            let riskScore := calculateBasicRiskScore behaviorData in
            let isHuman := riskScore <? 0.6 in
            let confidence := Math_abs (0.5 - riskScore) * 2 in
            (VBool isHuman, riskScore, confidence, fallback_algorithm)
        end in
      let needsChallenge := (riskScore >? 0.7) || (confidence <? 0.4) in
      Json200 {| isHuman := isHuman; riskScore := riskScore;
                 confidence := confidence; needsChallenge := needsChallenge;
                 sessionId := sessionId; method := method |}
  end.

(** [app.post('/api/captcha/validate')] of the earlier server.js: no ML
    service, and no [method] field in the reply. *)
Record BasicAssessment := {
  basic_isHuman : bool;
  basic_riskScore : float;
  basic_confidence : float;
  basic_needsChallenge : bool;
  basic_sessionId : string
}.

Definition validate_basic (behaviorData : option BehaviorData) (sessionId : string)
    : option BasicAssessment :=
  match behaviorData with
  | None => None
  | Some behaviorData =>
      let riskScore := calculateRiskScore behaviorData in
      let isHuman := riskScore <? 0.6 in
      let confidence := Math_abs (0.5 - riskScore) * 2 in
      let needsChallenge := (riskScore >? 0.7) || (confidence <? 0.4) in
      Some {| basic_isHuman := isHuman; basic_riskScore := riskScore;
              basic_confidence := confidence;
              basic_needsChallenge := needsChallenge;
              basic_sessionId := sessionId |}
  end.

(** The assessment the fallback path answers with. *)
Definition fallback_assessment (behaviorData : BehaviorData) (sessionId : string)
    : RiskAssessment :=
  let riskScore := calculateBasicRiskScore behaviorData in
  let confidence := Math_abs (0.5 - riskScore) * 2 in
  {| isHuman := VBool (riskScore <? 0.6);
     riskScore := riskScore;
     confidence := confidence;
     needsChallenge := (riskScore >? 0.7) || (confidence <? 0.4);
     sessionId := sessionId;
     method := fallback_algorithm |}.

(** The invariant of the data model: [confidence = |0.5 - riskScore| * 2]. *)
Definition confidence_invariant (a : RiskAssessment) : Prop :=
  confidence a = Math_abs (0.5 - riskScore a) * 2.

(** A verdict of the classifier is well formed, in the words of the
    specification, when it has [isHuman] and both [riskScore] and
    [confidence] lie in [[0,1]]. *)
Definition in_unit_interval (v : value) : bool :=
  match v with
  | VNum n => (0 <=? n) && (n <=? 1)
  | _ => false
  end.

Definition spec_well_formed (prediction : value) : bool :=
  match prediction with
  | VObj fields =>
      match assoc "is_human" fields, assoc "risk_score" fields,
            assoc "confidence" fields with
      | Some (VBool _), Some r, Some c => in_unit_interval r && in_unit_interval c
      | _, _, _ => false
      end
  | _ => false
  end.

(** The ways the classifier can fail the endpoint, read off the code: the
    call throws, or the reply lacks a truthy [success] or [prediction], or
    a score of the prediction is not a number, or its [is_human] has no
    conversion to a string (the log line needs one). *)
Inductive classifier_failure : fetch_outcome -> Prop :=
| call_throws o e :
    callMLService "/predict" o = inl e -> classifier_failure o
| reply_unreadable o v e :
    callMLService "/predict" o = inr v -> get v "success" = inl e ->
    classifier_failure o
| no_success o v s :
    callMLService "/predict" o = inr v -> get v "success" = inr s ->
    truthy s = false ->
    classifier_failure o
| no_prediction o v p :
    callMLService "/predict" o = inr v -> get v "prediction" = inr p ->
    truthy p = false ->
    classifier_failure o
| risk_score_not_a_number o v p r :
    callMLService "/predict" o = inr v -> get v "prediction" = inr p ->
    get p "risk_score" = inr r -> (forall n, r <> VNum n) ->
    classifier_failure o
| confidence_not_a_number o v p c :
    callMLService "/predict" o = inr v -> get v "prediction" = inr p ->
    get p "confidence" = inr c -> (forall n, c <> VNum n) ->
    classifier_failure o
| verdict_not_a_string o v p h :
    callMLService "/predict" o = inr v -> get v "prediction" = inr p ->
    get p "is_human" = inr h -> stringifies h = false ->
    classifier_failure o.

(** The replies the endpoint takes the verdict [(h, r, c)] from: the call
    is answered OK with a JSON object whose [success] is truthy and whose
    [prediction] is an object with numbers for [risk_score] and
    [confidence] and an [is_human] that converts to a string. *)
Definition accepted (o : fetch_outcome) (h : value) (r c : float) : Prop :=
  exists fields s pfields,
    o = FetchResponds true (Some (VObj fields)) /\
    assoc "success" fields = Some s /\ truthy s = true /\
    assoc "prediction" fields = Some (VObj pfields) /\
    h = match assoc "is_human" pfields with Some x => x | None => VUndefined end /\
    assoc "risk_score" pfields = Some (VNum r) /\
    assoc "confidence" pfields = Some (VNum c) /\
    stringifies h = true.

(** ** Challenge endpoint *)

(** A challenge as it travels to the client.  The fields that come from
    the table are optional: the spread [...challenge] copies whatever own
    fields the looked-up value has.  Button numbers and the time limit in
    milliseconds are whole numbers. *)
Record Challenge := {
  type : option string;
  instruction : option string;
  expectedPattern : option string;
  sequence : option (list Z);
  expectedText : option string;
  timeLimit : option Z;
  challenge_sessionId : string;
  challengeId : string;
  timestamp : string
}.

Record Template := {
  t_type : string;
  t_instruction : string;
  t_expectedPattern : option string;
  t_sequence : option (list Z);
  t_expectedText : option string;
  t_timeLimit : Z
}.

Definition mouse_pattern : Template :=
  {| t_type := "mouse-pattern";
     t_instruction := "Draw a circle with your mouse";
     t_expectedPattern := Some "circle"; t_sequence := None;
     t_expectedText := None; t_timeLimit := 10000%Z |}.

Definition click_sequence : Template :=
  {| t_type := "click-sequence";
     t_instruction := "Click the buttons in order: 1, 3, 2";
     t_expectedPattern := None; t_sequence := Some [1; 3; 2]%Z;
     t_expectedText := None; t_timeLimit := 15000%Z |}.

(** The double quote, and the instruction of the typing challenge, which
    quotes the text to type. *)
Definition double_quote : string := String "034"%char EmptyString.

Definition typing_cadence : Template :=
  {| t_type := "typing-cadence";
     t_instruction := ("Type: " ++ double_quote ++ "I am human" ++ double_quote)%string;
     t_expectedPattern := None; t_sequence := None;
     t_expectedText := Some "I am human"; t_timeLimit := 10000%Z |}.

Definition challenges : list (string * Template) :=
  [ ("mouse-pattern", mouse_pattern);
    ("click-sequence", click_sequence);
    ("typing-cadence", typing_cadence) ].

(** The table is an object literal, so a read by key also finds what
    [Object.prototype] defines; all of these are functions or objects. *)
Definition Object_prototype : list string :=
  [ "constructor"; "__defineGetter__"; "__defineSetter__"; "hasOwnProperty";
    "__lookupGetter__"; "__lookupSetter__"; "isPrototypeOf";
    "propertyIsEnumerable"; "toString"; "valueOf"; "__proto__";
    "toLocaleString" ].

Inductive looked_up : Type :=
| Own (t : Template)
| Inherited
| Missing.

Fixpoint own (k : string) (table : list (string * Template)) : option Template :=
  match table with
  | [] => None
  | (k', t) :: rest => if String.eqb k' k then Some t else own k rest
  end.

(** [challenges[challengeType]]; [challengeType] is the property key the
    request value converts to. *)
Definition lookup (challengeType : string) : looked_up :=
  match own challengeType challenges with
  | Some t => Own t
  | None =>
      if existsb (String.eqb challengeType) Object_prototype
      then Inherited else Missing
  end.

(** [challenges[challengeType] || challenges['mouse-pattern']] *)
Definition select (challengeType : string) : looked_up :=
  match lookup challengeType with
  | Missing => lookup "mouse-pattern"
  | found => found
  end.

(** The replies of the challenge endpoint: the challenge, or the 500 of
    its [catch]. *)
Inductive challenge_reply : Type :=
| ChallengeOk (challenge : Challenge)
| ChallengeFailed.

(** [app.post('/api/captcha/challenge')]; [now] is [Date.now()] in decimal
    and [iso] is [new Date().toISOString()]. *)
Definition stamp (spread : option Template) (sessionId now iso : string) : Challenge :=
  {| type := option_map t_type spread;
     instruction := option_map t_instruction spread;
     expectedPattern := match spread with Some t => t_expectedPattern t | None => None end;
     sequence := match spread with Some t => t_sequence t | None => None end;
     expectedText := match spread with Some t => t_expectedText t | None => None end;
     timeLimit := option_map t_timeLimit spread;
     challenge_sessionId := sessionId;
     challengeId := ("challenge_" ++ now)%string;
     timestamp := iso |}.

Definition issue (challengeType sessionId now iso : string) : challenge_reply :=
  let spread :=
    match select challengeType with
    | Own t => Some t
    | _ => None
    end in
  ChallengeOk (stamp spread sessionId now iso).

End Server.

(* ================================================================== *)
(** * frontend/src/hooks/useBehaviorTracking.ts *)
(* ================================================================== *)

Module Tracking.

Record MouseData := {
  x : float; y : float; timestamp : float;
  velocity : float; acceleration : float
}.

Record ClickData := { click_x : float; click_y : float; click_timestamp : float }.

(** What a key-up reads as the start time of a press: the time the
    key-down stored or, for a name that [Object.prototype] defines and
    that has no press of its own, what the prototype holds under that
    name (a function, or the prototype itself for [__proto__]). *)
Inductive StartTime : Type :=
| PressedAt (t : float)
| FromPrototype.

(** The number a subtraction takes a start time for. *)
Definition start_number (startTime : StartTime) : float :=
  match startTime with
  | PressedAt t => t
  | FromPrototype => nan
  end.

Record KeystrokeData := {
  key : string; key_timestamp : StartTime; duration : float
}.

Record BehaviorData := {
  mouseMovements : list MouseData;
  clicks : list ClickData;
  keystrokes : list KeystrokeData;
  sessionDuration : float;
  pageVisible : bool
}.

Record Position := { last_x : float; last_y : float; last_timestamp : float }.

(** The state of the hook: [behaviorData] and the three refs. *)
Record Hook := {
  behaviorData : BehaviorData;
  lastMousePos : Position;
  sessionStart : float;
  keyPressStart : list (string * float)
}.

Definition empty : BehaviorData :=
  {| mouseMovements := []; clicks := []; keystrokes := [];
     sessionDuration := 0; pageVisible := true |}.

(** The first render at time [now]. *)
Definition init (now : float) : Hook :=
  {| behaviorData := empty;
     lastMousePos := {| last_x := 0; last_y := 0; last_timestamp := 0 |};
     sessionStart := now;
     keyPressStart := [] |}.

(** [xs.slice(-n)] for [n > 0]: the last [n] elements, all of them when
    there are fewer. *)
Definition slice_last {A : Type} (n : nat) (xs : list A) : list A :=
  skipn (List.length xs - n) xs.

(** [Math.pow(d, 2)] *)
Definition square (d : float) : float := d * d.

Definition calculateVelocity (x1 y1 x2 y2 timeDiff : float) : float :=
  let distance := PrimFloat.sqrt (square (x2 - x1) + square (y2 - y1)) in
  if timeDiff >? 0 then distance / timeDiff else 0.

Definition makeMouseData (h : Hook) (clientX clientY now : float) : MouseData :=
  let last := lastMousePos h in
  let timeDiff := now - last_timestamp last in
  let velocity := calculateVelocity (last_x last) (last_y last) clientX clientY timeDiff in
  let acceleration := if timeDiff >? 0 then velocity / timeDiff else 0 in
  {| x := clientX; y := clientY; timestamp := now;
     velocity := velocity; acceleration := acceleration |}.

Definition handleMouseMove (clientX clientY now : float) (h : Hook) : Hook :=
  let mouseData := makeMouseData h clientX clientY now in
  let prev := behaviorData h in
  {| behaviorData :=
       {| mouseMovements := slice_last 49 (mouseMovements prev) ++ [mouseData];
          clicks := clicks prev;
          keystrokes := keystrokes prev;
          sessionDuration := now - sessionStart h;
          pageVisible := pageVisible prev |};
     lastMousePos := {| last_x := clientX; last_y := clientY; last_timestamp := now |};
     sessionStart := sessionStart h;
     keyPressStart := keyPressStart h |}.

Definition makeClickData (clientX clientY now : float) : ClickData :=
  {| click_x := clientX; click_y := clientY; click_timestamp := now |}.

Definition handleClick (clientX clientY now : float) (h : Hook) : Hook :=
  let clickData := makeClickData clientX clientY now in
  let prev := behaviorData h in
  {| behaviorData :=
       {| mouseMovements := mouseMovements prev;
          clicks := slice_last 19 (clicks prev) ++ [clickData];
          keystrokes := keystrokes prev;
          sessionDuration := sessionDuration prev;
          pageVisible := pageVisible prev |};
     lastMousePos := lastMousePos h;
     sessionStart := sessionStart h;
     keyPressStart := keyPressStart h |}.

(** [keyPressStart.current], an object used as a map from key names. *)
Fixpoint remove_key (k : string) (m : list (string * float)) : list (string * float) :=
  match m with
  | [] => []
  | (k', v) :: rest =>
      if String.eqb k' k then remove_key k rest else (k', v) :: remove_key k rest
  end.

Fixpoint find_key (k : string) (m : list (string * float)) : option float :=
  match m with
  | [] => None
  | (k', v) :: rest => if String.eqb k' k then Some v else find_key k rest
  end.

(** [keyPressStart.current[k] = now].  The object is a plain one, and
    [__proto__] names the accessor of [Object.prototype], whose setter
    ignores a number: no entry is made.  Every other name gets an entry
    of the object's own. *)
Definition handleKeyDown (k : string) (now : float) (h : Hook) : Hook :=
  if String.eqb k "__proto__" then h
  else
    {| behaviorData := behaviorData h;
       lastMousePos := lastMousePos h;
       sessionStart := sessionStart h;
       keyPressStart := (k, now) :: remove_key k (keyPressStart h) |}.

(** Whether [Object.prototype] defines the name [k]. *)
Definition inherited (k : string) : bool :=
  existsb (String.eqb k) Server.Object_prototype.

(** The start time a key-up finds, when it is truthy: the entry of the
    object itself or, without one, what [Object.prototype] defines for
    the name, which is truthy. *)
Definition pressed (k : string) (h : Hook) : option StartTime :=
  match find_key k (keyPressStart h) with
  | Some startTime => if truthy_num startTime then Some (PressedAt startTime) else None
  | None => if inherited k then Some FromPrototype else None
  end.

Definition makeKeystrokeData (k : string) (startTime : StartTime) (now : float)
    : KeystrokeData :=
  {| key := k; key_timestamp := startTime;
     duration := now - start_number startTime |}.

Definition handleKeyUp (k : string) (now : float) (h : Hook) : Hook :=
  match pressed k h with
  | Some startTime =>
      let keystrokeData := makeKeystrokeData k startTime now in
      let prev := behaviorData h in
      {| behaviorData :=
           {| mouseMovements := mouseMovements prev;
              clicks := clicks prev;
              keystrokes := slice_last 29 (keystrokes prev) ++ [keystrokeData];
              sessionDuration := sessionDuration prev;
              pageVisible := pageVisible prev |};
         lastMousePos := lastMousePos h;
         sessionStart := sessionStart h;
         keyPressStart := remove_key k (keyPressStart h) |}
  | None => h
  end.

Definition handleVisibilityChange (hidden : bool) (h : Hook) : Hook :=
  let prev := behaviorData h in
  {| behaviorData :=
       {| mouseMovements := mouseMovements prev;
          clicks := clicks prev;
          keystrokes := keystrokes prev;
          sessionDuration := sessionDuration prev;
          pageVisible := negb hidden |};
     lastMousePos := lastMousePos h;
     sessionStart := sessionStart h;
     keyPressStart := keyPressStart h |}.

Definition reset (now : float) (h : Hook) : Hook :=
  {| behaviorData := empty;
     lastMousePos := lastMousePos h;
     sessionStart := now;
     keyPressStart := keyPressStart h |}.

(** What the document listeners and the caller of the hook can do. *)
Inductive Event : Type :=
| MouseMove (clientX clientY now : float)
| Click (clientX clientY now : float)
| KeyDown (k : string) (now : float)
| KeyUp (k : string) (now : float)
| VisibilityChange (hidden : bool)
| Reset (now : float).

Definition step (h : Hook) (e : Event) : Hook :=
  match e with
  | MouseMove cx cy now => handleMouseMove cx cy now h
  | Click cx cy now => handleClick cx cy now h
  | KeyDown k now => handleKeyDown k now h
  | KeyUp k now => handleKeyUp k now h
  | VisibilityChange hidden => handleVisibilityChange hidden h
  | Reset now => reset now h
  end.

Definition run (h : Hook) (es : list Event) : Hook := fold_left step es h.

(** The samples the handlers have built since the buffers were last
    emptied, oldest first: the unbounded history the buffers are a window
    of.  [pre] is the history up to [h]. *)
Fixpoint recorded_mouse (pre : list MouseData) (h : Hook) (es : list Event)
    : list MouseData :=
  match es with
  | [] => pre
  | e :: rest =>
      let pre' :=
        match e with
        | MouseMove cx cy now => (pre ++ [makeMouseData h cx cy now])%list
        | Reset _ => []
        | _ => pre
        end in
      recorded_mouse pre' (step h e) rest
  end.

Fixpoint recorded_clicks (pre : list ClickData) (h : Hook) (es : list Event)
    : list ClickData :=
  match es with
  | [] => pre
  | e :: rest =>
      let pre' :=
        match e with
        | Click cx cy now => (pre ++ [makeClickData cx cy now])%list
        | Reset _ => []
        | _ => pre
        end in
      recorded_clicks pre' (step h e) rest
  end.

Fixpoint recorded_keys (pre : list KeystrokeData) (h : Hook) (es : list Event)
    : list KeystrokeData :=
  match es with
  | [] => pre
  | e :: rest =>
      let pre' :=
        match e with
        | KeyUp k now =>
            match pressed k h with
            | Some startTime => (pre ++ [makeKeystrokeData k startTime now])%list
            | None => pre
            end
        | Reset _ => []
        | _ => pre
        end in
      recorded_keys pre' (step h e) rest
  end.

End Tracking.

(* ================================================================== *)
(** * frontend/src/components/analytics/KeystrokeAnalyzer.tsx *)
(* ================================================================== *)

Module Keystrokes.

Record Keystroke := { key : string; timestamp : float; duration : float }.

Inductive TypingPattern : Type :=
| hunt_peck | touch_typing | hybrid | bot_like | insufficient_data.

Definition sum (xs : list float) : float := fold_left (fun s t => s + t) xs 0.

(** Dwell time analysis (key press duration) *)
Definition dwellTimes (keystrokes : list Keystroke) : list float :=
  filter (fun d => (d >? 0) && (d <? 1000)) (map duration keystrokes).

Definition averageDwellTime (keystrokes : list Keystroke) : float :=
  let dwell := dwellTimes keystrokes in
  match dwell with
  | [] => 0
  | _ => sum dwell / length_num dwell
  end.

(** Flight time analysis: the loop over [i] from 1, [prev] being
    [keystrokes[i-1]]. *)
Fixpoint flights_from (prev : Keystroke) (rest : list Keystroke) : list float :=
  match rest with
  | [] => []
  | k :: tl =>
      let flightTime := timestamp k - (timestamp prev + duration prev) in
      if (0 <=? flightTime) && (flightTime <? 2000)
      then flightTime :: flights_from k tl
      else flights_from k tl
  end.

Definition flightTimes (keystrokes : list Keystroke) : list float :=
  match keystrokes with
  | [] => []
  | k0 :: tl => flights_from k0 tl
  end.

Definition averageFlightTime (keystrokes : list Keystroke) : float :=
  let flights := flightTimes keystrokes in
  match flights with
  | [] => 0
  | _ => sum flights / length_num flights
  end.

(** Rhythm variability; [Math.pow(t - mean, 2)] is written as a product. *)
Definition rhythmVariability (keystrokes : list Keystroke) : float :=
  let flights := flightTimes keystrokes in
  if (1 <? List.length flights)%nat then
    let mean := averageFlightTime keystrokes in
    let variance :=
      fold_left (fun s t => s + (t - mean) * (t - mean)) flights 0
      / length_num flights in
    PrimFloat.sqrt variance
  else 0.

(** The cascade of thresholds of the typing pattern detection. *)
Definition classify (avgDwell avgFlight rhythm : float) : TypingPattern :=
  if (avgDwell <? 30) && (avgFlight <? 100) && (rhythm <? 50) then bot_like
  else if (avgDwell >? 200) || (avgFlight >? 500) || (rhythm >? 300) then hunt_peck
  else if (avgDwell <? 100) && (avgFlight <? 200) && (rhythm <? 100) then touch_typing
  else hybrid.

(** The [typingPattern] field of [analytics]. *)
Definition typingPattern (keystrokes : list Keystroke) : TypingPattern :=
  match keystrokes with
  | [] => insufficient_data
  | _ =>
      if (10 <? List.length keystrokes)%nat then
        classify (averageDwellTime keystrokes) (averageFlightTime keystrokes)
                 (rhythmVariability keystrokes)
      else insufficient_data
  end.

(** The classification as the specification words it: no pattern below
    ten keystrokes, the cascade from ten on. *)
Definition spec_typingPattern (keystrokes : list Keystroke) : TypingPattern :=
  if (List.length keystrokes <? 10)%nat then insufficient_data
  else classify (averageDwellTime keystrokes) (averageFlightTime keystrokes)
                (rhythmVariability keystrokes).

End Keystrokes.

(* ================================================================== *)
(** * frontend/src/components/captcha: the challenge and its outcome *)
(* ================================================================== *)

Module Captcha.

Inductive CaptchaState : Type :=
| st_collecting | st_analyzing | st_challenge | st_success | st_failure.

(** [isHuman] and [confidence] can come out of the reply of the
    validation endpoint as they are, whatever they are. *)
Record CaptchaResult := {
  success : bool;
  isHuman : value;
  confidence : value;
  challengeRequired : bool;
  method : string
}.

(** The [response] field of a [ChallengeResponse] (typed [any]): each
    challenge fills in some of these. *)
Record Answer := {
  mousePattern : option (list (float * float * float));
  answer_sequence : option (list Z);
  text : option string;
  correct : option bool
}.

Record ChallengeResponse := {
  challengeId : string;
  response : Answer;
  completionTime : float
}.

(** The state of [CompleteCaptchaSystem] that the challenge touches,
    followed by the state of the [ChallengeSystem] it renders while
    [captchaState] is ['challenge']. *)
Record Session := {
  captchaState : CaptchaState;
  challenge : option Server.Challenge;
  finalResult : option CaptchaResult;
  timeLeft : float;
  isComplete : bool;
  clickSequence : list Z;
  typedText : string;
  startTime : float
}.

Definition setCaptchaState (st : CaptchaState) (s : Session) : Session :=
  {| captchaState := st; challenge := challenge s; finalResult := finalResult s;
     timeLeft := timeLeft s; isComplete := isComplete s;
     clickSequence := clickSequence s; typedText := typedText s;
     startTime := startTime s |}.

Definition setFinalResult (r : CaptchaResult) (s : Session) : Session :=
  {| captchaState := captchaState s; challenge := challenge s; finalResult := Some r;
     timeLeft := timeLeft s; isComplete := isComplete s;
     clickSequence := clickSequence s; typedText := typedText s;
     startTime := startTime s |}.

Definition setTimeLeft (t : float) (s : Session) : Session :=
  {| captchaState := captchaState s; challenge := challenge s;
     finalResult := finalResult s;
     timeLeft := t; isComplete := isComplete s;
     clickSequence := clickSequence s; typedText := typedText s;
     startTime := startTime s |}.

Definition setIsComplete (b : bool) (s : Session) : Session :=
  {| captchaState := captchaState s; challenge := challenge s;
     finalResult := finalResult s;
     timeLeft := timeLeft s; isComplete := b;
     clickSequence := clickSequence s; typedText := typedText s;
     startTime := startTime s |}.

Definition setClickSequence (l : list Z) (s : Session) : Session :=
  {| captchaState := captchaState s; challenge := challenge s;
     finalResult := finalResult s;
     timeLeft := timeLeft s; isComplete := isComplete s;
     clickSequence := l; typedText := typedText s;
     startTime := startTime s |}.

Definition setTypedText (v : string) (s : Session) : Session :=
  {| captchaState := captchaState s; challenge := challenge s;
     finalResult := finalResult s;
     timeLeft := timeLeft s; isComplete := isComplete s;
     clickSequence := clickSequence s; typedText := v;
     startTime := startTime s |}.

Definition has_type (c : Server.Challenge) (name : string) : bool :=
  match Server.type c with
  | Some t => String.eqb t name
  | None => false
  end.

Definition flag (b : option bool) : bool :=
  match b with Some true => true | _ => false end.

(** [validateChallengeResponse]; [challenge] is the state variable the
    callback closes over, [null] before a challenge has been set. *)
Definition validateChallengeResponse (challenge : option Server.Challenge)
    (response : ChallengeResponse) : result bool :=
  match challenge with
  | None => throw TypeError
  | Some c =>
      if has_type c "click-sequence" then
        ret (flag (correct (Captcha.response response)))
      else if has_type c "typing-cadence" then
        ret (flag (correct (Captcha.response response)))
      else if has_type c "mouse-pattern" then
        ret (match mousePattern (Captcha.response response) with
             | Some path => (20 <? List.length path)%nat
             | None => false
             end)
      else ret false
  end.

(** [handleChallengeComplete], given the [challenge] that the
    [validateChallengeResponse] in its scope reads. *)
Definition handleChallengeComplete (seen : option Server.Challenge)
    (challengeResponse : ChallengeResponse) (s : Session) : Session :=
  match validateChallengeResponse seen challengeResponse with
  | inr isValidResponse =>
      setCaptchaState (if isValidResponse then st_success else st_failure)
        (setFinalResult
           {| success := isValidResponse;
              isHuman := VBool isValidResponse;
              confidence := VNum (if isValidResponse then 0.9 else 0.1);
              challengeRequired := true;
              method := "challenge_completion" |} s)
  | inl error => setCaptchaState st_failure s
  end.

(** [handleChallengeComplete] is wrapped in [useCallback] with an empty
    dependency list, so the function handed to [ChallengeSystem] is the
    one of the first render for good; the [validateChallengeResponse] it
    names is that render's, and the [challenge] that one reads is the
    initial [useState<any>(null)]. *)
Definition first_render_challenge : option Server.Challenge := None.

Definition onChallengeComplete : ChallengeResponse -> Session -> Session :=
  handleChallengeComplete first_render_challenge.

Definition handleChallengeTimeout (s : Session) : Session :=
  setCaptchaState st_failure
    (setFinalResult
       {| success := false; isHuman := VBool false; confidence := VNum 0;
          challengeRequired := true; method := "timeout" |} s).

(** ** ChallengeSystem *)

(** The state right after [setChallenge(c); setCaptchaState('challenge')]
    and the first render of [ChallengeSystem] at time [now]. *)
Definition start (c : Server.Challenge) (now : float) : Session :=
  {| captchaState := st_challenge;
     challenge := Some c;
     finalResult := None;
     timeLeft := int_to_number (Server.timeLimit c) / 1000;
     isComplete := false;
     clickSequence := [];
     typedText := "";
     startTime := now |}.

(** One run of the interval callback of the countdown. *)
Definition tick (s : Session) : Session :=
  let prev := timeLeft s in
  if prev <=? 1 then handleChallengeTimeout (setTimeLeft 0 s)
  else setTimeLeft (prev - 1) s.

(** [newSequence.every((num, idx) => num === challenge.sequence![idx])] *)
Fixpoint every_from (idx : nat) (newSequence expected : list Z) : bool :=
  match newSequence with
  | [] => true
  | num :: rest =>
      match nth_error expected idx with
      | Some e => Z.eqb num e
      | None => false
      end && every_from (S idx) rest expected
  end.

Definition isCorrect (newSequence expected : list Z) : bool :=
  every_from 0 newSequence expected.

(** The response [handleButtonClick] sends for [newSequence], if any. *)
Definition click_response (c : Server.Challenge) (newSequence : list Z)
    (completionTime : float) : option ChallengeResponse :=
  match Server.sequence c with
  | Some expected =>
      if (List.length newSequence =? List.length expected)%nat then
        Some {| challengeId := Server.challengeId c;
                response := {| mousePattern := None;
                               answer_sequence := Some newSequence;
                               text := None;
                               correct := Some (isCorrect newSequence expected) |};
                completionTime := completionTime |}
      else None
  | None => None
  end.

Definition handleButtonClick (c : Server.Challenge) (buttonNumber : Z)
    (now : float) (s : Session) : Session :=
  let newSequence := (clickSequence s ++ [buttonNumber])%list in
  let s := setClickSequence newSequence s in
  match click_response c newSequence (now - startTime s) with
  | Some response => onChallengeComplete response (setIsComplete true s)
  | None => s
  end.

Definition handleInputChange (c : Server.Challenge) (value : string)
    (now : float) (s : Session) : Session :=
  let s := setTypedText value s in
  match Server.expectedText c with
  | Some expected =>
      if String.eqb value expected then
        let response :=
          {| challengeId := Server.challengeId c;
             response := {| mousePattern := None; answer_sequence := None;
                            text := Some value; correct := Some true |};
             completionTime := now - startTime s |} in
        onChallengeComplete response (setIsComplete true s)
      else s
  | None => s
  end.

(** What reaches a session: the countdown, a click on one of the three
    buttons, a change of the text input.  (The canvas has its events in
    [Drawing].) *)
Inductive Event : Type :=
| Tick
| ButtonClick (buttonNumber : Z) (now : float)
| InputChange (value : string) (now : float).

(** [ChallengeSystem] is rendered only in the ['challenge'] state with a
    challenge set; the buttons and the input exist only for their type of
    challenge and while the challenge is not complete. *)
Definition step (s : Session) (e : Event) : Session :=
  match captchaState s, challenge s with
  | st_challenge, Some c =>
      match e with
      | Tick => tick s
      | ButtonClick buttonNumber now =>
          if has_type c "click-sequence" && negb (isComplete s)
          then handleButtonClick c buttonNumber now s else s
      | InputChange value now =>
          if has_type c "typing-cadence" && negb (isComplete s)
          then handleInputChange c value now s else s
      end
  | _, _ => s
  end.

Definition run (s : Session) (es : list Event) : Session := fold_left step es s.

(** [setInterval(callback, 1000)] is set when the component mounts.  A
    timer is never early and may be late: [n] runs of the callback can
    have taken place [t] milliseconds after the mount only if
    [1000 * n <= t]. *)
Definition may_have_run (n : nat) (t : Z) : Prop := (1000 * Z.of_nat n <= t)%Z.

(** A challenge issued at [issuedAt] and mounted [delay] milliseconds
    later (its way from the endpoint to the client), whose callback has
    run [n] times when the events [es] arrive.  The component reads the
    clock when it mounts, and the issue time of the challenge never. *)
Definition shown (c : Server.Challenge) (issuedAt delay : Z) (n : nat)
    (es : list Event) : Session :=
  run (run (start c (of_int (issuedAt + delay))) (repeat Tick n)) es.

(** A click on a button or a change of the input: what a user submits. *)
Definition submits (e : Event) : bool :=
  match e with
  | Tick => false
  | _ => true
  end.

Definition timed_out (s : Session) : Prop :=
  captchaState s = st_failure /\
  option_map method (finalResult s) = Some "timeout".

(** Whether a countdown that stands at [timeLeft] calls the timeout
    handler within [n] runs of the interval callback. *)
Fixpoint fires_within (n : nat) (timeLeft : float) : bool :=
  match n with
  | O => false
  | S n' => if timeLeft <=? 1 then true else fires_within n' (timeLeft - 1)
  end.

End Captcha.

(* ================================================================== *)
(** * backend/server.js: the other replies *)
(* ================================================================== *)

Module Reports.

Import Server.

(** [arr?.length || 0]: the length of an array, zero for a missing one. *)
Definition count {A : Type} (arr : option (list A)) : nat :=
  match arr with
  | Some l => List.length l
  | None => 0
  end.

(** The [analysis] object of the reply of the validation endpoint. *)
Record Analysis := {
  analysis_mouseMovements : nat;
  analysis_clicks : nat;
  analysis_keystrokes : nat;
  analysis_sessionDuration : float
}.

Definition analysis (behaviorData : BehaviorData) : Analysis :=
  {| analysis_mouseMovements := count (mouseMovements behaviorData);
     analysis_clicks := count (clicks behaviorData);
     analysis_keystrokes := count (keystrokes behaviorData);
     analysis_sessionDuration := or_zero (sessionDuration behaviorData) |}.

(** [app.post('/api/analytics')] *)
Record Analytics := {
  totalInteractions : nat;
  avgMouseVelocity : float;
  analytics_clickFrequency : float;
  avgKeystrokeDuration : float;
  analytics_sessionDuration : float
}.

(** The replies of the analytics endpoint: the analytics, or the 500 of
    its [catch]. *)
Inductive analytics_reply : Type :=
| AnalyticsOk (analytics : Analytics)
| AnalyticsFailed.

(** A request without [behaviorData] makes the first property read throw,
    and the [catch] answers 500: this endpoint has no test of its own for
    the missing input. *)
Definition analytics (behaviorData : option BehaviorData) : analytics_reply :=
  match behaviorData with
  | None => AnalyticsFailed
  | Some behaviorData =>
      AnalyticsOk
        {| totalInteractions :=
             count (mouseMovements behaviorData) + count (clicks behaviorData)
             + count (keystrokes behaviorData);
           avgMouseVelocity :=
             match mouseMovements behaviorData with
             | Some ((_ :: _) as mm) => avgVelocity mm
             | _ => 0
             end;
           analytics_clickFrequency :=
             match clicks behaviorData with
             | Some ((_ :: _) as cl) =>
                 if to_number (sessionDuration behaviorData) >? 0
                 then length_num cl / (to_number (sessionDuration behaviorData) / 1000)
                 else 0
             | _ => 0
             end;
           avgKeystrokeDuration :=
             match keystrokes behaviorData with
             | Some ((_ :: _) as ks) => avgDuration ks
             | _ => 0
             end;
           analytics_sessionDuration := or_zero (sessionDuration behaviorData) |}
  end.

End Reports.

(* ================================================================== *)
(** * frontend/src/services/captchaApi.ts *)
(* ================================================================== *)

Module Api.

(** What a request to the backend can come to: [fetch] rejects, or there
    is a response with a status and a body that is JSON or is not. *)
Inductive http (A : Type) : Type :=
| Unreachable (message : string)
| Responds (ok : bool) (body : option A).

Arguments Unreachable {A} message.
Arguments Responds {A} ok body.

Definition makeRequest {A : Type} (r : http A) : result A :=
  match r with
  | Unreachable message => throw (Error message)
  | Responds false _ => throw (Error "HTTP error!")
  | Responds true None => throw (Error "invalid json response body")
  | Responds true (Some body) => ret body
  end.

(** [CaptchaValidationResponse] and its [result], with the fields the
    client reads.  The interface declares [isHuman] a boolean and the
    scores numbers; the reply holds what the server wrote. *)
Record ValidationResult := {
  isHuman : value;
  riskScore : value;
  confidence : value;
  needsChallenge : bool;
  analysis : Reports.Analysis
}.

Record CaptchaValidationResponse := {
  success : bool;
  result : option ValidationResult
}.

Record ChallengeResponse := {
  challenge_success : bool;
  challenge : option Server.Challenge
}.

(** A number after [JSON.stringify] and [JSON.parse].  A number that is
    not finite is written as [null], and every use the server makes of
    these fields (arithmetic, comparison, [|| 0]) takes [null] for zero;
    [-0] is written as [0]. *)
Definition json_number (v : float) : float :=
  if is_finite v then (if v =? 0 then 0 else v) else 0.

(** The body of [validateBehavior(behaviorData)] as the server parses it. *)
Definition request_body (behaviorData : Tracking.BehaviorData) : Server.BehaviorData :=
  {| Server.mouseMovements :=
       Some (map (fun m =>
                    {| Server.mx := json_number (Tracking.x m);
                       Server.my := json_number (Tracking.y m);
                       Server.mtimestamp := json_number (Tracking.timestamp m);
                       Server.velocity := Some (json_number (Tracking.velocity m));
                       Server.acceleration := Some (json_number (Tracking.acceleration m)) |})
                 (Tracking.mouseMovements behaviorData));
     Server.clicks :=
       Some (map (fun c =>
                    {| Server.cx := json_number (Tracking.click_x c);
                       Server.cy := json_number (Tracking.click_y c);
                       Server.ctimestamp := json_number (Tracking.click_timestamp c) |})
                 (Tracking.clicks behaviorData));
     Server.keystrokes :=
       Some (map (fun k =>
                    {| Server.key := Tracking.key k;
                       Server.ktimestamp :=
                         match Tracking.key_timestamp k with
                         | Tracking.PressedAt t => Some (json_number t)
                         | Tracking.FromPrototype => None
                         end;
                       Server.duration := Some (json_number (Tracking.duration k)) |})
                 (Tracking.keystrokes behaviorData));
     Server.sessionDuration := Some (json_number (Tracking.sessionDuration behaviorData)) |}.

(** A value after [res.json] and [JSON.parse]: a number that is not
    finite is written as [null] and [-0] as [0]; [undefined] is written
    as [null] inside an array and left out of an object. *)
Fixpoint json_value (v : value) : value :=
  match v with
  | VNum n => if is_finite n then VNum (if n =? 0 then 0 else n) else VNull
  | VArr items =>
      VArr (map (fun x => match json_value x with
                          | VUndefined => VNull
                          | y => y
                          end) items)
  | VObj fields =>
      VObj (flat_map (fun kv => match json_value (snd kv) with
                                | VUndefined => []
                                | y => [(fst kv, y)]
                                end) fields)
  | _ => v
  end.

(** The reply of the validation endpoint as the client reads it. *)
Definition validation_body (a : Server.RiskAssessment) (an : Reports.Analysis)
    : CaptchaValidationResponse :=
  {| success := true;
     result := Some {| isHuman := json_value (Server.isHuman a);
                       riskScore := json_value (VNum (Server.riskScore a));
                       confidence := json_value (VNum (Server.confidence a));
                       needsChallenge := Server.needsChallenge a;
                       analysis := an |} |}.

(** [POST /captcha/validate] with the behaviour data of the hook, the ML
    service doing [o]. *)
Definition validateBehavior (behaviorData : Tracking.BehaviorData)
    (sessionId : string) (o : Server.fetch_outcome)
    : http CaptchaValidationResponse :=
  let body := request_body behaviorData in
  match Server.validate (Some body) sessionId o with
  | Server.Json200 a => Responds true (Some (validation_body a (Reports.analysis body)))
  | _ => Responds false (Some {| success := false; result := None |})
  end.

(** [POST /captcha/challenge] *)
Definition requestChallenge (sessionId now iso : string) (challengeType : string)
    : http ChallengeResponse :=
  match Server.issue challengeType sessionId now iso with
  | Server.ChallengeOk c =>
      Responds true (Some {| challenge_success := true; challenge := Some c |})
  | Server.ChallengeFailed =>
      Responds false (Some {| challenge_success := false; challenge := None |})
  end.

End Api.

(* ================================================================== *)
(** * frontend/src/components/captcha/CompleteCaptchaSystem.tsx *)
(* ================================================================== *)

Module System.

Import Captcha.

(** Challenge selection based on which behavioural aspects were
    problematic. *)
Definition selectChallengeType (result : Api.ValidationResult) : string :=
  if (Reports.analysis_mouseMovements (Api.analysis result) <? 5)%nat
  then "mouse-pattern"
  else if (Reports.analysis_clicks (Api.analysis result) <? 2)%nat
  then "click-sequence"
  else "typing-cadence".

Definition setChallenge (c : option Server.Challenge) (s : Session) : Session :=
  {| captchaState := captchaState s; challenge := c;
     finalResult := finalResult s;
     timeLeft := timeLeft s; isComplete := isComplete s;
     clickSequence := clickSequence s; typedText := typedText s;
     startTime := startTime s |}.

Definition clearFinalResult (s : Session) : Session :=
  {| captchaState := captchaState s; challenge := challenge s;
     finalResult := None;
     timeLeft := timeLeft s; isComplete := isComplete s;
     clickSequence := clickSequence s; typedText := typedText s;
     startTime := startTime s |}.

(** The first render of [ChallengeSystem] for the challenge [c], at time
    [now]: its state starts afresh. *)
Definition mount (c : Server.Challenge) (now : float) (s : Session) : Session :=
  {| captchaState := captchaState s; challenge := challenge s;
     finalResult := finalResult s;
     timeLeft := int_to_number (Server.timeLimit c) / 1000;
     isComplete := false;
     clickSequence := [];
     typedText := "";
     startTime := now |}.

(** [validateBehavior]: [validation] is what the request to the
    validation endpoint comes to, [requestChallenge] what a request for a
    challenge of a given type comes to, [now] the time at which the
    challenge, if any, is shown. *)
Definition validateBehavior (validation : Api.http Api.CaptchaValidationResponse)
    (requestChallenge : string -> Api.http Api.ChallengeResponse)
    (now : float) (s : Session) : Session :=
  let s := setCaptchaState st_analyzing s in
  match
    (response <- Api.makeRequest validation ;;
     match Api.success response, Api.result response with
     | true, Some result =>
         if Api.needsChallenge result then
           (* Request appropriate challenge based on risk factors *)
           let challengeType := selectChallengeType result in
           challengeResponse <- Api.makeRequest (requestChallenge challengeType) ;;
           match Api.challenge_success challengeResponse,
                 Api.challenge challengeResponse with
           | true, Some c =>
               ret (mount c now (setCaptchaState st_challenge (setChallenge (Some c) s)))
           | _, _ =>
               (* Fallback to failure if challenge generation fails *)
               ret (setCaptchaState st_failure
                      (setFinalResult
                         {| success := false; isHuman := VBool false;
                            confidence :=
                              if truthy (Api.confidence result)
                              then Api.confidence result else VNum 0;
                            challengeRequired := true;
                            method := "challenge_failed" |} s))
           end
         else
           (* Passed without challenge *)
           ret (setCaptchaState st_success
                  (setFinalResult
                     {| success := true; isHuman := Api.isHuman result;
                        confidence := Api.confidence result;
                        challengeRequired := false;
                        method := "ml_model" |} s))
     | _, _ => throw (Error "Validation failed")
     end)
  with
  | inr s' => s'
  | inl error =>
      setCaptchaState st_failure
        (setFinalResult
           {| success := false; isHuman := VBool false; confidence := VNum 0;
              challengeRequired := false; method := "error" |} s)
  end.

(** The session of the first render, and of every [resetSystem]. *)
Definition collecting : Session :=
  {| captchaState := st_collecting; challenge := None; finalResult := None;
     timeLeft := 0; isComplete := false; clickSequence := []; typedText := "";
     startTime := 0 |}.

(** [resetSystem], on the hook and on the session. *)
Definition resetSystem (now : float) (hs : Tracking.Hook * Session)
    : Tracking.Hook * Session :=
  (Tracking.reset now (fst hs),
   setCaptchaState st_collecting (clearFinalResult (setChallenge None (snd hs)))).

(** [collectionProgress]: the lengths are whole numbers, and so is their
    sum. *)
Definition totalInteractions (behaviorData : Tracking.BehaviorData) : nat :=
  List.length (Tracking.mouseMovements behaviorData)
  + List.length (Tracking.clicks behaviorData)
  + List.length (Tracking.keystrokes behaviorData).

Definition progress (behaviorData : Tracking.BehaviorData) : float :=
  Math_min 100
    (length_num (Tracking.mouseMovements behaviorData) / 10 * 40
     + Math_min (Tracking.sessionDuration behaviorData) 3000 / 3000 * 40
     + of_int (Z.of_nat (totalInteractions behaviorData)) / 5 * 20).

(** The auto-validation effect: whether it calls [validateBehavior]. *)
Definition autoValidates (autoValidationEnabled : bool) (state : CaptchaState)
    (behaviorData : Tracking.BehaviorData) : bool :=
  match autoValidationEnabled, state with
  | true, st_collecting =>
      (10 <=? List.length (Tracking.mouseMovements behaviorData))%nat
      && (3000 <=? Tracking.sessionDuration behaviorData)
      && (5 <=? totalInteractions behaviorData)%nat
      && (100 <=? progress behaviorData)
  | _, _ => false
  end.

(** The whole analysis, against the backend: the behaviour data of the
    hook go to the validation endpoint, whose ML service does [o], and
    the challenge, when one is needed, comes from the challenge endpoint. *)
Definition analyse (behaviorData : Tracking.BehaviorData)
    (sessionId : string) (o : Server.fetch_outcome)
    (stamp_now stamp_iso : string) (now : float) (s : Session) : Session :=
  validateBehavior (Api.validateBehavior behaviorData sessionId o)
    (Api.requestChallenge sessionId stamp_now stamp_iso) now s.

End System.

(* ================================================================== *)
(** * CompleteCaptchaSystem.tsx: the life of the component *)
(* ================================================================== *)

Module Lifecycle.

Import Captcha.

(** What can happen to the component: a document listener of the hook
    fires; a validation runs (the effect and the button that start one
    exist in the collecting state only) and its requests come to
    [validation] and [requestChallenge]; the challenge shown takes an
    event; the button of the success and failure screens is pressed. *)
Inductive Action : Type :=
| Tracked (e : Tracking.Event)
| Validated (validation : Api.http Api.CaptchaValidationResponse)
            (requestChallenge : string -> Api.http Api.ChallengeResponse)
            (now : float)
| Challenged (e : Captcha.Event)
| ResetPressed (now : float).

(** The hook is reset by [resetSystem] only. *)
Definition act (hs : Tracking.Hook * Session) (a : Action) : Tracking.Hook * Session :=
  match a with
  | Tracked (Tracking.Reset _) => hs
  | Tracked e => (Tracking.step (fst hs) e, snd hs)
  | Validated validation requestChallenge now =>
      match captchaState (snd hs) with
      | st_collecting =>
          (fst hs, System.validateBehavior validation requestChallenge now (snd hs))
      | _ => hs
      end
  | Challenged e => (fst hs, Captcha.step (snd hs) e)
  | ResetPressed now =>
      match captchaState (snd hs) with
      | st_success | st_failure => System.resetSystem now hs
      | _ => hs
      end
  end.

Definition first_render (now : float) : Tracking.Hook * Session :=
  (Tracking.init now, System.collecting).

Definition session_after (now : float) (actions : list Action) : Session :=
  snd (fold_left act actions (first_render now)).

(** What the session shows in each state. *)
Definition consistent (s : Session) : Prop :=
  match captchaState s with
  | st_collecting => finalResult s = None
  | st_analyzing => False
  | st_challenge => finalResult s = None /\ challenge s <> None
  | st_success =>
      exists b c,
        finalResult s =
        Some {| success := true; isHuman := b; confidence := c;
                challengeRequired := false; method := "ml_model" |}
  | st_failure =>
      finalResult s = None \/
      exists r, finalResult s = Some r /\ success r = false /\
                isHuman r = VBool false /\
                (method r = "timeout" \/ method r = "error" \/
                 method r = "challenge_failed")
  end.

End Lifecycle.

(* ================================================================== *)
(** * useBehaviorTracking.ts: the analytics of the hook *)
(* ================================================================== *)

Module HookAnalytics.

Import Tracking.

Definition avgVelocity (behaviorData : BehaviorData) : float :=
  match mouseMovements behaviorData with
  | [] => 0
  | mm => fold_left (fun sum m => sum + velocity m) mm 0 / length_num mm
  end.

(** [Math.max(...mouseMovements.map(m => m.velocity))] *)
Definition maxVelocity (behaviorData : BehaviorData) : float :=
  match mouseMovements behaviorData with
  | [] => 0
  | mm => fold_left (fun acc m => Math_max acc (velocity m)) mm neg_infinity
  end.

Definition clickFrequency (behaviorData : BehaviorData) : float :=
  match clicks behaviorData with
  | [] => 0
  | cl =>
      if sessionDuration behaviorData >? 0
      then length_num cl / (sessionDuration behaviorData / 1000)
      else 0
  end.

Definition avgKeystrokeDuration (behaviorData : BehaviorData) : float :=
  match keystrokes behaviorData with
  | [] => 0
  | ks => fold_left (fun sum k => sum + duration k) ks 0 / length_num ks
  end.

(** Simple human vs bot classification *)
Definition calculateHumanProbability (behaviorData : BehaviorData) : float :=
  let avgV := avgVelocity behaviorData in
  let freq := clickFrequency behaviorData in
  let score := 0.5 in
  let score := if (avgV >? 0.1) && (avgV <? 5.0) then score + 0.2 else score in
  let score := if (freq >? 0.01) && (freq <? 5.0) then score + 0.2 else score in
  let score :=
    if (10 <? List.length (mouseMovements behaviorData))%nat
    then score + 0.1 else score in
  Math_min (Math_max score 0) 1.

Record Analytics := {
  analytics_avgVelocity : float;
  analytics_maxVelocity : float;
  analytics_clickFrequency : float;
  analytics_avgKeystrokeDuration : float;
  analytics_sessionDuration : float;
  analytics_isHuman : float
}.

Definition getAnalytics (behaviorData : BehaviorData) : Analytics :=
  {| analytics_avgVelocity := avgVelocity behaviorData;
     analytics_maxVelocity := maxVelocity behaviorData;
     analytics_clickFrequency := clickFrequency behaviorData;
     analytics_avgKeystrokeDuration := avgKeystrokeDuration behaviorData;
     analytics_sessionDuration := sessionDuration behaviorData;
     analytics_isHuman := calculateHumanProbability behaviorData |}.

End HookAnalytics.

(* ================================================================== *)
(** * ChallengeSystem.tsx: the drawing challenge *)
(* ================================================================== *)

Module Drawing.

Import Captcha.

(** A point of the path, with its time. *)
Definition Point : Type := (float * float * float)%type.

(** [mousePath] is state of [ChallengeSystem]; [isDrawing] is state of
    [MousePatternChallenge], the component declared inside the render of
    [ChallengeSystem] that holds the canvas. *)
Record Canvas := { mousePath : list Point; isDrawing : bool }.

Definition blank : Canvas := {| mousePath := []; isDrawing := false |}.

(** Every render of [ChallengeSystem] makes [MousePatternChallenge] a new
    function, which React takes for a component of another type: it
    unmounts the old one and mounts the new one, whose [isDrawing] is the
    initial [false]. *)
Definition remount (d : Canvas) : Canvas :=
  {| mousePath := mousePath d; isDrawing := false |}.

(** [startDrawing]: [setIsDrawing(true)], then [setMousePath([point])],
    which gives [ChallengeSystem] a new array and so another render. *)
Definition startDrawing (point : Point) (d : Canvas) : Canvas :=
  remount {| mousePath := [point]; isDrawing := true |}.

(** [draw]: nothing unless [isDrawing]; else the point joins the path,
    with another render of [ChallengeSystem]. *)
Definition draw (point : Point) (d : Canvas) : Canvas :=
  if negb (isDrawing d) then d
  else remount {| mousePath := (mousePath d ++ [point])%list;
                  isDrawing := isDrawing d |}.

(** The response [stopDrawing] sends, if any: [mousePath] is the path
    drawn so far. *)
Definition stopDrawing (c : Server.Challenge) (isDrawing : bool)
    (mousePath : list Point) (completionTime : float)
    : option ChallengeResponse :=
  if isDrawing && (20 <? List.length mousePath)%nat then
    Some {| challengeId := Server.challengeId c;
            response := {| mousePattern := Some mousePath;
                           answer_sequence := None;
                           text := None;
                           correct := None |};
            completionTime := completionTime |}
  else None.

(** What reaches the canvas: the mouse goes down, moves, goes up or
    leaves, at the time [now]; or [ChallengeSystem] renders for a reason
    of its own (the countdown sets [timeLeft] once a second). *)
Inductive Event : Type :=
| MouseDown (point : Point)
| MouseMove (point : Point)
| MouseUp (now : float)
| MouseLeave (now : float)
| Rendered.

(** The canvas after an event, and the response sent to
    [onChallengeComplete] at it, if any.  [startTime] is the time of the
    mount of [ChallengeSystem]. *)
Definition step (c : Server.Challenge) (startTime : float) (d : Canvas)
    (e : Event) : Canvas * option ChallengeResponse :=
  match e with
  | MouseDown point => (startDrawing point d, None)
  | MouseMove point => (draw point d, None)
  | MouseUp now | MouseLeave now =>
      ({| mousePath := mousePath d; isDrawing := false |},
       stopDrawing c (isDrawing d) (mousePath d) (now - startTime))
  | Rendered => (remount d, None)
  end.

(** The canvas after the events [es], and the responses sent on the way. *)
Fixpoint run (c : Server.Challenge) (startTime : float) (d : Canvas)
    (es : list Event) : Canvas * list ChallengeResponse :=
  match es with
  | [] => (d, [])
  | e :: rest =>
      let '(d', sent) := step c startTime d e in
      let '(d'', later) := run c startTime d' rest in
      (d'', match sent with
            | Some response => response :: later
            | None => later
            end)
  end.

End Drawing.

(* ================================================================== *)
(** * KeystrokeAnalyzer.tsx: key counts *)
(* ================================================================== *)

Module KeyCounts.

Import Keystrokes.

(** [keyFrequencies] and the heat map: an object used as a map from key
    names to counts. *)
Fixpoint lookup (k : string) (m : list (string * nat)) : option nat :=
  match m with
  | [] => None
  | (k', n) :: rest => if String.eqb k' k then Some n else lookup k rest
  end.

(** [m[k] = v]: an existing key keeps its place. *)
Fixpoint assign (k : string) (v : nat) (m : list (string * nat))
    : list (string * nat) :=
  match m with
  | [] => [(k, v)]
  | (k', n) :: rest =>
      if String.eqb k' k then (k, v) :: rest else (k', n) :: assign k v rest
  end.

(** [m[k] || 0] for a key that [Object.prototype] does not define. *)
Definition or_zero_count (v : option nat) : nat :=
  match v with Some n => n | None => 0 end.

(** [keystrokes.forEach(k => { m[k.key] = (m[k.key] || 0) + 1 })].  A key
    name that [Object.prototype] defines reads as a function, not as a
    count; there is no reading here for keystrokes with such a name (no
    key of a keyboard has one). *)
Definition count_keys (keystrokes : list Keystroke) : list (string * nat) :=
  fold_left (fun m k => assign (key k) (or_zero_count (lookup (key k) m) + 1) m)
            keystrokes [].

Definition inherited (k : string) : bool :=
  existsb (String.eqb k) Server.Object_prototype.

Definition keyFrequencies (keystrokes : list Keystroke) : option (list (string * nat)) :=
  if existsb (fun k => inherited (key k)) keystrokes then None
  else Some (count_keys keystrokes).

(** How many of the keystrokes are of the key [name]. *)
Definition occurrences (name : string) (keystrokes : list Keystroke) : nat :=
  List.length (filter (fun k => String.eqb (key k) name) keystrokes).

(** Detect common mistakes (repeated deletions, corrections) *)
Definition commonMistakes (keystrokes : list Keystroke) : nat :=
  List.length
    (filter (fun k => String.eqb (key k) "Backspace" || String.eqb (key k) "Delete")
            keystrokes).

End KeyCounts.

(* ================================================================== *)
(** * Inputs of the scenarios, and the window invariant *)
(* ================================================================== *)

Import Server.

(** Scenario A: nothing recorded in a session of half a second. *)
Definition scenarioA : BehaviorData :=
  {| mouseMovements := Some []; clicks := Some []; keystrokes := Some [];
     sessionDuration := Some 500 |}.

(** A reply of the classifier that the specification calls well formed,
    with a confidence of its own. *)
Definition confident_reply : value :=
  VObj [ ("success", VBool true);
         ("prediction", VObj [ ("is_human", VBool true);
                               ("risk_score", VNum 0.2);
                               ("confidence", VNum 0.9) ]) ].

(** A reply whose scores lie outside [[0,1]]. *)
Definition out_of_range_reply : value :=
  VObj [ ("success", VBool true);
         ("prediction", VObj [ ("is_human", VBool true);
                               ("risk_score", VNum 5);
                               ("confidence", VNum 7) ]) ].

(** Each buffer is the window of its capacity over a history. *)
Definition windows (h : Tracking.Hook)
    (pm : list Tracking.MouseData) (pc : list Tracking.ClickData)
    (pk : list Tracking.KeystrokeData) : Prop :=
  Tracking.mouseMovements (Tracking.behaviorData h) = Tracking.slice_last 50 pm /\
  Tracking.clicks (Tracking.behaviorData h) = Tracking.slice_last 20 pc /\
  Tracking.keystrokes (Tracking.behaviorData h) = Tracking.slice_last 30 pk.

(** A keystroke of 80 ms pressed [150 * i] ms into the session. *)
Definition keystroke_at (i : Z) : Keystrokes.Keystroke :=
  {| Keystrokes.key := "a";
     Keystrokes.timestamp := of_int (150 * i);
     Keystrokes.duration := 80 |}.

(** Ten keystrokes of 80 ms each, one every 150 ms. *)
Definition ten_keystrokes : list Keystrokes.Keystroke :=
  map keystroke_at [0; 1; 2; 3; 4; 5; 6; 7; 8; 9]%Z.

(** The click-sequence challenge as the endpoint issues it. *)
Definition issued_click_sequence : Server.Challenge :=
  Server.stamp (Some Server.click_sequence) "session_1" "1700000000000"
    "2023-11-14T22:13:20.000Z".

(** Two clicks. *)
Definition two_clicks : list ClickData :=
  [ {| cx := 10; cy := 20; ctimestamp := 1700000000100 |};
    {| cx := 15; cy := 25; ctimestamp := 1700000000300 |} ].

(** Whether an event is a mouse move. *)
Definition moves_mouse (e : Tracking.Event) : bool :=
  match e with
  | Tracking.MouseMove _ _ _ => true
  | _ => false
  end.

(** Whether the progress of [n] mouse movements and [others] clicks and
    keystrokes, in a session of at least three seconds, is complete. *)
Definition progress_complete (n others : nat) : bool :=
  100 <=? Math_min 100
            (of_int (Z.of_nat n) / 10 * 40 + 3000 / 3000 * 40
             + of_int (Z.of_nat (n + others)) / 5 * 20).

(** Whether an event is a press or a release of the key [k]. *)
Definition touches_key (k : string) (e : Tracking.Event) : bool :=
  match e with
  | Tracking.KeyDown k' _ | Tracking.KeyUp k' _ => String.eqb k' k
  | _ => false
  end.

(** A session under challenge that is still there or has failed, with no
    result to show but the one of the timeout. *)
Definition challenged_or_failed (s : Captcha.Session) : Prop :=
  (Captcha.captchaState s = Captcha.st_challenge \/
   Captcha.captchaState s = Captcha.st_failure) /\
  (forall r, Captcha.finalResult s = Some r -> Captcha.method r = "timeout").

(** The typing challenge as the endpoint issues it. *)
Definition issued_typing_cadence : Server.Challenge :=
  Server.stamp (Some Server.typing_cadence) "session_1" "1700000000000"
    "2023-11-14T22:13:20.000Z".

(** One click in a session of four seconds. *)
Definition one_click_in_four_seconds : Tracking.BehaviorData :=
  {| Tracking.mouseMovements := [];
     Tracking.clicks :=
       [ {| Tracking.click_x := 10; Tracking.click_y := 20;
            Tracking.click_timestamp := 1700000000100 |} ];
     Tracking.keystrokes := [];
     Tracking.sessionDuration := 4000;
     Tracking.pageVisible := true |}.

(** Three keystrokes, one of them a correction. *)
Definition corrected_typing : list Keystrokes.Keystroke :=
  [ {| Keystrokes.key := "a"; Keystrokes.timestamp := 0; Keystrokes.duration := 80 |};
    {| Keystrokes.key := "Backspace"; Keystrokes.timestamp := 150;
       Keystrokes.duration := 80 |};
    {| Keystrokes.key := "a"; Keystrokes.timestamp := 300; Keystrokes.duration := 80 |} ].

(** A verdict of the classifier: not human, with a risk of 0.65 and a
    confidence of 0.9. *)
Definition confident_rejection : Server.fetch_outcome :=
  Server.FetchResponds true
    (Some (VObj [ ("success", VBool true);
                  ("prediction", VObj [ ("is_human", VBool false);
                                        ("risk_score", VNum 0.65);
                                        ("confidence", VNum 0.9) ]) ])).

(* ================================================================== *)
(** * Theorems *)
(* ================================================================== *)

(** ** The fallback scorer *)

(** Splits on every test the scorer makes; what is left of the score is a
    closed sum of constants. *)
Ltac split_tests :=
  repeat match goal with
  | |- context [if ?c then _ else _] =>
      lazymatch c with
      | context [if _ then _ else _] => fail
      | _ => destruct c
      end
  end.

Lemma score_and_confidence_bounds (bd : BehaviorData) :
  let r := calculateBasicRiskScore bd in
  let c := Math_abs (0.5 - r) * 2 in
  ((0 <=? r) && (r <=? 1) && (0 <=? c) && (c <=? 1))%bool = true.
Proof.
  unfold calculateBasicRiskScore.
  destruct (mouseMovements bd) as [[|m mm]|];
  destruct (clicks bd) as [[|k cl]|];
  destruct (keystrokes bd) as [[|k' ks]|]; cbv zeta;
  split_tests; vm_compute; reflexivity.
Qed.

(** C3.  Whatever the motion, click and keystroke samples and whatever the
    session duration (missing and non-numeric fields included), the score
    of the fallback scorer lies in [[0,1]], and so does the confidence
    [|0.5 - riskScore| * 2] derived from it. *)
Theorem fallback_score_in_unit_interval (bd : BehaviorData) :
  let r := calculateBasicRiskScore bd in
  let c := Math_abs (0.5 - r) * 2 in
  ((0 <=? r) = true /\ (r <=? 1) = true) /\
  ((0 <=? c) = true /\ (c <=? 1) = true).
Proof.
  intros r c.
  pose proof (score_and_confidence_bounds bd) as H. cbv zeta in H.
  fold r in H. fold c in H.
  repeat (apply andb_prop in H; destruct H as [H ?]).
  repeat split; assumption.
Qed.

(** C2.  Scenario A: no motion, no clicks, no keystrokes and a session of
    500 ms score [0.5 + 0.3 + 0.2 = 1.0]; when the classifier is down the
    endpoint answers [isHuman = false], [confidence = 1.0],
    [needsChallenge = true]; the earlier endpoint answers the same. *)
Theorem scenario_A :
  calculateBasicRiskScore scenarioA = 1 /\
  (forall sid message,
     validate (Some scenarioA) sid (FetchRejects message) =
     Json200 {| isHuman := VBool false; riskScore := 1; confidence := 1;
                needsChallenge := true; sessionId := sid;
                method := fallback_algorithm |}) /\
  (forall sid,
     validate_basic (Some scenarioA) sid =
     Some {| basic_isHuman := false; basic_riskScore := 1;
             basic_confidence := 1; basic_needsChallenge := true;
             basic_sessionId := sid |}).
Proof.
  split; [|split]; intros; vm_compute; reflexivity.
Qed.

(** ** The validation endpoint *)

Lemma validate_fallback bd sid o e :
  tryMLService o = inl e ->
  validate (Some bd) sid o = Json200 (fallback_assessment bd sid).
Proof. intros H. unfold validate. rewrite H. reflexivity. Qed.

Lemma validate_ml bd sid o h r c :
  tryMLService o = inr (h, r, c) ->
  validate (Some bd) sid o =
  Json200 {| isHuman := h; riskScore := r; confidence := c;
             needsChallenge := (r >? 0.7) || (c <? 0.4);
             sessionId := sid; method := ml_model |}.
Proof. intros H. unfold validate. rewrite H. reflexivity. Qed.

Lemma toFixed_not_a_number v : (forall n, v <> VNum n) -> toFixed v = inl TypeError.
Proof. destruct v; intros H; try reflexivity. now elim (H n). Qed.

Lemma classifier_failure_throws o :
  classifier_failure o -> exists e, tryMLService o = inl e.
Proof.
  unfold tryMLService.
  destruct 1 as [o e Hc | o v e Hc Hs | o v s Hc Hs Ht | o v p Hc Hp Ht
                | o v p r Hc Hp Hr Hn | o v p c Hc Hp Hcf Hn
                | o v p h Hc Hp Hh Hn];
    rewrite Hc; cbn [bind].
  - eauto.
  - rewrite Hs. cbn. eauto.
  - rewrite Hs. cbn [bind]. rewrite Ht. cbn [bind ret]. rewrite Ht. eauto.
  - destruct (get v "success") as [e|s]; cbn [bind]; [eauto|].
    destruct (truthy s) eqn:Hs; cbn [bind ret].
    + rewrite Hp. cbn [bind]. rewrite Ht. eauto.
    + rewrite Hs. eauto.
  - destruct (get v "success") as [e|s]; cbn [bind]; [eauto|].
    destruct (truthy s) eqn:Hs; cbn [bind ret]; [|rewrite Hs; eauto].
    rewrite Hp. cbn [bind]. destruct (truthy p); [|eauto].
    destruct (get p "is_human") as [e|h]; cbn [bind]; [eauto|].
    rewrite Hr. cbn [bind].
    destruct (get p "confidence") as [e|c]; cbn [bind]; [eauto|].
    destruct (to_string_check h) as [e|[]]; cbn [bind]; [eauto|].
    rewrite (toFixed_not_a_number r Hn). cbn. eauto.
  - destruct (get v "success") as [e|s]; cbn [bind]; [eauto|].
    destruct (truthy s) eqn:Hs; cbn [bind ret]; [|rewrite Hs; eauto].
    rewrite Hp. cbn [bind]. destruct (truthy p); [|eauto].
    destruct (get p "is_human") as [e|h]; cbn [bind]; [eauto|].
    destruct (get p "risk_score") as [e|r]; cbn [bind]; [eauto|].
    rewrite Hcf. cbn [bind].
    destruct (to_string_check h) as [e|[]]; cbn [bind]; [eauto|].
    destruct (toFixed r) as [e|n]; cbn [bind]; [eauto|].
    rewrite (toFixed_not_a_number c Hn). cbn. eauto.
  - destruct (get v "success") as [e|s]; cbn [bind]; [eauto|].
    destruct (truthy s) eqn:Hs; cbn [bind ret]; [|rewrite Hs; eauto].
    rewrite Hp. cbn [bind]. destruct (truthy p); [|eauto].
    rewrite Hh. cbn [bind].
    destruct (get p "risk_score") as [e|r]; cbn [bind]; [eauto|].
    destruct (get p "confidence") as [e|c]; cbn [bind]; [eauto|].
    unfold to_string_check. rewrite Hn. cbn. eauto.
Qed.

Lemma accepted_is_the_verdict o h r c :
  accepted o h r c -> tryMLService o = inr (h, r, c).
Proof.
  intros (fields & s & pfields & -> & Hs & Ts & Hp & -> & Hr & Hc & Hh).
  unfold tryMLService. cbn [callMLService negb bind ret get].
  rewrite Hs, Ts, Hp. cbn [truthy bind ret get]. rewrite Hr, Hc.
  unfold to_string_check. rewrite Hh. reflexivity.
Qed.

Lemma not_ok_throws endpoint v :
  exists e, callMLService endpoint (FetchResponds false (Some v)) = inl e.
Proof.
  unfold callMLService. cbn [negb].
  destruct (get v "error") as [e|x]; cbn [bind]; [eauto|].
  destruct (to_string_check _) as [e|[]]; cbn [bind throw]; eauto.
Qed.

(** Every outcome of the call is a failure of the list or a reply the
    endpoint takes the verdict from. *)
Lemma failure_or_accepted o :
  classifier_failure o \/ exists h r c, accepted o h r c.
Proof.
  destruct o as [message|[|] [v|]].
  - left. eapply call_throws. reflexivity.
  - assert (C : callMLService "/predict" (FetchResponds true (Some v)) = inr v)
      by reflexivity.
    destruct v as [| |b|n|str|items|fields];
      try (left; eapply reply_unreadable; [exact C|reflexivity]);
      try (left; eapply no_success; [exact C|reflexivity|reflexivity]).
    assert (G : forall name,
              get (VObj fields) name =
              inr (match assoc name fields with Some x => x | None => VUndefined end))
      by reflexivity.
    destruct (assoc "success" fields) as [s|] eqn:S;
      [|left; eapply no_success; [exact C|rewrite G, S; reflexivity|reflexivity]].
    destruct (truthy s) eqn:T;
      [|left; eapply no_success; [exact C|rewrite G, S; reflexivity|exact T]].
    destruct (assoc "prediction" fields) as [p|] eqn:P;
      [|left; eapply no_prediction; [exact C|rewrite G, P; reflexivity|reflexivity]].
    destruct p as [| |b|n|str|items|pfields];
      try (left; eapply no_prediction; [exact C|rewrite G, P; reflexivity|reflexivity]);
      try (left; eapply (risk_score_not_a_number _ _ _ VUndefined);
           [exact C|rewrite G, P; reflexivity|reflexivity|discriminate]).
    assert (Gp : forall name,
              get (VObj pfields) name =
              inr (match assoc name pfields with Some x => x | None => VUndefined end))
      by reflexivity.
    destruct (assoc "risk_score" pfields) as [[| |b|r|str|items|sub]|] eqn:R;
      try (left; eapply risk_score_not_a_number;
           [exact C|rewrite G, P; reflexivity|rewrite Gp, R; reflexivity|discriminate]).
    destruct (assoc "confidence" pfields) as [[| |b|c|str|items|sub]|] eqn:Cf;
      try (left; eapply confidence_not_a_number;
           [exact C|rewrite G, P; reflexivity|rewrite Gp, Cf; reflexivity|discriminate]).
    destruct (stringifies
                (match assoc "is_human" pfields with Some x => x | None => VUndefined end))
      eqn:H.
    + right. eexists _, r, c, fields, s, pfields. repeat split; eassumption.
    + left. eapply verdict_not_a_string;
        [exact C|rewrite G, P; reflexivity|apply Gp|exact H].
  - left. eapply call_throws. reflexivity.
  - left. destruct (not_ok_throws "/predict" v) as [e E].
    eapply call_throws. exact E.
  - left. eapply call_throws. reflexivity.
Qed.

(** Two closed floats that compare unequal are different. *)
Ltac floats_differ :=
  let H := fresh in
  intros H;
  match type of H with
  | ?a = ?b => apply (f_equal (fun v => v =? b)) in H
  end;
  vm_compute in H; discriminate H.

(** C1, as stated, fails: the endpoint passes on the confidence the
    classifier reports.  A reply with [risk_score = 0.2] and
    [confidence = 0.9] is answered with confidence [0.9], which is not
    [|0.5 - 0.2| * 2]. *)
Lemma ml_confidence_is_not_derived :
  spec_well_formed
    (VObj [ ("is_human", VBool true); ("risk_score", VNum 0.2);
            ("confidence", VNum 0.9) ]) = true /\
  validate (Some scenarioA) "session_1" (FetchResponds true (Some confident_reply)) =
  Json200 {| isHuman := VBool true; riskScore := 0.2; confidence := 0.9;
             needsChallenge := false; sessionId := "session_1";
             method := ml_model |} /\
  ~ confidence_invariant
      {| isHuman := VBool true; riskScore := 0.2; confidence := 0.9;
         needsChallenge := false; sessionId := "session_1";
         method := ml_model |}.
Proof.
  split; [reflexivity|split; [vm_compute; reflexivity|]].
  unfold confidence_invariant; cbn [confidence riskScore]. floats_differ.
Qed.

(** C1, amended.  An assessment whose method is [fallback_algorithm] has
    [confidence = |0.5 - riskScore| * 2]; one whose method is [ml_model]
    carries the risk score and the confidence of the classifier's
    prediction as they came; the earlier endpoint, which has no
    classifier, always derives the confidence. *)
Theorem confidence_by_method bd sid o a :
  validate (Some bd) sid o = Json200 a ->
  (method a = fallback_algorithm -> confidence_invariant a) /\
  (method a = ml_model ->
   exists h, tryMLService o = inr (h, riskScore a, confidence a)) /\
  (forall b, validate_basic (Some bd) sid = Some b ->
   basic_confidence b = Math_abs (0.5 - basic_riskScore b) * 2).
Proof.
  intros H. destruct (tryMLService o) as [e|[[h r] c]] eqn:E.
  - rewrite (validate_fallback bd sid o e E) in H. injection H as <-.
    repeat split.
    + discriminate.
    + intros b Hb. injection Hb as <-. reflexivity.
  - rewrite (validate_ml bd sid o h r c E) in H. injection H as <-.
    repeat split.
    + discriminate.
    + intros _. exists h. reflexivity.
    + intros b Hb. injection Hb as <-. reflexivity.
Qed.

(** The classifier cannot be reached. *)
Lemma confidence_by_method_witness :
  validate (Some scenarioA) "session_1" (FetchRejects "ECONNREFUSED") =
  Json200 (fallback_assessment scenarioA "session_1") /\
  confidence_invariant (fallback_assessment scenarioA "session_1").
Proof.
  split; [reflexivity|].
  apply (confidence_by_method scenarioA "session_1" (FetchRejects "ECONNREFUSED")
           (fallback_assessment scenarioA "session_1")); reflexivity.
Defined.

(** C4, as stated, fails for a reply that is ill formed by its values
    only: scores outside [[0,1]] are accepted as the verdict of the
    model, and no fallback runs. *)
Lemma out_of_range_reply_is_accepted :
  spec_well_formed
    (VObj [ ("is_human", VBool true); ("risk_score", VNum 5);
            ("confidence", VNum 7) ]) = false /\
  validate (Some scenarioA) "session_1" (FetchResponds true (Some out_of_range_reply)) =
  Json200 {| isHuman := VBool true; riskScore := 5; confidence := 7;
             needsChallenge := true; sessionId := "session_1";
             method := ml_model |} /\
  validate (Some scenarioA) "session_1" (FetchResponds true (Some out_of_range_reply)) <>
  Json200 (fallback_assessment scenarioA "session_1").
Proof.
  split; [reflexivity|split; [vm_compute; reflexivity|]].
  intros H. vm_compute in H. discriminate H.
Qed.

(** C4, amended.  When the call to the classifier throws (the connection
    fails or times out, the status is not OK, the body is not JSON), or
    the reply has no truthy [success] or [prediction], or a score of the
    prediction is not a number, or its [is_human] has no conversion to a
    string, the endpoint answers 200 with the assessment of the
    deterministic fallback: the score of [calculateBasicRiskScore],
    [isHuman = riskScore < 0.6], [confidence = |0.5 - riskScore| * 2],
    [method = fallback_algorithm].  The error of the classifier does not
    reach the caller: whatever the call comes to, the reply is a 200.
    Every other reply (a JSON object with a truthy [success] and a
    prediction that is an object with numbers for its scores and an
    [is_human] that converts to a string) is taken as the verdict of the
    model, whatever the numbers. *)
Theorem classifier_failure_is_recovered bd sid :
  (forall o, classifier_failure o ->
     validate (Some bd) sid o = Json200 (fallback_assessment bd sid)) /\
  (isHuman (fallback_assessment bd sid) = VBool (calculateBasicRiskScore bd <? 0.6) /\
   riskScore (fallback_assessment bd sid) = calculateBasicRiskScore bd /\
   confidence_invariant (fallback_assessment bd sid) /\
   method (fallback_assessment bd sid) = fallback_algorithm) /\
  (forall o, exists a, validate (Some bd) sid o = Json200 a) /\
  (forall o h r c, accepted o h r c ->
     validate (Some bd) sid o =
     Json200 {| isHuman := h; riskScore := r; confidence := c;
                needsChallenge := (r >? 0.7) || (c <? 0.4);
                sessionId := sid; method := ml_model |}) /\
  (forall o, classifier_failure o \/ exists h r c, accepted o h r c) /\
  (forall o h r c, accepted o h r c -> ~ classifier_failure o) /\
  (forall o, classifier_failure o <-> exists e, tryMLService o = inl e) /\
  (forall o h r c, accepted o h r c <-> tryMLService o = inr (h, r, c)).
Proof.
  split; [|split; [|split; [|split; [|split; [|split; [|split]]]]]].
  - intros o H. destruct (classifier_failure_throws o H) as [e E].
    exact (validate_fallback bd sid o e E).
  - repeat split.
  - intros o. destruct (tryMLService o) as [e|[[h r] c]] eqn:E.
    + eexists. exact (validate_fallback bd sid o e E).
    + eexists. exact (validate_ml bd sid o h r c E).
  - intros o h r c A. apply validate_ml. now apply accepted_is_the_verdict.
  - exact failure_or_accepted.
  - intros o h r c A F. destruct (classifier_failure_throws o F) as [e E].
    rewrite (accepted_is_the_verdict o h r c A) in E. discriminate E.
  - intros o. split; [apply classifier_failure_throws|].
    intros [e E]. destruct (failure_or_accepted o) as [F|(h & r & c & A)]; [exact F|].
    rewrite (accepted_is_the_verdict o h r c A) in E. discriminate E.
  - intros o h r c. split; [apply accepted_is_the_verdict|].
    intros E. destruct (failure_or_accepted o) as [F|(h' & r' & c' & A)].
    + destruct (classifier_failure_throws o F) as [e E']. rewrite E in E'.
      discriminate E'.
    + rewrite (accepted_is_the_verdict o h' r' c' A) in E.
      injection E as <- <- <-. exact A.
Qed.

(** A classifier that answers 503 with an error message. *)
Lemma classifier_failure_is_recovered_witness :
  classifier_failure (FetchResponds false (Some (VObj [("error", VStr "model not trained")]))) /\
  validate (Some scenarioA) "session_1"
    (FetchResponds false (Some (VObj [("error", VStr "model not trained")]))) =
  Json200 (fallback_assessment scenarioA "session_1").
Proof.
  assert (F : classifier_failure
                (FetchResponds false (Some (VObj [("error", VStr "model not trained")])))).
  { eapply call_throws. reflexivity. }
  split; [exact F|].
  exact (proj1 (classifier_failure_is_recovered scenarioA "session_1") _ F).
Defined.

(** ** The challenge endpoint *)

(** C9, as stated, fails: a type the table does not know is answered with
    the mouse-pattern challenge, not with an error. *)
Lemma unknown_type_is_defaulted :
  own "audio" challenges = None /\
  issue "audio" "session_1" "1700000000000" "2023-11-14T22:13:20.000Z" =
  ChallengeOk (stamp (Some mouse_pattern) "session_1" "1700000000000"
                 "2023-11-14T22:13:20.000Z").
Proof. split; reflexivity. Qed.

(** C9, amended.  Issuing a challenge never fails, whatever the type.
    For a type that is neither a key of the table nor a name that
    [Object.prototype] defines, the endpoint itself substitutes the
    mouse-pattern challenge; for each of the three known types it answers
    with that entry of the table; for a name of [Object.prototype] it
    answers with a challenge that has none of the fields of the table. *)
Theorem unknown_type_gets_mouse_pattern challengeType sid now iso :
  own challengeType challenges = None ->
  existsb (String.eqb challengeType) Object_prototype = false ->
  issue challengeType sid now iso = ChallengeOk (stamp (Some mouse_pattern) sid now iso) /\
  (forall any, issue any sid now iso <> ChallengeFailed) /\
  (forall known t, own known challenges = Some t ->
     issue known sid now iso = ChallengeOk (stamp (Some t) sid now iso)) /\
  (forall inherited, In inherited Object_prototype ->
     issue inherited sid now iso = ChallengeOk (stamp None sid now iso)).
Proof.
  intros Hown Hproto. repeat split.
  - unfold issue, select, lookup. rewrite Hown, Hproto. reflexivity.
  - discriminate.
  - intros known t Hk. unfold issue, select, lookup. rewrite Hk. reflexivity.
  - intros inherited Hin. cbn in Hin.
    repeat (destruct Hin as [<-|Hin]; [reflexivity|]). contradiction.
Qed.

(** The type ["audio"]. *)
Lemma unknown_type_gets_mouse_pattern_witness :
  issue "audio" "session_1" "1700000000000" "2023-11-14T22:13:20.000Z" =
  ChallengeOk (stamp (Some mouse_pattern) "session_1" "1700000000000"
                 "2023-11-14T22:13:20.000Z").
Proof.
  exact (proj1 (unknown_type_gets_mouse_pattern "audio" "session_1"
                  "1700000000000" "2023-11-14T22:13:20.000Z" eq_refl eq_refl)).
Defined.

(** ** The telemetry buffers *)

Section Window.

Context {A : Type}.
Implicit Types (xs : list A) (x : A).

Lemma slice_last_length n xs :
  List.length (Tracking.slice_last n xs) = Nat.min n (List.length xs).
Proof. unfold Tracking.slice_last. rewrite length_skipn. lia. Qed.

Lemma slice_last_all n xs :
  (List.length xs <= n)%nat -> Tracking.slice_last n xs = xs.
Proof.
  intros H. unfold Tracking.slice_last.
  replace (List.length xs - n)%nat with 0%nat by lia. reflexivity.
Qed.

(** Appending to the last [n] gives the last [n + 1] of the appended list. *)
Lemma slice_last_snoc n xs x :
  (Tracking.slice_last n xs ++ [x])%list = Tracking.slice_last (S n) (xs ++ [x]).
Proof.
  unfold Tracking.slice_last.
  rewrite length_app, skipn_app. cbn [List.length].
  replace (List.length xs + 1 - S n)%nat with (List.length xs - n)%nat by lia.
  replace (List.length xs - n - List.length xs)%nat with 0%nat by lia.
  reflexivity.
Qed.

Lemma slice_last_slice_last n m xs :
  (n <= m)%nat ->
  Tracking.slice_last n (Tracking.slice_last m xs) = Tracking.slice_last n xs.
Proof.
  intros H. unfold Tracking.slice_last.
  rewrite length_skipn, skipn_skipn. f_equal. lia.
Qed.

(** One insertion into a window of capacity [S n] over the history. *)
Lemma window_push n xs hist x :
  xs = Tracking.slice_last (S n) hist ->
  (Tracking.slice_last n xs ++ [x])%list = Tracking.slice_last (S n) (hist ++ [x]).
Proof.
  intros ->. rewrite slice_last_slice_last by lia. apply slice_last_snoc.
Qed.

(** With [n + k] samples in the history, the window of capacity [n] holds
    the history without its first [k] samples. *)
Lemma slice_last_overflow n k xs :
  List.length xs = (n + k)%nat -> Tracking.slice_last n xs = skipn k xs.
Proof.
  intros H. unfold Tracking.slice_last. f_equal. lia.
Qed.

End Window.

Lemma windows_run es : forall h pm pc pk,
  windows h pm pc pk ->
  windows (Tracking.run h es)
    (Tracking.recorded_mouse pm h es)
    (Tracking.recorded_clicks pc h es)
    (Tracking.recorded_keys pk h es).
Proof.
  induction es as [|e es IH]; intros h pm pc pk W; [exact W|].
  cbn [Tracking.run fold_left Tracking.recorded_mouse Tracking.recorded_clicks
       Tracking.recorded_keys].
  apply IH. destruct W as (Wm & Wc & Wk).
  destruct e as [cx cy now|cx cy now|k now|k now|hidden|now];
    cbn [Tracking.step]; unfold windows.
  - cbn. repeat split; try assumption. now apply window_push.
  - cbn. repeat split; try assumption. now apply window_push.
  - unfold Tracking.handleKeyDown.
    destruct (String.eqb k "__proto__"); cbn; repeat split; assumption.
  - unfold Tracking.handleKeyUp. destruct (Tracking.pressed k h) as [startTime|].
    + cbn. repeat split; try assumption. now apply window_push.
    + repeat split; assumption.
  - cbn. repeat split; assumption.
  - cbn. repeat split; reflexivity.
Qed.

(** C5.  After any sequence of events, starting from the first render,
    the motion, click and keystroke buffers hold at most 50, 20 and 30
    samples, and each holds the last 50 (20, 30) of the samples recorded
    so far, in the order of their insertion: once [N + k] samples have
    been inserted into the buffer of capacity [N], the first [k] are gone
    and the rest is there. *)
Theorem buffers_are_bounded_fifo (now0 : float) (es : list Tracking.Event) :
  let h := Tracking.run (Tracking.init now0) es in
  let b := Tracking.behaviorData h in
  let hm := Tracking.recorded_mouse [] (Tracking.init now0) es in
  let hc := Tracking.recorded_clicks [] (Tracking.init now0) es in
  let hk := Tracking.recorded_keys [] (Tracking.init now0) es in
  ((List.length (Tracking.mouseMovements b) <= 50)%nat /\
   (List.length (Tracking.clicks b) <= 20)%nat /\
   (List.length (Tracking.keystrokes b) <= 30)%nat) /\
  (Tracking.mouseMovements b = Tracking.slice_last 50 hm /\
   Tracking.clicks b = Tracking.slice_last 20 hc /\
   Tracking.keystrokes b = Tracking.slice_last 30 hk) /\
  (forall k,
     (List.length hm = (50 + k)%nat -> Tracking.mouseMovements b = skipn k hm) /\
     (List.length hc = (20 + k)%nat -> Tracking.clicks b = skipn k hc) /\
     (List.length hk = (30 + k)%nat -> Tracking.keystrokes b = skipn k hk)).
Proof.
  intros h b hm hc hk.
  assert (W : windows h hm hc hk).
  { apply windows_run. repeat split. }
  destruct W as (Wm & Wc & Wk). fold b in Wm, Wc, Wk.
  split; [|split].
  - rewrite Wm, Wc, Wk, !slice_last_length. lia.
  - repeat split; assumption.
  - intros k. repeat split; intros L.
    + rewrite Wm. now apply slice_last_overflow.
    + rewrite Wc. now apply slice_last_overflow.
    + rewrite Wk. now apply slice_last_overflow.
Qed.

(** ** Typing patterns *)

Lemma classify_is_a_pattern d f r :
  Keystrokes.classify d f r <> Keystrokes.insufficient_data.
Proof.
  unfold Keystrokes.classify.
  repeat match goal with |- context [if ?c then _ else _] => destruct c end;
    discriminate.
Qed.

(** C8, as stated, fails at exactly ten keystrokes: the list does not have
    fewer than ten, the thresholds would say touch-typing, and the
    analyzer answers insufficient-data. *)
Lemma ten_keystrokes_are_insufficient :
  List.length ten_keystrokes = 10%nat /\
  Keystrokes.typingPattern ten_keystrokes = Keystrokes.insufficient_data /\
  Keystrokes.spec_typingPattern ten_keystrokes = Keystrokes.touch_typing.
Proof. repeat split; vm_compute; reflexivity. Qed.

(** C8, amended.  The pattern is insufficient-data exactly when there are
    at most ten keystrokes; with more than ten the thresholds apply in
    the order bot-like, hunt-peck, touch-typing, hybrid.  This agrees with
    the classification as specified for every length but ten. *)
Theorem typing_pattern_thresholds (ks : list Keystrokes.Keystroke) :
  let avgDwell := Keystrokes.averageDwellTime ks in
  let avgFlight := Keystrokes.averageFlightTime ks in
  let rhythm := Keystrokes.rhythmVariability ks in
  Keystrokes.typingPattern ks =
    (if (List.length ks <=? 10)%nat then Keystrokes.insufficient_data
     else if (avgDwell <? 30) && (avgFlight <? 100) && (rhythm <? 50)
          then Keystrokes.bot_like
     else if (avgDwell >? 200) || (avgFlight >? 500) || (rhythm >? 300)
          then Keystrokes.hunt_peck
     else if (avgDwell <? 100) && (avgFlight <? 200) && (rhythm <? 100)
          then Keystrokes.touch_typing
     else Keystrokes.hybrid) /\
  (Keystrokes.typingPattern ks = Keystrokes.insufficient_data <->
   (List.length ks <= 10)%nat) /\
  (List.length ks <> 10%nat ->
   Keystrokes.typingPattern ks = Keystrokes.spec_typingPattern ks).
Proof.
  intros avgDwell avgFlight rhythm.
  assert (E : Keystrokes.typingPattern ks =
              if (List.length ks <=? 10)%nat then Keystrokes.insufficient_data
              else Keystrokes.classify avgDwell avgFlight rhythm).
  { unfold Keystrokes.typingPattern. destruct ks as [|k ks]; [reflexivity|].
    destruct (Nat.ltb_spec 10 (List.length (k :: ks)));
      destruct (Nat.leb_spec (List.length (k :: ks)) 10); try lia; reflexivity. }
  split; [exact E|split].
  - rewrite E. destruct (Nat.leb_spec (List.length ks) 10) as [L|L].
    + tauto.
    + split; [intros H; now apply classify_is_a_pattern in H | lia].
  - intros N. rewrite E. unfold Keystrokes.spec_typingPattern.
    destruct (Nat.leb_spec (List.length ks) 10);
      destruct (Nat.ltb_spec (List.length ks) 10); try lia; reflexivity.
Qed.

(** ** Challenges *)

Lemma every_from_prefix newSequence : forall idx expected,
  Captcha.every_from idx newSequence expected = true <->
  exists tail, skipn idx expected = (newSequence ++ tail)%list.
Proof.
  induction newSequence as [|num rest IH]; intros idx expected; cbn [Captcha.every_from].
  - split; [intros _; now exists (skipn idx expected) | reflexivity].
  - rewrite andb_true_iff, IH. split.
    + intros [Hn [tail Ht]].
      destruct (nth_error expected idx) as [e|] eqn:E; [|discriminate].
      apply Z.eqb_eq in Hn. subst e. exists tail.
      rewrite <- (firstn_skipn idx expected) in E.
      rewrite nth_error_app2 in E by (rewrite length_firstn; lia).
      assert (L : (idx < List.length expected)%nat).
      { apply nth_error_Some. rewrite <- (firstn_skipn idx expected).
        rewrite nth_error_app2 by (rewrite length_firstn; lia). congruence. }
      rewrite length_firstn, Nat.min_l, Nat.sub_diag in E by lia.
      change (S idx) with (1 + idx)%nat in Ht. rewrite <- skipn_skipn in Ht.
      destruct (skipn idx expected) as [|e' tl]; [discriminate|].
      cbn in E, Ht. injection E as ->. now rewrite Ht.
    + intros [tail Ht].
      assert (E : nth_error expected idx = Some num).
      { rewrite <- (Nat.add_0_r idx), <- nth_error_skipn, Ht. reflexivity. }
      rewrite E. split; [apply Z.eqb_refl|].
      exists tail. change (S idx) with (1 + idx)%nat.
      rewrite <- skipn_skipn, Ht. reflexivity.
Qed.

(** With as many clicks as the challenge expects, [every] holds exactly
    for the expected sequence. *)
Lemma isCorrect_iff_equal newSequence expected :
  List.length newSequence = List.length expected ->
  Captcha.isCorrect newSequence expected = true <-> newSequence = expected.
Proof.
  intros L. unfold Captcha.isCorrect. rewrite every_from_prefix. cbn [skipn].
  split.
  - intros [tail ->]. rewrite length_app in L.
    destruct tail; [now rewrite app_nil_r | cbn in L; lia].
  - intros ->. exists []. now rewrite app_nil_r.
Qed.

(** C7.  For a click-sequence challenge, a response is sent when as many
    buttons have been clicked as the challenge expects; it carries
    [correct = true] exactly when the clicked sequence is the expected
    one, element by element, and [validateChallengeResponse], given the
    challenge shown, judges it valid exactly then, on which
    [handleChallengeComplete] would pass or fail the session.  With
    [[1,3,2]] expected, [[1,3,2]] is valid and [[1,2,3]] is not.  But the
    callback that runs is the one of the first render, whose challenge is
    [null]: the validation throws and every response fails the session,
    [[1,3,2]] like [[1,2,3]]. *)
Theorem click_sequence_valid_iff_equal
    (c : Server.Challenge) (expected newSequence : list Z) (t : float) :
  Server.type c = Some "click-sequence" ->
  Server.sequence c = Some expected ->
  (* a response is sent exactly for a sequence of the expected length *)
  (Captcha.click_response c newSequence t = None <->
   List.length newSequence <> List.length expected) /\
  (forall r, Captcha.click_response c newSequence t = Some r ->
     (* it is flagged correct, and valid, iff the two sequences are equal *)
     (Captcha.correct (Captcha.response r) = Some true <-> newSequence = expected) /\
     (Captcha.validateChallengeResponse (Some c) r = inr true <->
      newSequence = expected) /\
     (Captcha.validateChallengeResponse (Some c) r = inr false <->
      newSequence <> expected) /\
     (* the handler, had it the challenge shown in scope *)
     (forall s,
        (Captcha.captchaState (Captcha.handleChallengeComplete (Some c) r s)
         = Captcha.st_success <-> newSequence = expected) /\
        (Captcha.captchaState (Captcha.handleChallengeComplete (Some c) r s)
         = Captcha.st_failure <-> newSequence <> expected)) /\
     (* the handler that runs *)
     (forall s,
        Captcha.validateChallengeResponse Captcha.first_render_challenge r
        = inl TypeError /\
        Captcha.captchaState (Captcha.onChallengeComplete r s) = Captcha.st_failure /\
        Captcha.finalResult (Captcha.onChallengeComplete r s) = Captcha.finalResult s)) /\
  (* Scenario D *)
  (exists r,
     Captcha.click_response issued_click_sequence [1; 3; 2]%Z t = Some r /\
     Captcha.validateChallengeResponse (Some issued_click_sequence) r = inr true) /\
  (exists r,
     Captcha.click_response issued_click_sequence [1; 2; 3]%Z t = Some r /\
     Captcha.validateChallengeResponse (Some issued_click_sequence) r = inr false) /\
  (forall now n1 n2 n3,
     Captcha.captchaState
       (Captcha.run (Captcha.start issued_click_sequence now)
          [Captcha.ButtonClick 1 n1; Captcha.ButtonClick 2 n2;
           Captcha.ButtonClick 3 n3])
     = Captcha.st_failure) /\
  (forall now n1 n2 n3,
     let s := Captcha.run (Captcha.start issued_click_sequence now)
                [Captcha.ButtonClick 1 n1; Captcha.ButtonClick 3 n2;
                 Captcha.ButtonClick 2 n3] in
     Captcha.captchaState s = Captcha.st_failure /\ Captcha.finalResult s = None).
Proof.
  intros Ht Hs.
  assert (V : forall r, Captcha.click_response c newSequence t = Some r ->
              List.length newSequence = List.length expected /\
              Captcha.correct (Captcha.response r) =
              Some (Captcha.isCorrect newSequence expected) /\
              Captcha.validateChallengeResponse (Some c) r =
              inr (Captcha.isCorrect newSequence expected)).
  { intros r. unfold Captcha.click_response. rewrite Hs.
    destruct (Nat.eqb_spec (List.length newSequence) (List.length expected)) as [L|L];
      [|discriminate].
    intros [= <-]. split; [exact L|]. split; [reflexivity|].
    unfold Captcha.validateChallengeResponse, Captcha.has_type. rewrite Ht.
    cbn. destruct (Captcha.isCorrect newSequence expected); reflexivity. }
  split; [|split; [|split; [|split; [|split]]]].
  - unfold Captcha.click_response. rewrite Hs.
    destruct (Nat.eqb_spec (List.length newSequence) (List.length expected));
      split; intros; try congruence; try discriminate.
  - intros r Hr. destruct (V r Hr) as (L & Hf & Hv).
    pose proof (isCorrect_iff_equal newSequence expected L) as I.
    unfold Captcha.handleChallengeComplete. rewrite Hf, Hv.
    destruct (Captcha.isCorrect newSequence expected).
    + assert (E : newSequence = expected) by now apply I.
      repeat split; try reflexivity; try discriminate;
        try (intros _; exact E); try (intros N; now elim N).
    + assert (N : newSequence <> expected) by (intros E; apply I in E; discriminate).
      repeat split; try reflexivity; try discriminate;
        try (intros _; exact N); try (intros E; now elim N).
  - eexists. split; reflexivity.
  - eexists. split; reflexivity.
  - intros. reflexivity.
  - intros. split; reflexivity.
Qed.

(** The issued challenge, answered with the expected sequence. *)
Lemma click_sequence_valid_iff_equal_witness :
  exists r,
    Captcha.click_response issued_click_sequence [1; 3; 2]%Z 4200 = Some r /\
    (Captcha.validateChallengeResponse (Some issued_click_sequence) r = inr true <->
     [1; 3; 2]%Z = [1; 3; 2]%Z) /\
    Captcha.captchaState
      (Captcha.onChallengeComplete r (Captcha.start issued_click_sequence 0))
    = Captcha.st_failure.
Proof.
  eexists. split; [reflexivity|].
  pose proof (click_sequence_valid_iff_equal issued_click_sequence
                [1; 3; 2]%Z [1; 3; 2]%Z 4200 eq_refl eq_refl) as H.
  destruct H as (_ & H & _).
  specialize (H _ eq_refl). destruct H as (_ & V & _ & _ & R).
  split; [exact V|]. exact (proj1 (proj2 (R (Captcha.start issued_click_sequence 0)))).
Defined.

(** A terminal state takes no more events: [ChallengeSystem] is no longer
    rendered. *)
Lemma run_outside_challenge s es :
  Captcha.captchaState s <> Captcha.st_challenge -> Captcha.run s es = s.
Proof.
  intros N. induction es as [|e es IH]; [reflexivity|].
  cbn [Captcha.run fold_left]. unfold Captcha.step at 2.
  destruct (Captcha.captchaState s); try contradiction; exact IH.
Qed.

Lemma run_timed_out s es : Captcha.timed_out s -> Captcha.run s es = s.
Proof.
  intros [F _]. apply run_outside_challenge. rewrite F. discriminate.
Qed.

Lemma run_app s es1 es2 :
  Captcha.run s (es1 ++ es2) = Captcha.run (Captcha.run s es1) es2.
Proof. apply fold_left_app. Qed.

Lemma fires_within_timed_out n : forall s c,
  Captcha.captchaState s = Captcha.st_challenge ->
  Captcha.challenge s = Some c ->
  Captcha.fires_within n (Captcha.timeLeft s) = true ->
  Captcha.timed_out (Captcha.run s (repeat Captcha.Tick n)).
Proof.
  induction n as [|n IH]; intros s c Hs Hc F; [discriminate F|].
  cbn [repeat Captcha.run fold_left]. cbn [Captcha.fires_within] in F.
  unfold Captcha.step at 2. rewrite Hs, Hc. unfold Captcha.tick.
  destruct (Captcha.timeLeft s <=? 1).
  - set (s' := Captcha.handleChallengeTimeout _).
    assert (T : Captcha.timed_out s') by (split; reflexivity).
    fold (Captcha.run s' (repeat Captcha.Tick n)).
    now rewrite (run_timed_out _ _ T).
  - apply (IH _ c); [exact Hs|exact Hc|exact F].
Qed.

(** The countdown of a limit of [k] whole seconds, from one second to an
    hour, fires within [k] runs. *)
Lemma whole_seconds_fire :
  forallb (fun k => Captcha.fires_within k (of_int (1000 * Z.of_nat k) / 1000))
          (seq 1 3600) = true.
Proof. vm_compute. reflexivity. Qed.

Lemma fires_within_mono n : forall k timeLeft,
  (k <= n)%nat -> Captcha.fires_within n timeLeft = false ->
  Captcha.fires_within k timeLeft = false.
Proof.
  induction n as [|n IH]; intros k timeLeft L F.
  - now replace k with 0%nat by lia.
  - destruct k as [|k]; [reflexivity|]. cbn [Captcha.fires_within] in *.
    destruct (timeLeft <=? 1); [discriminate F|]. apply IH; [lia|exact F].
Qed.

Lemma tick_counts_down s c :
  Captcha.captchaState s = Captcha.st_challenge ->
  Captcha.challenge s = Some c ->
  (Captcha.timeLeft s <=? 1) = false ->
  Captcha.step s Captcha.Tick = Captcha.setTimeLeft (Captcha.timeLeft s - 1) s.
Proof.
  intros Hs Hc F. unfold Captcha.step, Captcha.tick. now rewrite Hs, Hc, F.
Qed.

Lemma still_open n : forall s c,
  Captcha.captchaState s = Captcha.st_challenge ->
  Captcha.challenge s = Some c ->
  Captcha.fires_within n (Captcha.timeLeft s) = false ->
  Captcha.captchaState (Captcha.run s (repeat Captcha.Tick n)) = Captcha.st_challenge /\
  Captcha.finalResult (Captcha.run s (repeat Captcha.Tick n)) = Captcha.finalResult s.
Proof.
  induction n as [|n IH]; intros s c Hs Hc F; [split; [exact Hs|reflexivity]|].
  cbn [Captcha.fires_within] in F.
  destruct (Captcha.timeLeft s <=? 1) eqn:T; [discriminate F|].
  change (Captcha.run s (repeat Captcha.Tick (S n)))
    with (Captcha.run (Captcha.step s Captcha.Tick) (repeat Captcha.Tick n)).
  rewrite (tick_counts_down s c Hs Hc T).
  apply (IH (Captcha.setTimeLeft (Captcha.timeLeft s - 1) s) c); assumption.
Qed.

(** The countdown of a limit of [k] whole seconds, from one second to an
    hour, does not fire within [k - 1] runs. *)
Lemma whole_seconds_do_not_fire_early :
  forallb (fun k => negb (Captcha.fires_within (k - 1)
                            (of_int (1000 * Z.of_nat k) / 1000)))
          (seq 1 3600) = true.
Proof. vm_compute. reflexivity. Qed.

(** What a user submits leaves the result of the session as it is. *)
Lemma step_submits_keeps_result s e :
  Captcha.submits e = true ->
  Captcha.finalResult (Captcha.step s e) = Captcha.finalResult s.
Proof.
  intros S. unfold Captcha.step.
  destruct (Captcha.captchaState s); try reflexivity.
  destruct (Captcha.challenge s) as [c|]; [|reflexivity].
  destruct e as [|buttonNumber now|value now]; [discriminate S| |].
  - destruct (Captcha.has_type c "click-sequence" && negb (Captcha.isComplete s));
      [|reflexivity].
    unfold Captcha.handleButtonClick.
    destruct (Captcha.click_response _ _ _); reflexivity.
  - destruct (Captcha.has_type c "typing-cadence" && negb (Captcha.isComplete s));
      [|reflexivity].
    unfold Captcha.handleInputChange. cbn [Captcha.setTypedText Captcha.startTime].
    destruct (Server.expectedText c) as [expected|]; [|reflexivity].
    destruct (String.eqb value expected); reflexivity.
Qed.

Lemma run_submits_keeps_result es : forall s,
  forallb Captcha.submits es = true ->
  Captcha.finalResult (Captcha.run s es) = Captcha.finalResult s.
Proof.
  induction es as [|e es IH]; intros s F; [reflexivity|].
  cbn [forallb] in F. apply andb_prop in F. destruct F as [Fe F].
  cbn [Captcha.run fold_left]. fold (Captcha.run (Captcha.step s e) es).
  rewrite IH by exact F. now apply step_submits_keeps_result.
Qed.

(** A challenge of [k] whole seconds has timed out once the callback has
    run [k] times, whatever is submitted then. *)
Lemma timed_out_from c mounted (k n : nat) es :
  (1 <= k <= 3600)%nat ->
  Server.timeLimit c = Some (1000 * Z.of_nat k)%Z ->
  (k <= n)%nat ->
  Captcha.timed_out
    (Captcha.run (Captcha.run (Captcha.start c mounted) (repeat Captcha.Tick n)) es).
Proof.
  intros K L N.
  assert (T : Captcha.timed_out
                (Captcha.run (Captcha.start c mounted) (repeat Captcha.Tick k))).
  { apply (fires_within_timed_out k _ c); try reflexivity.
    cbn [Captcha.start Captcha.timeLeft]. rewrite L. cbn [int_to_number].
    pose proof whole_seconds_fire as F. rewrite forallb_forall in F.
    apply F. apply in_seq. lia. }
  replace n with (k + (n - k))%nat by lia.
  rewrite repeat_app, run_app, (run_timed_out _ _ T), (run_timed_out _ _ T).
  exact T.
Qed.

(** Before that it is under challenge, without a result, and what is
    submitted does not time it out. *)
Lemma open_before c mounted (k n : nat) es :
  (1 <= k <= 3600)%nat ->
  Server.timeLimit c = Some (1000 * Z.of_nat k)%Z ->
  (n < k)%nat ->
  forallb Captcha.submits es = true ->
  Captcha.captchaState (Captcha.run (Captcha.start c mounted) (repeat Captcha.Tick n))
  = Captcha.st_challenge /\
  ~ Captcha.timed_out
      (Captcha.run (Captcha.run (Captcha.start c mounted) (repeat Captcha.Tick n)) es).
Proof.
  intros K L N S.
  assert (F : Captcha.fires_within (k - 1)
                (Captcha.timeLeft (Captcha.start c mounted)) = false).
  { cbn [Captcha.start Captcha.timeLeft]. rewrite L. cbn [int_to_number].
    pose proof whole_seconds_do_not_fire_early as W. rewrite forallb_forall in W.
    apply negb_true_iff. apply W. apply in_seq. lia. }
  destruct (still_open n (Captcha.start c mounted) c eq_refl eq_refl
              (fires_within_mono (k - 1) n _ ltac:(lia) F)) as [A B].
  split; [exact A|].
  intros [_ M]. rewrite (run_submits_keeps_result es _ S), B in M.
  discriminate M.
Qed.

(** C6, as stated, fails: the countdown starts when the challenge is
    mounted on the client, not when it was issued.  The typing challenge
    of the endpoint (10000 ms), mounted 400 ms after its issue: at
    [issuedAt + 10001] the mount is 9601 ms back, the callback has run at
    most nine times, the challenge is still shown, and the exact text
    submitted then is evaluated; the session is not timed out. *)
Lemma response_after_limit_is_evaluated :
  Server.timeLimit issued_typing_cadence = Some 10000%Z /\
  (1700000000000 + 10000 < 1700000010001)%Z /\
  (forall n,
     Captcha.may_have_run n (1700000010001 - (1700000000000 + 400)) -> (n <= 9)%nat) /\
  Forall
    (fun n =>
       Captcha.captchaState
         (Captcha.shown issued_typing_cadence 1700000000000 400 n [])
       = Captcha.st_challenge /\
       ~ Captcha.timed_out
           (Captcha.shown issued_typing_cadence 1700000000000 400 n
              [Captcha.InputChange "I am human" 1700000010001]))
    (seq 0 10).
Proof.
  split; [reflexivity|split; [reflexivity|split]].
  - unfold Captcha.may_have_run. intros n H. lia.
  - apply Forall_forall. intros n I. apply in_seq in I.
    apply (open_before issued_typing_cadence _ 10 n); [lia|reflexivity|lia|reflexivity].
Qed.

(** C6, amended.  Expiry is the work of the one-second countdown of the
    challenge component, which starts when the component is mounted on
    the client and never reads the issue time; no response is answered
    with an expiry error.  When the callback of the countdown finds at
    most one second left it calls [handleChallengeTimeout], and the
    session is in the failure state with method timeout; from then on no
    event changes it, whatever the payload.  For a challenge whose limit
    is a whole number [k] of seconds (from one second to an hour), as is
    every challenge of the endpoint, the session is timed out from the
    [k]-th run of the callback on, whatever is submitted, and not before:
    what is submitted before the [k]-th run is not answered by the
    timeout.  The callback runs at most once a second, so a response that
    finds the session timed out comes no earlier than [timeLimit]
    milliseconds after the mount, hence after the issue. *)
Theorem expiry_is_by_countdown (k : nat) (c : Server.Challenge) (issuedAt delay : Z) :
  (1 <= k <= 3600)%nat ->
  Server.timeLimit c = Some (1000 * Z.of_nat k)%Z ->
  (0 <= delay)%Z ->
  (forall s c',
     Captcha.captchaState s = Captcha.st_challenge ->
     Captcha.challenge s = Some c' ->
     (Captcha.timeLeft s <=? 1) = true ->
     Captcha.timed_out (Captcha.step s Captcha.Tick)) /\
  (forall s es, Captcha.timed_out s -> Captcha.run s es = s) /\
  (forall n es, (k <= n)%nat -> Captcha.timed_out (Captcha.shown c issuedAt delay n es)) /\
  (forall n es,
     (n < k)%nat -> forallb Captcha.submits es = true ->
     Captcha.captchaState (Captcha.shown c issuedAt delay n []) = Captcha.st_challenge /\
     ~ Captcha.timed_out (Captcha.shown c issuedAt delay n es)) /\
  (forall respondedAt n es,
     Captcha.may_have_run n (respondedAt - (issuedAt + delay)) ->
     forallb Captcha.submits es = true ->
     Captcha.timed_out (Captcha.shown c issuedAt delay n es) ->
     (issuedAt + delay + 1000 * Z.of_nat k <= respondedAt)%Z /\
     (issuedAt + 1000 * Z.of_nat k <= respondedAt)%Z) /\
  (forall name tpl sid now iso,
     In (name, tpl) Server.challenges ->
     exists k', (1 <= k' <= 3600)%nat /\
       Server.timeLimit (Server.stamp (Some tpl) sid now iso)
       = Some (1000 * Z.of_nat k')%Z).
Proof.
  intros K L D.
  split; [|split; [|split; [|split; [|split]]]].
  - intros s c' Hs Hc Ht. unfold Captcha.step, Captcha.tick.
    rewrite Hs, Hc, Ht. split; reflexivity.
  - exact run_timed_out.
  - intros n es N. unfold Captcha.shown. now apply (timed_out_from c _ k n).
  - intros n es N S. unfold Captcha.shown. now apply (open_before c _ k n).
  - intros respondedAt n es M S T.
    assert (N : (k <= n)%nat).
    { destruct (Nat.le_gt_cases k n) as [H|H]; [exact H|].
      unfold Captcha.shown in T.
      elim (proj2 (open_before c (of_int (issuedAt + delay)) k n es K L H S)).
      exact T. }
    unfold Captcha.may_have_run in M. clear - M N D. lia.
  - intros name tpl sid now iso Hin.
    cbn in Hin. destruct Hin as [H|[H|[H|[]]]]; injection H as <- <-.
    + exists 10%nat. split; [lia|reflexivity].
    + exists 15%nat. split; [lia|reflexivity].
    + exists 10%nat. split; [lia|reflexivity].
Qed.

(** Scenario E: the typing challenge, mounted 400 ms after its issue and
    answered with the right text after ten runs of the callback. *)
Lemma expiry_is_by_countdown_witness :
  Captcha.timed_out
    (Captcha.shown issued_typing_cadence 1700000000000 400 10
       [Captcha.InputChange "I am human" 1700000010500]).
Proof.
  apply (proj1 (proj2 (proj2
           (expiry_is_by_countdown 10 issued_typing_cadence 1700000000000 400
              ltac:(lia) eq_refl ltac:(lia)))) 10%nat).
  lia.
Defined.

(** ** Binary64 division by a thousand and by one *)

Section Binary64.

Local Open Scope Z_scope.

Lemma fexp_unfold z : fexp prec emax z = Z.max (z - 53) (-1074).
Proof. reflexivity. Qed.

Lemma digits2_size p : digits2_pos p = Pos.size p.
Proof. induction p; simpl; congruence. Qed.

Lemma Zdigits2_nonneg m : 0 <= Zdigits2 m.
Proof. destruct m; simpl; lia. Qed.

Lemma Zdigits2_upper m : 0 <= m -> m < 2 ^ Zdigits2 m.
Proof.
  destruct m as [|p|p]; intros H; simpl; [lia| |lia].
  rewrite digits2_size.
  pose proof (Pos.size_gt p) as G.
  apply Pos2Z.pos_lt_pos in G. rewrite Pos2Z.inj_pow in G. exact G.
Qed.

Lemma Zdigits2_lower p : 2 ^ (Zpos (digits2_pos p) - 1) <= Zpos p.
Proof.
  rewrite digits2_size.
  pose proof (Pos.size_le p) as G.
  apply Pos2Z.pos_le_pos in G. rewrite Pos2Z.inj_pow in G.
  replace (Zpos (Pos.size p)) with (Z.succ (Zpos (Pos.size p) - 1)) in G by lia.
  rewrite Z.pow_succ_r in G by lia. lia.
Qed.

Lemma Zdigits2_le m k : 0 <= m -> 0 <= k -> m < 2 ^ k -> Zdigits2 m <= k.
Proof.
  intros Hm Hk H. destruct m as [|p|p]; simpl; [lia| |lia].
  pose proof (Zdigits2_lower p) as L.
  assert (2 ^ (Zpos (digits2_pos p) - 1) < 2 ^ k) as P by lia.
  apply Z.pow_lt_mono_r_iff in P; lia.
Qed.

Lemma shr_1_m mrs : 0 <= shr_m mrs -> shr_m (shr_1 mrs) = shr_m mrs / 2 /\ 0 <= shr_m (shr_1 mrs).
Proof.
  destruct mrs as [m r s]. destruct m as [|[p|p|]|p]; cbn [shr_1 shr_m]; intros H.
  - split; [reflexivity|lia].
  - rewrite Pos2Z.inj_xI. split; [|lia]. apply (Z.div_unique _ _ _ 1); lia.
  - rewrite Pos2Z.inj_xO. split; [|lia]. apply (Z.div_unique _ _ _ 0); lia.
  - split; [reflexivity|lia].
  - lia.
Qed.

Lemma shr_iter_m p : forall mrs, 0 <= shr_m mrs ->
  shr_m (iter_pos shr_1 p mrs) = shr_m mrs / 2 ^ Zpos p.
Proof.
  induction p as [p IH|p IH|]; intros mrs H; simpl iter_pos.
  - destruct (shr_1_m mrs H) as [E1 N1].
    assert (N2 : 0 <= shr_m (iter_pos shr_1 p (shr_1 mrs))).
    { rewrite IH by exact N1. apply Z.div_pos; lia. }
    rewrite IH, IH, E1 by assumption.
    rewrite !Z.div_div by lia. f_equal.
    replace (Zpos p~1) with (1 + Zpos p + Zpos p) by lia.
    rewrite !Z.pow_add_r by lia. change (2 ^ 1) with 2. ring.
  - assert (N2 : 0 <= shr_m (iter_pos shr_1 p mrs)).
    { rewrite IH by exact H. apply Z.div_pos; lia. }
    rewrite IH, IH by assumption.
    rewrite !Z.div_div by lia. f_equal.
    replace (Zpos p~0) with (Zpos p + Zpos p) by lia.
    rewrite !Z.pow_add_r by lia. ring.
  - destruct (shr_1_m mrs H) as [E1 _]. rewrite E1. reflexivity.
Qed.

Lemma shr_m_of_loc m l : shr_m (shr_record_of_loc m l) = m.
Proof. destruct l as [|[]]; reflexivity. Qed.

(** The mantissa and the exponent after [shr_fexp]. *)
Lemma shr_fexp_spec m e l : 0 <= m ->
  let n := Z.max 0 (fexp prec emax (Zdigits2 m + e) - e) in
  snd (shr_fexp prec emax m e l) = e + n /\
  shr_m (fst (shr_fexp prec emax m e l)) = m / 2 ^ n.
Proof.
  intros H n. unfold shr_fexp, shr. subst n.
  destruct (fexp prec emax (Zdigits2 m + e) - e) as [|p|p] eqn:E; cbn [fst snd].
  - rewrite shr_m_of_loc. change (Z.max 0 0) with 0. rewrite Z.div_1_r. lia.
  - rewrite shr_iter_m by (rewrite shr_m_of_loc; exact H).
    rewrite shr_m_of_loc. replace (Z.max 0 (Zpos p)) with (Zpos p) by lia. lia.
  - rewrite shr_m_of_loc. replace (Z.max 0 (Zneg p)) with 0 by lia.
    rewrite Z.div_1_r. lia.
Qed.

Lemma round_nearest_even_bounds m l :
  m <= round_nearest_even m l <= m + 1.
Proof.
  destruct l as [|[]]; simpl; try lia. destruct (Z.even m); lia.
Qed.

Lemma fexp_ge z : -1074 <= fexp prec emax z.
Proof. rewrite fexp_unfold. lia. Qed.

(** Rounding never makes a number out of nothing, nor changes the sign. *)
Lemma round_keeps_sign s mz ez lz : 0 <= mz ->
  match binary_round_aux prec emax s mz ez lz with
  | S754_nan => False
  | S754_zero s' | S754_infinity s' | S754_finite s' _ _ => s' = s
  end.
Proof.
  intros H. unfold binary_round_aux.
  pose proof (shr_fexp_spec mz ez lz H) as [_ Hm].
  destruct (shr_fexp prec emax mz ez lz) as [mrs' e']. cbn [fst snd] in Hm.
  set (m2 := round_nearest_even (shr_m mrs') (loc_of_shr_record mrs')).
  assert (N2 : 0 <= m2).
  { pose proof (round_nearest_even_bounds (shr_m mrs') (loc_of_shr_record mrs')).
    assert (0 <= shr_m mrs') by (rewrite Hm; apply Z.div_pos; lia).
    unfold m2. lia. }
  pose proof (shr_fexp_spec m2 e' loc_Exact N2) as [_ Hm2].
  destruct (shr_fexp prec emax m2 e' loc_Exact) as [mrs'' e'']. cbn [fst snd] in Hm2.
  assert (0 <= shr_m mrs'') by (rewrite Hm2; apply Z.div_pos; lia).
  destruct (shr_m mrs''); [reflexivity| |lia].
  destruct (e'' <=? emax - prec); reflexivity.
Qed.

(** Rounding a number below one gives at most one. *)
Lemma round_below_one s mz ez lz :
  0 <= mz -> Zdigits2 mz + ez <= 0 -> ez <= -53 ->
  match binary_round_aux prec emax s mz ez lz with
  | S754_zero s' => s' = s
  | S754_finite s' m e =>
      s' = s /\ (e < -52 \/ (e = -52 /\ m = 4503599627370496%positive))
  | _ => False
  end.
Proof.
  intros H HD He. unfold binary_round_aux.
  pose proof (shr_fexp_spec mz ez lz H) as [He1 Hm1].
  destruct (shr_fexp prec emax mz ez lz) as [mrs' e']. cbn [fst snd] in He1, Hm1.
  rewrite fexp_unfold in He1, Hm1.
  set (n1 := Z.max 0 (Z.max (Zdigits2 mz + ez - 53) (-1074) - ez)) in *.
  pose proof (Zdigits2_nonneg mz) as Dn.
  assert (B1 : 0 <= shr_m mrs' < 2 ^ 53).
  { rewrite Hm1. split; [apply Z.div_pos; lia|].
    apply Z.div_lt_upper_bound; [lia|].
    rewrite <- Z.pow_add_r by lia.
    apply Z.lt_le_trans with (2 ^ Zdigits2 mz); [now apply Zdigits2_upper|].
    apply Z.pow_le_mono_r; lia. }
  assert (E1 : -1074 <= e' <= -53) by lia.
  set (m2 := round_nearest_even (shr_m mrs') (loc_of_shr_record mrs')).
  assert (B2 : 0 <= m2 <= 2 ^ 53).
  { pose proof (round_nearest_even_bounds (shr_m mrs') (loc_of_shr_record mrs')).
    unfold m2. lia. }
  pose proof (shr_fexp_spec m2 e' loc_Exact (proj1 B2)) as [He2 Hm2].
  destruct (shr_fexp prec emax m2 e' loc_Exact) as [mrs'' e'']. cbn [fst snd] in He2, Hm2.
  rewrite fexp_unfold in He2, Hm2.
  destruct (Z.eq_dec m2 (2 ^ 53)) as [T|T].
  - (* the mantissa overflowed: one more shift *)
    rewrite T in He2, Hm2. change (Zdigits2 (2 ^ 53)) with 54 in He2, Hm2.
    replace (Z.max 0 (Z.max (54 + e' - 53) (-1074) - e')) with 1 in He2, Hm2 by lia.
    rewrite Hm2. change (2 ^ 53 / 2 ^ 1) with 4503599627370496.
    replace (e'' <=? emax - prec) with true
      by (symmetry; apply Z.leb_le; unfold emax, prec; lia).
    split; [reflexivity|]. lia.
  - assert (D2 : Zdigits2 m2 <= 53) by (apply Zdigits2_le; lia).
    replace (Z.max 0 (Z.max (Zdigits2 m2 + e' - 53) (-1074) - e')) with 0 in He2, Hm2 by lia.
    rewrite Z.div_1_r in Hm2. rewrite Hm2.
    destruct m2 as [|p|p]; [reflexivity| |lia].
    replace (e'' <=? emax - prec) with true
      by (symmetry; apply Z.leb_le; unfold emax, prec; lia).
    split; [reflexivity|]. lia.
Qed.

Lemma Prim2SF_thousand : Prim2SF 1000 = SF_thousand.
Proof. reflexivity. Qed.

Lemma Prim2SF_one : Prim2SF 1 = SF_one.
Proof. reflexivity. Qed.

(** The quotient and the exponent that the division hands to rounding. *)
Lemma SFdiv_core_spec m1 e1 m2 e2 :
  let e' := Z.min (fexp prec emax (Zdigits2 (Zpos m1) + e1 - (Zdigits2 (Zpos m2) + e2))) (e1 - e2) in
  let s := e1 - e2 - e' in
  SFdiv_core_binary prec emax (Zpos m1) e1 (Zpos m2) e2 =
  ((Zpos m1 * 2 ^ s) / Zpos m2, e', new_location (Zpos m2) ((Zpos m1 * 2 ^ s) mod Zpos m2)).
Proof.
  intros e' s. unfold SFdiv_core_binary. fold e'. fold s.
  assert (S0 : 0 <= s) by (unfold s, e'; lia).
  set (m' := match s with Z0 => Zpos m1 | Zpos _ => Z.shiftl (Zpos m1) s | Zneg _ => 0 end).
  assert (E : m' = Zpos m1 * 2 ^ s).
  { unfold m'. destruct s as [|p|p]; [rewrite Z.pow_0_r; lia| |lia].
    apply Z.shiftl_mul_pow2. lia. }
  rewrite E. unfold Z.div, Z.modulo.
  destruct (Z.div_eucl (Zpos m1 * 2 ^ s) (Zpos m2)) as [q r]. reflexivity.
Qed.

Lemma valid_finite s m e :
  valid_binary (S754_finite s m e) = true ->
  Z.max (Zpos (digits2_pos m) + e - 53) (-1074) = e /\ e <= 971.
Proof.
  unfold SpecFloat.valid_binary, bounded, canonical_mantissa.
  rewrite andb_true_iff, Z.eqb_eq, Z.leb_le, fexp_unfold. unfold emax, prec. lia.
Qed.

Lemma ltb_thousand_inv m e :
  SFltb (S754_finite false m e) SF_thousand = true ->
  e < -43 \/ (e = -43 /\ Zpos m < 8796093022208000).
Proof.
  unfold SFltb, SFcompare, SF_thousand.
  destruct (Z.compare_spec e (-43)) as [E|E|E]; intros L;
    [right|left; exact E|discriminate L].
  split; [exact E|].
  unfold Z.lt. cbn [Z.compare]. unfold Pos.compare.
  destruct (Pos.compare_cont Eq m 8796093022208000); [discriminate L|reflexivity|discriminate L].
Qed.

(** The quotient of a number below a thousand by a thousand has no digit
    at or above the binary point. *)
Lemma quotient_below_one m e e' :
  Z.max (Zpos (digits2_pos m) + e - 53) (-1074) = e ->
  e < -43 \/ (e = -43 /\ Zpos m < 8796093022208000) ->
  e' <= e - -43 ->
  Zdigits2 (Zpos m * 2 ^ (e - -43 - e') / 8796093022208000) + e' <= 0.
Proof.
  intros C Le E'.
  pose proof (Zdigits2_upper (Zpos m) ltac:(lia)) as U. cbn [Zdigits2] in U.
  assert (M53 : Zpos m < 2 ^ 53).
  { apply Z.lt_le_trans with (1 := U). apply Z.pow_le_mono_r; lia. }
  set (q := _ / _).
  assert (Q0 : 0 <= q) by (apply Z.div_pos; [apply Z.mul_nonneg_nonneg|]; lia).
  assert (Zdigits2 q <= - e'); [|lia].
  apply Zdigits2_le; [exact Q0|lia|].
  unfold q. apply Z.div_lt_upper_bound; [lia|].
  replace (- e') with ((e - -43 - e') + (-43 - e)) by lia.
  rewrite Z.pow_add_r by lia.
  assert (P : 0 < 2 ^ (e - -43 - e')) by (apply Z.pow_pos_nonneg; lia).
  assert (Zpos m < 8796093022208000 * 2 ^ (-43 - e)) as B.
  2:{ replace (8796093022208000 * (2 ^ (e - -43 - e') * 2 ^ (-43 - e)))
        with (8796093022208000 * 2 ^ (-43 - e) * 2 ^ (e - -43 - e')) by ring.
      apply Z.mul_lt_mono_pos_r; assumption. }
  destruct Le as [Le|[-> Le]]; [|exact Le].
  assert (2 ^ 1 <= 2 ^ (-43 - e)) by (apply Z.pow_le_mono_r; lia).
  change (2 ^ 1) with 2 in *. change (2 ^ 53) with 9007199254740992 in M53. lia.
Qed.

(** Whatever is below a thousand, divided by a thousand, is below one or
    rounds to one. *)
Lemma SFdiv_thousand x :
  valid_binary x = true ->
  SFltb x SF_thousand = true ->
  SFltb (SF64div x SF_thousand) SF_one = true \/ SF64div x SF_thousand = SF_one.
Proof.
  intros V L. destruct x as [s|s| |s m e].
  - left. reflexivity.
  - destruct s; [left; reflexivity|discriminate L].
  - discriminate L.
  - unfold SF64div, SFdiv, SF_thousand.
    rewrite SFdiv_core_spec.
    set (e' := Z.min _ _). set (q := _ / _). set (l := new_location _ _).
    cbv zeta.
    assert (Q0 : 0 <= q) by (apply Z.div_pos; [apply Z.mul_nonneg_nonneg|]; lia).
    destruct s.
    + (* a negative quotient *)
      pose proof (round_keeps_sign (xorb true false) q e' l Q0) as R.
      destruct (binary_round_aux prec emax (xorb true false) q e' l) as [s'|s'| |s' m' e''];
        cbn in R; try contradiction; subst s'; left; reflexivity.
    + destruct (valid_finite _ _ _ V) as [C _].
      pose proof (ltb_thousand_inv m e L) as Le.
      pose proof (Zdigits2_nonneg (Zpos m)) as Dn. cbn [Zdigits2] in Dn.
      assert (E53 : e' <= -53 /\ e' <= e - -43).
      { unfold e'. cbn [Zdigits2]. rewrite fexp_unfold.
        change (Zpos (digits2_pos 8796093022208000)) with 53. lia. }
      pose proof (quotient_below_one m e e' C Le (proj2 E53)) as QD. fold q in QD.
      pose proof (round_below_one (xorb false false) q e' l Q0 QD (proj1 E53)) as R.
      destruct (binary_round_aux prec emax (xorb false false) q e' l) as [s'|s'| |s' m' e''];
        cbn in R; try contradiction.
      * subst s'. left. reflexivity.
      * destruct R as [-> [R|[-> ->]]]; [left|right; reflexivity].
        unfold SFltb, SFcompare, SF_one.
        destruct (Z.compare_spec e'' (-52)) as [H|H|H];
          [exfalso; clear - R H; lia | reflexivity | exfalso; clear - R H; lia].
Qed.

(** Dividing by one changes nothing. *)
Lemma SFdiv_one x : valid_binary x = true -> SF64div x SF_one = x.
Proof.
  intros V. destruct x as [s|s| |s m e]; try (destruct s; reflexivity); [reflexivity|].
  destruct (valid_finite _ _ _ V) as [C B].
  unfold SF64div, SFdiv, SF_one. rewrite SFdiv_core_spec.
  set (e' := Z.min _ _).
  pose proof (Zdigits2_nonneg (Zpos m)) as Dn. cbn [Zdigits2] in Dn.
  assert (D1 : 1 <= Zpos (digits2_pos m)) by lia.
  assert (K : e' = e \/ e' = e - 1).
  { unfold e'. cbn [Zdigits2]. rewrite fexp_unfold.
    change (Zpos (digits2_pos 4503599627370496)) with 53. lia. }
  replace (xorb s false) with s by (destruct s; reflexivity).
  assert (Ok : (e <=? emax - prec) = true) by (apply Z.leb_le; unfold emax, prec; lia).
  destruct K as [K|K]; rewrite K.
  - replace (e - -52 - e) with 52 by lia.
    change (2 ^ 52) with 4503599627370496.
    rewrite Z.div_mul, Z.mod_mul by lia.
    cbv zeta. change (new_location 4503599627370496 0) with loc_Exact.
    unfold binary_round_aux, shr_fexp. cbn [Zdigits2 shr_record_of_loc].
    rewrite fexp_unfold, C, Z.sub_diag. cbn [shr shr_m loc_of_shr_record round_nearest_even].
    cbn [Zdigits2]. rewrite fexp_unfold, C, Z.sub_diag. cbn [shr shr_m].
    rewrite Ok. reflexivity.
  - replace (e - -52 - (e - 1)) with 53 by lia.
    replace (Zpos m * 2 ^ 53) with (Zpos m~0 * 4503599627370496)
      by (rewrite (Pos2Z.inj_xO m); change (2 ^ 53) with (2 * 4503599627370496); ring).
    rewrite Z.div_mul, Z.mod_mul by lia.
    cbv zeta. change (new_location 4503599627370496 0) with loc_Exact.
    unfold binary_round_aux, shr_fexp. cbn [Zdigits2 digits2_pos shr_record_of_loc].
    rewrite Pos2Z.inj_succ, fexp_unfold.
    replace (Z.max (Z.succ (Zpos (digits2_pos m)) + (e - 1) - 53) (-1074) - (e - 1))
      with 1 by lia.
    cbn [shr iter_pos shr_1 shr_m orb loc_of_shr_record round_nearest_even].
    replace (e - 1 + 1) with e by lia.
    cbn [Zdigits2 shr_record_of_loc]. rewrite fexp_unfold, C, Z.sub_diag. cbn [shr shr_m].
    rewrite Ok. reflexivity.
Qed.

Lemma SFeqb_one x : SFeqb x SF_one = true -> x = SF_one.
Proof.
  unfold SFeqb, SFcompare, SF_one.
  destruct x as [s|s| |s m e]; try (destruct s; discriminate); try discriminate.
  destruct s; [discriminate|].
  destruct (Z.compare_spec e (-52)) as [E|E|E]; try discriminate.
  rewrite Pos.compare_cont_spec. unfold Pos.switch_Eq.
  destruct (Pos.compare_spec m 4503599627370496) as [H|H|H]; try discriminate.
  intros _. now rewrite E, H.
Qed.

Lemma SFltb_leb x y : SFltb x y = true -> SFleb x y = true.
Proof. unfold SFltb, SFleb. destruct (SFcompare x y) as [[]|]; easy. Qed.

Lemma SFleb_one_nonzero x : SFleb SF_one x = true -> SFeqb x (S754_zero false) = false.
Proof.
  unfold SFleb, SFeqb, SFcompare, SF_one.
  destruct x as [s|s| |s m e]; try destruct s; try discriminate; reflexivity.
Qed.

End Binary64.

Lemma div_by_one (x : float) : x / 1 = x.
Proof.
  apply Prim2SF_inj. rewrite div_spec, Prim2SF_one.
  apply SFdiv_one, Prim2SF_valid.
Qed.

Lemma below_thousand (x : float) :
  (x <? 1000) = true -> (x / 1000 <? 1) = true \/ x / 1000 = 1.
Proof.
  rewrite ltb_spec, Prim2SF_thousand. intros H.
  destruct (SFdiv_thousand (Prim2SF x) (Prim2SF_valid x) H) as [A|A].
  - left. rewrite ltb_spec, div_spec, Prim2SF_thousand, Prim2SF_one. exact A.
  - right. apply Prim2SF_inj. rewrite div_spec, Prim2SF_thousand, Prim2SF_one. exact A.
Qed.

(** ** The click frequency of the fallback scorer *)

Lemma SFcompare_refl x : x <> S754_nan -> SFcompare x x = Some Eq.
Proof.
  destruct x as [s|s| |s m e]; intros N; try (destruct s; reflexivity); [now elim N|].
  unfold SFcompare. rewrite Z.compare_refl, Pos.compare_cont_spec, Pos.compare_refl.
  destruct s; reflexivity.
Qed.

Lemma is_nan_spec (x : float) : is_nan x = true <-> Prim2SF x = S754_nan.
Proof.
  unfold is_nan. rewrite eqb_spec. unfold SFeqb. split.
  - intros H. destruct (Prim2SF x) eqn:E; try reflexivity;
      rewrite SFcompare_refl in H by discriminate; discriminate H.
  - intros ->. reflexivity.
Qed.

(** A number divided by a thousand is a number. *)
Lemma div_thousand_is_a_number (x : float) :
  is_nan x = false -> is_nan (x / 1000) = false.
Proof.
  intros N. apply not_true_is_false. intros H.
  apply is_nan_spec in H. rewrite div_spec in H.
  assert (P : Prim2SF x <> S754_nan).
  { intros E. apply is_nan_spec in E. congruence. }
  rewrite Prim2SF_thousand in H.
  destruct (Prim2SF x) as [s|s| |s m e]; try discriminate H; [now elim P|].
  unfold SF64div, SFdiv, SF_thousand in H. rewrite SFdiv_core_spec in H.
  cbv zeta in H.
  match type of H with
  | binary_round_aux _ _ ?sx ?q ?e' ?l = _ =>
      assert (Q0 : (0 <= q)%Z)
        by (apply Z.div_pos; [apply Z.mul_nonneg_nonneg|]; lia);
      pose proof (round_keeps_sign sx q e' l Q0) as R; rewrite H in R; exact R
  end.
Qed.

Lemma Math_max_one_when_below (a : float) :
  (a <? 1) = true \/ a = 1 -> Math_max a 1 = 1.
Proof.
  intros [H| ->]; [|reflexivity]. unfold Math_max. rewrite H. reflexivity.
Qed.

(** What is neither below, nor above, nor equal to one is not a number. *)
Lemma SF_unordered_with_one x :
  SFltb x SF_one = false -> SFltb SF_one x = false -> SFeqb x SF_one = false ->
  x = S754_nan.
Proof.
  unfold SFltb, SFeqb, SFcompare, SF_one.
  destruct x as [s|s| |s m e]; try (destruct s; discriminate); [reflexivity|].
  destruct s; [discriminate|].
  rewrite (Z.compare_antisym e (-52)).
  rewrite !Pos.compare_cont_spec. rewrite (Pos.compare_antisym m 4503599627370496).
  unfold Pos.switch_Eq.
  destruct (e ?= -52)%Z; cbn [CompOpp]; try discriminate.
  destruct (m ?= 4503599627370496)%positive; discriminate.
Qed.

(** [Math.max(a, 1)] is at least one, or [NaN] when [a] is. *)
Lemma Math_max_one_floor (a : float) :
  (is_nan a = true /\ Math_max a 1 = nan) \/ (1 <=? Math_max a 1) = true.
Proof.
  unfold Math_max.
  destruct (a <? 1) eqn:L1; [right; reflexivity|].
  destruct (1 <? a) eqn:L2.
  - right. rewrite leb_spec. rewrite ltb_spec in L2. now apply SFltb_leb.
  - destruct (a =? 1) eqn:E.
    + assert (a = 1) as ->.
      { apply Prim2SF_inj. rewrite eqb_spec, Prim2SF_one in E.
        rewrite Prim2SF_one. now apply SFeqb_one. }
      right. reflexivity.
    + left. split; [|reflexivity]. apply is_nan_spec.
      rewrite ltb_spec, Prim2SF_one in L1, L2. rewrite eqb_spec, Prim2SF_one in E.
      now apply SF_unordered_with_one.
Qed.

Lemma at_least_one_is_not_zero (d : float) : (1 <=? d) = true -> (d =? 0) = false.
Proof.
  rewrite leb_spec, eqb_spec, Prim2SF_one.
  change (Prim2SF 0) with (S754_zero false). apply SFleb_one_nonzero.
Qed.

(** What is below a thousand is not above five thousand. *)
Lemma Prim2SF_five_thousand :
  Prim2SF 5000 = S754_finite false 5497558138880000 (-40).
Proof. reflexivity. Qed.

Lemma below_thousand_not_above_five_thousand (x : float) :
  (x <? 1000) = true -> (x >? 5000) = false.
Proof.
  unfold gtb. rewrite !ltb_spec, Prim2SF_thousand, Prim2SF_five_thousand.
  destruct (Prim2SF x) as [s|s| |s m e]; intros L.
  - reflexivity.
  - destruct s; [reflexivity|discriminate L].
  - discriminate L.
  - destruct s; [reflexivity|].
    assert (E : (e <= -43)%Z).
    { unfold SFltb, SFcompare, SF_thousand in L.
      destruct (Z.compare_spec e (-43)) as [H|H|H]; [lia|lia|discriminate L]. }
    unfold SFltb, SFcompare.
    destruct (Z.compare_spec (-40) e) as [H|H|H]; [lia|lia|reflexivity].
Qed.

Lemma clickFrequency_below_thousand cl (x : float) :
  (x <? 1000) = true -> clickFrequency cl (Some x) = length_num cl.
Proof.
  intros L. unfold clickFrequency, clickDenominator. cbn [to_number].
  rewrite (Math_max_one_when_below _ (below_thousand x L)). apply div_by_one.
Qed.

(** In a session shorter than 1000 ms the scorer sees the duration only
    through the test [sessionDuration < 1000]: the score is the one of
    the same samples in a session of no duration at all. *)
Lemma short_session_score mm cl ks (x : float) :
  (x <? 1000) = true ->
  calculateBasicRiskScore
    {| mouseMovements := mm; clicks := Some cl; keystrokes := ks;
       sessionDuration := Some x |} =
  calculateBasicRiskScore
    {| mouseMovements := mm; clicks := Some cl; keystrokes := ks;
       sessionDuration := Some 0 |}.
Proof.
  intros L. unfold calculateBasicRiskScore.
  cbn [mouseMovements clicks keystrokes sessionDuration to_number].
  rewrite (below_thousand_not_above_five_thousand x L), L.
  rewrite (below_thousand_not_above_five_thousand 0 eq_refl).
  replace (0 <? 1000) with true by reflexivity.
  destruct cl as [|c0 cl]; [reflexivity|].
  rewrite (clickFrequency_below_thousand (c0 :: cl) x L).
  rewrite (clickFrequency_below_thousand (c0 :: cl) 0 eq_refl).
  reflexivity.
Qed.



(* ================================================================== *)
(** * Further properties *)
(* ================================================================== *)

(** ** The verdict of the fallback *)

Lemma fallback_verdict (bd : BehaviorData) :
  let r := calculateBasicRiskScore bd in
  let c := Math_abs (0.5 - r) * 2 in
  let needs := (r >? 0.7) || (c <? 0.4) in
  ((r <? 0.6) || needs) && (needs || (r <=? 0.3)) = true.
Proof.
  unfold calculateBasicRiskScore.
  destruct (mouseMovements bd) as [[|m mm]|];
  destruct (clicks bd) as [[|k cl]|];
  destruct (keystrokes bd) as [[|k' ks]|]; cbv zeta;
  split_tests; vm_compute; reflexivity.
Qed.

Lemma fallback_method bd sid o a :
  validate (Some bd) sid o = Json200 a -> method a = fallback_algorithm ->
  a = fallback_assessment bd sid.
Proof.
  intros H M. destruct (tryMLService o) as [e|[[h r] c]] eqn:E.
  - rewrite (validate_fallback bd sid o e E) in H. now injection H.
  - rewrite (validate_ml bd sid o h r c E) in H. injection H as <-. discriminate M.
Qed.

(** X1.  The fallback never rejects outright.  In every assessment of
    the validation endpoint whose method is [fallback_algorithm], a
    verdict [isHuman = false] comes with [needsChallenge = true]; and an
    assessment without a challenge has [isHuman = true] and a risk score
    of at most [0.3]. *)
Theorem fallback_rejection_is_challenged bd sid o a :
  validate (Some bd) sid o = Json200 a ->
  method a = fallback_algorithm ->
  (isHuman a = VBool false -> needsChallenge a = true) /\
  (needsChallenge a = false ->
   isHuman a = VBool true /\ (riskScore a <=? 0.3) = true).
Proof.
  intros H M. rewrite (fallback_method bd sid o a H M).
  pose proof (fallback_verdict bd) as V. cbv zeta in V.
  unfold fallback_assessment. cbn [isHuman needsChallenge riskScore].
  apply andb_prop in V. destruct V as [V1 V2].
  destruct ((calculateBasicRiskScore bd >? 0.7)
            || (Math_abs (0.5 - calculateBasicRiskScore bd) * 2 <? 0.4)).
  - split; [reflexivity|discriminate].
  - rewrite orb_false_r in V1. cbn [orb] in V2. rewrite V1.
    split; [discriminate|intros _; split; [reflexivity|exact V2]].
Qed.

(** Scenario A, with the classifier out of reach. *)
Lemma fallback_rejection_is_challenged_witness :
  needsChallenge (fallback_assessment scenarioA "session_1") = true.
Proof.
  apply (fallback_rejection_is_challenged scenarioA "session_1"
           (FetchRejects "ECONNREFUSED") (fallback_assessment scenarioA "session_1"));
    reflexivity.
Defined.

Lemma no_mouse_verdict (bd : BehaviorData) :
  Reports.count (mouseMovements bd) = 0%nat ->
  let r := calculateBasicRiskScore bd in
  ((0.5 <=? r) && ((r >? 0.7) || (Math_abs (0.5 - r) * 2 <? 0.4)))%bool = true.
Proof.
  unfold calculateBasicRiskScore.
  destruct (mouseMovements bd) as [[|m mm]|]; intros H; try discriminate H;
  destruct (clicks bd) as [[|k cl]|];
  destruct (keystrokes bd) as [[|k' ks]|]; cbv zeta;
  split_tests; vm_compute; reflexivity.
Qed.

(** X2.  Behaviour data without mouse movements (the array missing or
    empty) always get a challenge from the fallback: whenever the
    classifier fails, the endpoint answers with [needsChallenge = true]
    and a risk score of at least [0.5], whatever the clicks, the
    keystrokes and the session duration. *)
Theorem no_mouse_data_is_challenged bd sid o :
  Reports.count (mouseMovements bd) = 0%nat ->
  classifier_failure o ->
  exists a, validate (Some bd) sid o = Json200 a /\
            needsChallenge a = true /\ (0.5 <=? riskScore a) = true.
Proof.
  intros H F. destruct (classifier_failure_throws o F) as [e E].
  exists (fallback_assessment bd sid). split; [exact (validate_fallback bd sid o e E)|].
  pose proof (no_mouse_verdict bd H) as V. cbv zeta in V.
  apply andb_prop in V. destruct V as [V1 V2]. split; assumption.
Qed.

(** Scenario A, with the classifier out of reach. *)
Lemma no_mouse_data_is_challenged_witness :
  exists a, validate (Some scenarioA) "session_1" (FetchRejects "ECONNREFUSED") = Json200 a /\
            needsChallenge a = true /\ (0.5 <=? riskScore a) = true.
Proof.
  apply no_mouse_data_is_challenged; [reflexivity|].
  eapply call_throws. reflexivity.
Defined.

(** ** Comparisons of numbers *)

Lemma SFcompare_antisym x y :
  SFcompare y x = option_map CompOpp (SFcompare x y).
Proof.
  destruct x as [s|s| |s m e], y as [s'|s'| |s' m' e'];
    try destruct s; try destruct s'; try reflexivity; cbn [SFcompare option_map];
    rewrite (Z.compare_antisym e e');
    change (Pos.compare_cont Eq m' m) with (Pos.compare m' m);
    change (Pos.compare_cont Eq m m') with (Pos.compare m m');
    rewrite (Pos.compare_antisym m m');
    destruct (e ?= e')%Z; cbn [CompOpp]; try reflexivity;
    destruct (m ?= m')%positive; reflexivity.
Qed.

(** Equal to a finite number other than zero means identical to it. *)
Lemma SFcompare_Eq_finite s m e x :
  SFcompare (S754_finite s m e) x = Some Eq -> x = S754_finite s m e.
Proof.
  destruct x as [s'|s'| |s' m' e']; cbn [SFcompare];
    try (destruct s; discriminate); try (destruct s'; discriminate); try discriminate.
  destruct s, s'; try discriminate;
    destruct (Z.compare_spec e e') as [E|E|E]; try discriminate;
    change (Pos.compare_cont Eq m m') with (Pos.compare m m');
    destruct (Pos.compare_spec m m') as [M|M|M]; try discriminate;
    intros _; now subst.
Qed.

Lemma leb_cases (c x : float) :
  (c <=? x) = true -> (x <? c) = false /\ ((c <? x) = true \/ (x =? c) = true).
Proof.
  rewrite leb_spec, !ltb_spec, eqb_spec. unfold SFleb, SFltb, SFeqb.
  rewrite (SFcompare_antisym (Prim2SF c) (Prim2SF x)).
  destruct (SFcompare (Prim2SF c) (Prim2SF x)) as [[]|]; cbn; intros H;
    try discriminate H; auto.
Qed.

Lemma eqb_finite (c x : float) s m e :
  Prim2SF c = S754_finite s m e -> (x =? c) = true -> x = c.
Proof.
  intros C. rewrite eqb_spec. unfold SFeqb.
  rewrite (SFcompare_antisym (Prim2SF c) (Prim2SF x)), C.
  destruct (SFcompare (S754_finite s m e) (Prim2SF x)) as [[]|] eqn:E; try discriminate.
  intros _. apply Prim2SF_inj. rewrite C. now apply SFcompare_Eq_finite.
Qed.

(** [Math.min(x, c)] is [c] when [x] is at least [c]. *)
Lemma Math_min_at_least (x c : float) s m e :
  Prim2SF c = S754_finite s m e -> (c <=? x) = true -> Math_min x c = c.
Proof.
  intros C L. destruct (leb_cases c x L) as [N [G|E]].
  - unfold Math_min. now rewrite N, G.
  - pose proof (eqb_finite c x s m e C E) as ->.
    unfold Math_min. rewrite N, E. now destruct (get_sign c).
Qed.

(** [Math.max(a, 1)] is [a] when [a] is at least one. *)
Lemma Math_max_at_least_one (a : float) : (1 <=? a) = true -> Math_max a 1 = a.
Proof.
  intros L. destruct (leb_cases 1 a L) as [N [G|E]]; unfold Math_max; rewrite N.
  - now rewrite G.
  - pose proof (eqb_finite 1 a _ _ _ Prim2SF_one E) as ->. reflexivity.
Qed.

(** ** Binary64 division of a thousand and more by a thousand *)

Section Binary64Above.

Local Open Scope Z_scope.

Lemma Zdigits2_above m k : 0 <= k -> 2 ^ k <= m -> k < Zdigits2 m.
Proof.
  intros Hk H.
  assert (M0 : 0 <= m) by (pose proof (Z.pow_pos_nonneg 2 k); lia).
  pose proof (Zdigits2_upper m M0) as U. pose proof (Zdigits2_nonneg m) as N.
  apply (Z.pow_lt_mono_r_iff 2); lia.
Qed.

(** Rounding a number that is at least one gives at least one. *)
Lemma round_above_one s mz ez lz :
  2 ^ 52 <= mz -> -52 <= ez \/ (ez = -53 /\ 2 ^ 53 <= mz) ->
  match binary_round_aux prec emax s mz ez lz with
  | S754_infinity s' => s' = s
  | S754_finite s' m e =>
      s' = s /\ (-52 < e \/ (e = -52 /\ (4503599627370496 <= m)%positive))
  | _ => False
  end.
Proof.
  intros HM HE. unfold binary_round_aux.
  assert (M0 : 0 <= mz) by lia.
  pose proof (shr_fexp_spec mz ez lz M0) as [He1 Hm1].
  destruct (shr_fexp prec emax mz ez lz) as [mrs' e']. cbn [fst snd] in He1, Hm1.
  rewrite fexp_unfold in He1, Hm1.
  pose proof (Zdigits2_above mz 52 ltac:(lia) HM) as D52.
  assert (D54 : ez = -53 -> 53 < Zdigits2 mz).
  { intros E. destruct HE as [HE|[_ HE]]; [lia|]. apply Zdigits2_above; lia. }
  set (D := Zdigits2 mz) in *.
  replace (Z.max 0 (Z.max (D + ez - 53) (-1074) - ez)) with (D - 53) in He1, Hm1 by lia.
  assert (B1 : 2 ^ 52 <= shr_m mrs' < 2 ^ 53).
  { rewrite Hm1. split.
    - apply Z.div_le_lower_bound; [apply Z.pow_pos_nonneg; lia|].
      rewrite <- Z.pow_add_r by lia. replace (D - 53 + 52) with (D - 1) by lia.
      destruct mz as [|p|p]; try lia. apply Zdigits2_lower.
    - apply Z.div_lt_upper_bound; [apply Z.pow_pos_nonneg; lia|].
      rewrite <- Z.pow_add_r by lia. replace (D - 53 + 53) with D by lia.
      now apply Zdigits2_upper. }
  assert (E1 : -52 <= e') by lia.
  set (m2 := round_nearest_even (shr_m mrs') (loc_of_shr_record mrs')).
  assert (B2 : 2 ^ 52 <= m2 <= 2 ^ 53).
  { pose proof (round_nearest_even_bounds (shr_m mrs') (loc_of_shr_record mrs')).
    unfold m2. lia. }
  assert (N2 : 0 <= m2) by lia.
  pose proof (shr_fexp_spec m2 e' loc_Exact N2) as [He2 Hm2].
  destruct (shr_fexp prec emax m2 e' loc_Exact) as [mrs'' e'']. cbn [fst snd] in He2, Hm2.
  rewrite fexp_unfold in He2, Hm2.
  destruct (Z.eq_dec m2 (2 ^ 53)) as [T|T].
  - (* the mantissa overflowed: one more shift *)
    rewrite T in He2, Hm2. change (Zdigits2 (2 ^ 53)) with 54 in He2, Hm2.
    replace (Z.max 0 (Z.max (54 + e' - 53) (-1074) - e')) with 1 in He2, Hm2 by lia.
    rewrite Hm2. change (2 ^ 53 / 2 ^ 1) with 4503599627370496.
    destruct (e'' <=? emax - prec); [|reflexivity].
    split; [reflexivity|]. left. lia.
  - assert (D2 : Zdigits2 m2 <= 53) by (apply Zdigits2_le; lia).
    pose proof (Zdigits2_above m2 52 ltac:(lia) (proj1 B2)) as D2'.
    replace (Z.max 0 (Z.max (Zdigits2 m2 + e' - 53) (-1074) - e')) with 0 in He2, Hm2 by lia.
    rewrite Z.div_1_r in Hm2. rewrite Hm2.
    destruct m2 as [|p|p]; [exfalso; clear - B2; lia| |exfalso; clear - B2; lia].
    destruct (e'' <=? emax - prec); [|reflexivity].
    split; [reflexivity|].
    destruct (Z.eq_dec e'' (-52)) as [Q|Q]; [right|left; clear - Q E1 He2; lia].
    split; [exact Q|]. apply Pos2Z.pos_le_pos. exact (proj1 B2).
Qed.

Lemma leb_thousand_inv s m e :
  SFleb SF_thousand (S754_finite s m e) = true ->
  s = false /\ (-43 < e \/ (e = -43 /\ 8796093022208000 <= Zpos m)).
Proof.
  unfold SFleb, SFcompare, SF_thousand. destruct s; [discriminate|].
  destruct (Z.compare_spec (-43) e) as [E|E|E]; intros L;
    [split; [reflexivity|right]|split; [reflexivity|left; exact E]|discriminate L].
  split; [now symmetry|].
  rewrite Pos.compare_cont_spec in L. unfold Pos.switch_Eq in L.
  destruct (Pos.compare_spec 8796093022208000 m) as [H|H|H];
    [rewrite <- H; apply Z.le_refl|apply Z.lt_le_incl; exact H|discriminate L].
Qed.

(** The quotient of a number of at least a thousand by a thousand has a
    digit at or above the binary point. *)
Lemma quotient_above_one m e :
  2 ^ 52 <= Zpos m ->
  -43 < e \/ (e = -43 /\ 8796093022208000 <= Zpos m) ->
  let q := Zpos m * 2 ^ 53 / 8796093022208000 in
  2 ^ 52 <= q /\ (-52 <= e - 10 \/ (e - 10 = -53 /\ 2 ^ 53 <= q)).
Proof.
  intros M Le q. split.
  - unfold q. apply Z.div_le_lower_bound; [reflexivity|].
    change (2 ^ 53) with 9007199254740992. change (2 ^ 52) with 4503599627370496 in *.
    clear - M. lia.
  - destruct Le as [Le|[-> Le]]; [left; lia|right]. split; [reflexivity|].
    unfold q. apply Z.div_le_lower_bound; [reflexivity|].
    change (2 ^ 53) with 9007199254740992. clear - Le. lia.
Qed.

(** Whatever is at least a thousand, divided by a thousand, is at least
    one. *)
Lemma SFdiv_thousand_above x :
  valid_binary x = true ->
  SFleb SF_thousand x = true ->
  SFleb SF_one (SF64div x SF_thousand) = true.
Proof.
  intros V L. destruct x as [s|s| |s m e].
  - discriminate L.
  - destruct s; [discriminate L|reflexivity].
  - discriminate L.
  - destruct (leb_thousand_inv s m e L) as [-> Le].
    destruct (valid_finite _ _ _ V) as [C _].
    assert (D53 : Zpos (digits2_pos m) = 53) by lia.
    assert (M52 : 2 ^ 52 <= Zpos m).
    { pose proof (Zdigits2_lower m) as G. rewrite D53 in G. exact G. }
    unfold SF64div, SFdiv, SF_thousand. rewrite SFdiv_core_spec.
    cbn [Zdigits2]. rewrite D53, fexp_unfold.
    change (Zpos (digits2_pos 8796093022208000)) with 53.
    replace (Z.min (Z.max (53 + e - (53 + -43) - 53) (-1074)) (e - -43)) with (e - 10) by lia.
    replace (e - -43 - (e - 10)) with 53 by lia. cbv zeta.
    destruct (quotient_above_one m e M52 Le) as [Q1 Q2].
    set (q := Zpos m * 2 ^ 53 / 8796093022208000) in *.
    set (l := new_location _ _).
    pose proof (round_above_one (xorb false false) q (e - 10) l Q1 Q2) as R.
    destruct (binary_round_aux prec emax (xorb false false) q (e - 10) l)
      as [s'|s'| |s' m' e'']; try contradiction.
    + subst s'. reflexivity.
    + destruct R as [-> R]. clear - R.
      unfold SFleb, SFcompare, SF_one, xorb.
      destruct (Z.compare_spec (-52) e'') as [H|H|H].
      * rewrite Pos.compare_cont_spec. unfold Pos.switch_Eq.
        destruct (Pos.compare_spec 4503599627370496 m') as [G|G|G]; try reflexivity.
        exfalso. destruct R as [R|[_ R]]; [clear - R H; lia|].
        apply (Pos.lt_irrefl m'). apply Pos.lt_le_trans with (1 := G).
        exact R.
      * reflexivity.
      * exfalso. clear - R H. lia.
Qed.

Lemma SFleb_thousand_positive x :
  SFleb SF_thousand x = true ->
  SFltb (S754_zero false) x = true /\ SFeqb x (S754_zero false) = false /\
  x <> S754_nan.
Proof.
  unfold SFleb, SFltb, SFeqb, SFcompare, SF_thousand.
  destruct x as [s|s| |s m e]; try destruct s; try discriminate;
    repeat split; discriminate.
Qed.

End Binary64Above.

Lemma at_least_thousand (x : float) :
  (1000 <=? x) = true -> (1 <=? x / 1000) = true.
Proof.
  rewrite !leb_spec, div_spec, Prim2SF_thousand, Prim2SF_one.
  apply SFdiv_thousand_above, Prim2SF_valid.
Qed.

Lemma thousand_is_positive (x : float) :
  (1000 <=? x) = true -> (x >? 0) = true /\ (x =? 0) = false /\ is_nan x = false.
Proof.
  rewrite leb_spec, Prim2SF_thousand. intros H.
  destruct (SFleb_thousand_positive _ H) as (A & B & C).
  unfold gtb. rewrite ltb_spec, eqb_spec. change (Prim2SF 0) with (S754_zero false).
  repeat split; try assumption.
  apply not_true_is_false. intros N. apply is_nan_spec in N. contradiction.
Qed.

(** ** Click frequency: the hook, the analytics endpoint and the scorer *)

Lemma json_number_at_least_thousand (x : float) :
  is_finite x = true -> (1000 <=? x) = true -> Api.json_number x = x.
Proof.
  intros F L. unfold Api.json_number. rewrite F.
  destruct (thousand_is_positive x L) as (_ & -> & _). reflexivity.
Qed.



(** ** From the analysis to the challenge *)

Lemma selectChallengeType_cases (result : Api.ValidationResult) :
  System.selectChallengeType result = "mouse-pattern" \/
  System.selectChallengeType result = "click-sequence" \/
  System.selectChallengeType result = "typing-cadence".
Proof.
  unfold System.selectChallengeType.
  destruct (_ <? 5)%nat; [now left|].
  destruct (_ <? 2)%nat; [right; now left|right; now right].
Qed.

(** The challenge endpoint answers a request for the selected type with
    that entry of its table. *)
Lemma requestChallenge_selected result sid now iso :
  exists tpl,
    In (System.selectChallengeType result, tpl) Server.challenges /\
    Server.t_type tpl = System.selectChallengeType result /\
    Api.requestChallenge sid now iso (System.selectChallengeType result) =
    Api.Responds true
      (Some {| Api.challenge_success := true;
               Api.challenge := Some (Server.stamp (Some tpl) sid now iso) |}).
Proof.
  destruct (selectChallengeType_cases result) as [E|[E|E]]; rewrite E.
  - exists Server.mouse_pattern. cbn. intuition.
  - exists Server.click_sequence. cbn. intuition.
  - exists Server.typing_cadence. cbn. intuition.
Qed.

(** X5.  The type [selectChallengeType] picks is always a key of the
    table of the challenge endpoint: the endpoint answers with that entry
    of the table, whose [type] is the one asked for, and never with its
    default for unknown types.  With five or more mouse movements in the
    analysis the type is not mouse-pattern, and it is typing-cadence
    exactly when there are also two or more clicks. *)
Theorem selected_challenge_is_issued (result : Api.ValidationResult) sid now iso :
  (exists tpl,
     In (System.selectChallengeType result, tpl) Server.challenges /\
     Server.issue (System.selectChallengeType result) sid now iso =
     Server.ChallengeOk (Server.stamp (Some tpl) sid now iso) /\
     Server.type (Server.stamp (Some tpl) sid now iso) =
     Some (System.selectChallengeType result)) /\
  ((5 <= Reports.analysis_mouseMovements (Api.analysis result))%nat ->
   System.selectChallengeType result <> "mouse-pattern") /\
  (System.selectChallengeType result = "typing-cadence" <->
   (5 <= Reports.analysis_mouseMovements (Api.analysis result))%nat /\
   (2 <= Reports.analysis_clicks (Api.analysis result))%nat).
Proof.
  split; [|split].
  - destruct (selectChallengeType_cases result) as [E|[E|E]]; rewrite E.
    + exists Server.mouse_pattern. cbn. intuition.
    + exists Server.click_sequence. cbn. intuition.
    + exists Server.typing_cadence. cbn. intuition.
  - unfold System.selectChallengeType. intros H.
    destruct (Nat.ltb_spec (Reports.analysis_mouseMovements (Api.analysis result)) 5);
      [lia|].
    destruct (_ <? 2)%nat; discriminate.
  - unfold System.selectChallengeType.
    destruct (Nat.ltb_spec (Reports.analysis_mouseMovements (Api.analysis result)) 5);
    [|destruct (Nat.ltb_spec (Reports.analysis_clicks (Api.analysis result)) 2)];
      split; try discriminate; try lia; intros; try reflexivity; try lia.
Qed.

(** What [validateBehavior] does with a reply that got through. *)
Lemma validateBehavior_reply result requestChallenge now s :
  System.validateBehavior
    (Api.Responds true (Some {| Api.success := true; Api.result := Some result |}))
    requestChallenge now s =
  let s1 := Captcha.setCaptchaState Captcha.st_analyzing s in
  if Api.needsChallenge result then
    match Api.makeRequest (requestChallenge (System.selectChallengeType result)) with
    | inr {| Api.challenge_success := true; Api.challenge := Some c |} =>
        System.mount c now
          (Captcha.setCaptchaState Captcha.st_challenge (System.setChallenge (Some c) s1))
    | inr _ =>
        Captcha.setCaptchaState Captcha.st_failure
          (Captcha.setFinalResult
             {| Captcha.success := false; Captcha.isHuman := VBool false;
                Captcha.confidence :=
                  if truthy (Api.confidence result)
                  then Api.confidence result else VNum 0;
                Captcha.challengeRequired := true;
                Captcha.method := "challenge_failed" |} s1)
    | inl _ =>
        Captcha.setCaptchaState Captcha.st_failure
          (Captcha.setFinalResult
             {| Captcha.success := false; Captcha.isHuman := VBool false;
                Captcha.confidence := VNum 0;
                Captcha.challengeRequired := false;
                Captcha.method := "error" |} s1)
    end
  else
    Captcha.setCaptchaState Captcha.st_success
      (Captcha.setFinalResult
         {| Captcha.success := true; Captcha.isHuman := Api.isHuman result;
            Captcha.confidence := Api.confidence result;
            Captcha.challengeRequired := false;
            Captcha.method := "ml_model" |} s1).
Proof.
  unfold System.validateBehavior. cbn [Api.makeRequest bind ret Api.success Api.result].
  destruct (Api.needsChallenge result); [|reflexivity].
  destruct (Api.makeRequest _) as [e|[[] [c|]]]; reflexivity.
Qed.

Lemma validate_answers bd sid o :
  exists a, Server.validate (Some bd) sid o = Server.Json200 a.
Proof.
  destruct (Server.tryMLService o) as [e|[[h r] c]] eqn:E.
  - eexists. exact (validate_fallback bd sid o e E).
  - eexists. exact (validate_ml bd sid o h r c E).
Qed.

(** The reply of the validation endpoint to the data of the hook, as the
    client reads it. *)
Lemma validateBehavior_answers bd sid o :
  exists a,
    Server.validate (Some (Api.request_body bd)) sid o = Server.Json200 a /\
    Api.validateBehavior bd sid o =
    Api.Responds true
      (Some {| Api.success := true;
               Api.result :=
                 Some {| Api.isHuman := Api.json_value (Server.isHuman a);
                         Api.riskScore := Api.json_value (VNum (Server.riskScore a));
                         Api.confidence := Api.json_value (VNum (Server.confidence a));
                         Api.needsChallenge := Server.needsChallenge a;
                         Api.analysis := Reports.analysis (Api.request_body bd) |} |}).
Proof.
  destruct (validate_answers (Api.request_body bd) sid o) as [a V].
  exists a. split; [exact V|]. unfold Api.validateBehavior. rewrite V. reflexivity.
Qed.

(** X6.  Against the backend, an analysis that starts from the collecting
    state ends in success or in a shown challenge, never in failure.  The
    validation endpoint answers 200 with an assessment; when the
    assessment needs a challenge, the session is the one of a freshly
    shown challenge from the table of the challenge endpoint; when it
    does not, the session is in the success state, whatever [isHuman]
    says, and its result is labelled [ml_model], whichever method the
    server used; its [isHuman] and [confidence] are those of the
    assessment as JSON carries them: a confidence that is not finite
    arrives as [null], a verdict that is not a boolean as JSON has it. *)
Theorem analysis_passes_or_challenges bd sid o sn si now :
  let s' := System.analyse bd sid o sn si now System.collecting in
  exists a,
    Server.validate (Some (Api.request_body bd)) sid o = Server.Json200 a /\
    if Server.needsChallenge a then
      exists name tpl,
        In (name, tpl) Server.challenges /\
        s' = Captcha.start (Server.stamp (Some tpl) sid sn si) now
    else
      Captcha.captchaState s' = Captcha.st_success /\
      Captcha.finalResult s' =
      Some {| Captcha.success := true;
              Captcha.isHuman := Api.json_value (Server.isHuman a);
              Captcha.confidence :=
                if is_finite (Server.confidence a)
                then VNum (if Server.confidence a =? 0 then 0
                           else Server.confidence a)
                else VNull;
              Captcha.challengeRequired := false;
              Captcha.method := "ml_model" |}.
Proof.
  cbv zeta. unfold System.analyse.
  destruct (validateBehavior_answers bd sid o) as (a & V & ->).
  exists a. split; [exact V|].
  rewrite validateBehavior_reply. cbv zeta. cbn [Api.needsChallenge].
  destruct (Server.needsChallenge a); [|split; reflexivity].
  set (result := {| Api.isHuman := Api.json_value (Server.isHuman a) |}).
  destruct (requestChallenge_selected result sid sn si) as (tpl & I & _ & ->).
  cbn [Api.makeRequest ret]. exists (System.selectChallengeType result), tpl.
  split; [exact I|reflexivity].
Qed.

(** X7.  Whatever the request for validation comes to, and whatever the
    state before, [validateBehavior] against the challenge endpoint
    leaves the session in the challenge, the success or the failure
    state; it fails exactly when no reply with [success] and a [result]
    got through; and a failure always shows the result of the [catch]
    block, method [error]: the [challenge_failed] result is never
    produced. *)
Theorem failed_analysis_is_an_error validation sid sn si now s :
  let s' := System.validateBehavior validation (Api.requestChallenge sid sn si) now s in
  (Captcha.captchaState s' = Captcha.st_challenge \/
   Captcha.captchaState s' = Captcha.st_success \/
   Captcha.captchaState s' = Captcha.st_failure) /\
  (Captcha.captchaState s' = Captcha.st_failure <->
   forall result,
     Api.makeRequest validation <>
     inr {| Api.success := true; Api.result := Some result |}) /\
  (Captcha.captchaState s' = Captcha.st_failure ->
   Captcha.finalResult s' =
   Some {| Captcha.success := false; Captcha.isHuman := VBool false;
           Captcha.confidence := VNum 0; Captcha.challengeRequired := false;
           Captcha.method := "error" |}).
Proof.
  cbv zeta.
  destruct (Api.makeRequest validation) as [e|[[] [result|]]] eqn:M.
  2:{ assert (V : validation =
                  Api.Responds true (Some {| Api.success := true; Api.result := Some result |})).
      { destruct validation as [m|[] [b|]]; try discriminate M. now injection M as ->. }
      rewrite V, validateBehavior_reply. cbv zeta.
      destruct (Api.needsChallenge result).
      - destruct (requestChallenge_selected result sid sn si) as (tpl & _ & _ & ->).
        cbn. split; [now left|split; [split; [discriminate|intros H; now elim (H result)]|discriminate]].
      - cbn. split; [right; now left|split; [split; [discriminate|intros H; now elim (H result)]|discriminate]]. }
  all: unfold System.validateBehavior; rewrite M; cbn;
    (split; [right; now right|split; [split; [discriminate|reflexivity]|reflexivity]]).
Qed.

(** X8.  The analysis the server echoes counts the buffers of the client:
    in every reply to the data of the hook, the numbers of mouse
    movements, clicks and keystrokes of the [analysis] are the lengths of
    the three buffers sent.  So the challenge type is decided by the
    client's own buffers: mouse-pattern with fewer than five movements,
    else click-sequence with fewer than two clicks, else
    typing-cadence. *)
Theorem challenge_type_follows_the_buffers (bd : Tracking.BehaviorData) sid o ok body result :
  Api.validateBehavior bd sid o = Api.Responds ok (Some body) ->
  Api.result body = Some result ->
  (Reports.analysis_mouseMovements (Api.analysis result) =
     List.length (Tracking.mouseMovements bd) /\
   Reports.analysis_clicks (Api.analysis result) = List.length (Tracking.clicks bd) /\
   Reports.analysis_keystrokes (Api.analysis result) =
     List.length (Tracking.keystrokes bd)) /\
  System.selectChallengeType result =
    (if (List.length (Tracking.mouseMovements bd) <? 5)%nat then "mouse-pattern"
     else if (List.length (Tracking.clicks bd) <? 2)%nat then "click-sequence"
     else "typing-cadence").
Proof.
  intros H R.
  destruct (validateBehavior_answers bd sid o) as (a & _ & V). rewrite V in H.
  injection H as _ <-. cbn [Api.result] in R.
  injection R as <-.
  assert (C : Reports.analysis_mouseMovements (Reports.analysis (Api.request_body bd)) =
                List.length (Tracking.mouseMovements bd) /\
              Reports.analysis_clicks (Reports.analysis (Api.request_body bd)) =
                List.length (Tracking.clicks bd) /\
              Reports.analysis_keystrokes (Reports.analysis (Api.request_body bd)) =
                List.length (Tracking.keystrokes bd)).
  { cbn. now rewrite !length_map. }
  split; [exact C|].
  unfold System.selectChallengeType. cbn [Api.analysis].
  destruct C as (-> & -> & _). reflexivity.
Qed.

(** Nothing recorded: the drawing challenge. *)
Lemma challenge_type_follows_the_buffers_witness :
  System.selectChallengeType
    {| Api.isHuman := VBool false; Api.riskScore := VNum 1; Api.confidence := VNum 1;
       Api.needsChallenge := true;
       Api.analysis := Reports.analysis (Api.request_body Tracking.empty) |}
  = "mouse-pattern".
Proof.
  apply (challenge_type_follows_the_buffers Tracking.empty "session_1"
           (Server.FetchRejects "ECONNREFUSED") true
           {| Api.success := true;
              Api.result :=
                Some {| Api.isHuman := VBool false; Api.riskScore := VNum 1;
                        Api.confidence := VNum 1;
                        Api.needsChallenge := true;
                        Api.analysis :=
                          Reports.analysis (Api.request_body Tracking.empty) |} |});
    reflexivity.
Defined.

(** A confidence that is not below [0.4] is not zero. *)
Lemma not_below_is_not_zero (c : float) : (c <? 0.4) = false -> (c =? 0) = false.
Proof.
  intros L. apply not_true_is_false. intros E. rewrite ltb_spec in L.
  rewrite eqb_spec in E. change (Prim2SF 0) with (S754_zero false) in E.
  destruct (Prim2SF c) as [s|s| |s m e]; try (destruct s; discriminate E);
    try discriminate E.
  vm_compute in L. discriminate L.
Qed.

(** X9.  Success does not mean human.  When the classifier answers
    [is_human = false] with a risk score that is not above [0.7] and a
    confidence that is not below [0.4], the endpoint asks for no
    challenge and the session ends in the success state, with
    [success = true] and [isHuman = false] in its result; the confidence
    of the result is the one of the classifier, or [null] if that is not
    finite.  (By X1 the fallback never does this.) *)
Theorem success_does_not_mean_human (bd : Tracking.BehaviorData) sid (r c : float)
    sn si now :
  (r >? 0.7) = false -> (c <? 0.4) = false ->
  let reply :=
    Server.FetchResponds true
      (Some (VObj [ ("success", VBool true);
                    ("prediction", VObj [ ("is_human", VBool false);
                                          ("risk_score", VNum r);
                                          ("confidence", VNum c) ]) ])) in
  let s' := System.analyse bd sid reply sn si now System.collecting in
  Captcha.captchaState s' = Captcha.st_success /\
  Captcha.finalResult s' =
  Some {| Captcha.success := true; Captcha.isHuman := VBool false;
          Captcha.confidence := if is_finite c then VNum c else VNull;
          Captcha.challengeRequired := false;
          Captcha.method := "ml_model" |}.
Proof.
  intros R C reply. cbv zeta. unfold System.analyse, Api.validateBehavior.
  assert (A : Server.accepted reply (VBool false) r c).
  { exists [ ("success", VBool true);
             ("prediction", VObj [ ("is_human", VBool false);
                                   ("risk_score", VNum r);
                                   ("confidence", VNum c) ]) ],
           (VBool true),
           [ ("is_human", VBool false); ("risk_score", VNum r);
             ("confidence", VNum c) ].
    repeat split. }
  rewrite (validate_ml (Api.request_body bd) sid reply _ r c
             (accepted_is_the_verdict reply _ r c A)).
  unfold Api.validation_body.
  cbn [Server.isHuman Server.riskScore Server.confidence Server.needsChallenge].
  rewrite validateBehavior_reply. cbv zeta.
  cbn [Api.needsChallenge Api.isHuman Api.confidence Api.json_value].
  rewrite R, C, (not_below_is_not_zero c C). split; reflexivity.
Qed.

(** Not human, with a risk of 0.65 and a confidence of 0.9. *)
Lemma success_does_not_mean_human_witness :
  Captcha.finalResult
    (System.analyse Tracking.empty "session_1" confident_rejection
       "1700000000000" "2023-11-14T22:13:20.000Z" 1700000000000 System.collecting)
  = Some {| Captcha.success := true; Captcha.isHuman := VBool false;
            Captcha.confidence := VNum 0.9; Captcha.challengeRequired := false;
            Captcha.method := "ml_model" |}.
Proof.
  apply (success_does_not_mean_human Tracking.empty "session_1" 0.65 0.9
           "1700000000000" "2023-11-14T22:13:20.000Z" 1700000000000);
    reflexivity.
Defined.

(** ** Sessions without mouse movement *)

Lemma run_without_mouse es : forall h,
  forallb (fun e => negb (moves_mouse e)) es = true ->
  Tracking.mouseMovements (Tracking.behaviorData h) = [] ->
  Tracking.sessionDuration (Tracking.behaviorData h) = 0 ->
  Tracking.mouseMovements (Tracking.behaviorData (Tracking.run h es)) = [] /\
  Tracking.sessionDuration (Tracking.behaviorData (Tracking.run h es)) = 0.
Proof.
  induction es as [|e es IH]; intros h F M D; [split; assumption|].
  cbn [forallb] in F. apply andb_prop in F. destruct F as [Fe F].
  cbn [Tracking.run fold_left]. apply IH; [exact F| |];
    destruct e as [cx cy now|cx cy now|k now|k now|hidden|now];
    try discriminate Fe; cbn [Tracking.step]; try assumption; try reflexivity;
    try (unfold Tracking.handleKeyDown; destruct (String.eqb k "__proto__");
         assumption);
    unfold Tracking.handleKeyUp; destruct (Tracking.pressed k h); assumption.
Qed.

Lemma keyboard_only_verdict (bd : Server.BehaviorData) :
  Server.mouseMovements bd = Some [] ->
  Server.sessionDuration bd = Some 0 ->
  let r := Server.calculateBasicRiskScore bd in
  ((0.8 <=? r) && negb (r <? 0.6)
   && ((r >? 0.7) || (Math_abs (0.5 - r) * 2 <? 0.4)))%bool = true.
Proof.
  unfold Server.calculateBasicRiskScore. intros -> ->. cbv zeta. cbn [to_number].
  replace (0 >? 5000) with false by reflexivity.
  replace (0 <? 1000) with true by reflexivity.
  destruct (Server.clicks bd) as [[|k cl]|];
  destruct (Server.keystrokes bd) as [[|k' ks]|];
  split_tests; vm_compute; reflexivity.
Qed.

(** X10.  The session duration of the hook advances with mouse moves
    only.  After any sequence of clicks, key presses, visibility changes
    and resets without a mouse move, the hook still reports no mouse
    movement and a session duration of zero, however long the session
    has lasted.  So automatic validation never starts; and when the data
    are validated with the classifier failing, the server scores them at
    [0.8] or more, answers not human with a challenge, and the challenge
    the client then shows is the drawing challenge. *)
Theorem session_without_mouse_movement now0 es :
  forallb (fun e => negb (moves_mouse e)) es = true ->
  let bd := Tracking.behaviorData (Tracking.run (Tracking.init now0) es) in
  (Tracking.mouseMovements bd = [] /\ Tracking.sessionDuration bd = 0) /\
  (forall enabled state, System.autoValidates enabled state bd = false) /\
  (forall sid o, Server.classifier_failure o ->
     exists a,
       Server.validate (Some (Api.request_body bd)) sid o = Server.Json200 a /\
       Server.isHuman a = VBool false /\ Server.needsChallenge a = true /\
       (0.8 <=? Server.riskScore a) = true) /\
  (forall sid o sn si now, Server.classifier_failure o ->
     System.analyse bd sid o sn si now System.collecting =
     Captcha.start (Server.stamp (Some Server.mouse_pattern) sid sn si) now).
Proof.
  intros F bd.
  destruct (run_without_mouse es (Tracking.init now0) F eq_refl eq_refl) as [M D].
  fold bd in M, D.
  assert (V : forall sid o, Server.classifier_failure o ->
            Server.validate (Some (Api.request_body bd)) sid o =
            Server.Json200 (Server.fallback_assessment (Api.request_body bd) sid)).
  { intros sid o C. destruct (classifier_failure_throws o C) as [e E].
    exact (validate_fallback _ sid o e E). }
  assert (K : let r := Server.calculateBasicRiskScore (Api.request_body bd) in
              ((0.8 <=? r) && negb (r <? 0.6)
               && ((r >? 0.7) || (Math_abs (0.5 - r) * 2 <? 0.4)))%bool = true).
  { apply keyboard_only_verdict; unfold Api.request_body;
      cbn [Server.mouseMovements Server.sessionDuration].
    - now rewrite M.
    - now rewrite D. }
  cbv zeta in K. apply andb_prop in K. destruct K as [K K3].
  apply andb_prop in K. destruct K as [K1 K2]. apply negb_true_iff in K2.
  split; [split; assumption|split; [|split]].
  - intros [] []; try reflexivity. unfold System.autoValidates. now rewrite M.
  - intros sid o C. eexists. split; [exact (V sid o C)|].
    unfold Server.fallback_assessment.
    cbn [Server.isHuman Server.needsChallenge Server.riskScore].
    rewrite K2. repeat split; assumption.
  - intros sid o sn si now C. unfold System.analyse, Api.validateBehavior.
    rewrite (V sid o C). unfold Api.validation_body, Server.fallback_assessment.
    cbn [Server.isHuman Server.needsChallenge Server.riskScore Server.confidence].
    rewrite validateBehavior_reply. cbv zeta. cbn [Api.needsChallenge]. rewrite K3.
    unfold System.selectChallengeType. cbn [Api.analysis].
    unfold Api.request_body at 1. unfold Reports.analysis at 1.
    cbn [Reports.analysis_mouseMovements Server.mouseMovements Reports.count].
    rewrite M. reflexivity.
Qed.

(** One key, pressed and released. *)
Lemma session_without_mouse_movement_witness :
  System.analyse
    (Tracking.behaviorData
       (Tracking.run (Tracking.init 1700000000000)
          [Tracking.KeyDown "a" 1700000000100; Tracking.KeyUp "a" 1700000000180]))
    "session_1" (Server.FetchRejects "ECONNREFUSED")
    "1700000004000" "2023-11-14T22:13:24.000Z" 1700000004000 System.collecting =
  Captcha.start
    (Server.stamp (Some Server.mouse_pattern) "session_1"
       "1700000004000" "2023-11-14T22:13:24.000Z") 1700000004000.
Proof.
  apply (session_without_mouse_movement 1700000000000
           [Tracking.KeyDown "a" 1700000000100; Tracking.KeyUp "a" 1700000000180]
           eq_refl).
  eapply Server.call_throws. reflexivity.
Defined.

(** ** Automatic validation *)

Lemma progress_complete_hook :
  forallb (fun n => forallb (progress_complete n) (seq 0 51)) (seq 10 41) = true.
Proof. vm_compute. reflexivity. Qed.

Lemma hook_lengths now0 es :
  let bd := Tracking.behaviorData (Tracking.run (Tracking.init now0) es) in
  (List.length (Tracking.mouseMovements bd) <= 50)%nat /\
  (List.length (Tracking.clicks bd) <= 20)%nat /\
  (List.length (Tracking.keystrokes bd) <= 30)%nat.
Proof.
  intros bd.
  destruct (windows_run es (Tracking.init now0) [] [] []) as (Wm & Wc & Wk);
    [repeat split|].
  fold bd in Wm, Wc, Wk. rewrite Wm, Wc, Wk, !slice_last_length. lia.
Qed.

(** X11.  On the data of the hook, automatic validation starts exactly
    when there are ten or more mouse movements and the session has lasted
    3000 ms or more: the two further tests of the effect, five or more
    interactions in total and a progress of 100 or more, never decide
    anything, because ten movements are more than five interactions and,
    with the buffers of the hook, the progress of such a session is
    complete. *)
Theorem auto_validation_trigger now0 es :
  let bd := Tracking.behaviorData (Tracking.run (Tracking.init now0) es) in
  System.autoValidates true Captcha.st_collecting bd =
  (10 <=? List.length (Tracking.mouseMovements bd))%nat
  && (3000 <=? Tracking.sessionDuration bd).
Proof.
  intros bd. unfold System.autoValidates.
  destruct (hook_lengths now0 es) as (Lm & Lc & Lk). fold bd in Lm, Lc, Lk.
  destruct (Nat.leb_spec 10 (List.length (Tracking.mouseMovements bd))) as [G|G];
    [|reflexivity].
  destruct (3000 <=? Tracking.sessionDuration bd) eqn:D; [|reflexivity].
  cbn [andb].
  replace (5 <=? System.totalInteractions bd)%nat with true
    by (symmetry; apply Nat.leb_le; unfold System.totalInteractions; lia).
  cbn [andb]. unfold System.progress.
  rewrite (Math_min_at_least _ 3000 false 6597069766656000 (-41) eq_refl D).
  unfold System.totalInteractions, length_num. rewrite <- Nat.add_assoc.
  pose proof progress_complete_hook as P. rewrite forallb_forall in P.
  assert (I1 : In (List.length (Tracking.mouseMovements bd)) (seq 10 41))
    by (apply in_seq; lia).
  specialize (P _ I1). rewrite forallb_forall in P.
  apply (P (List.length (Tracking.clicks bd) + List.length (Tracking.keystrokes bd))%nat).
  apply in_seq. lia.
Qed.

(** ** What a shown challenge can come to *)

(** The completion callback fails the session and leaves the result as
    it was. *)
Lemma onChallengeComplete_fails response s :
  Captcha.onChallengeComplete response s = Captcha.setCaptchaState Captcha.st_failure s.
Proof. reflexivity. Qed.

Lemma step_challenged_or_failed s e :
  challenged_or_failed s -> challenged_or_failed (Captcha.step s e).
Proof.
  intros [St Fr]. unfold Captcha.step.
  destruct (Captcha.captchaState s) eqn:Cs; try (split; [rewrite Cs|]; assumption).
  destruct (Captcha.challenge s) as [c|]; [|split; [rewrite Cs|]; assumption].
  destruct e as [|buttonNumber now|value now].
  - unfold Captcha.tick. destruct (Captcha.timeLeft s <=? 1).
    + split; [right; reflexivity|]. cbn. now intros r [= <-].
    + split; [left; exact Cs|exact Fr].
  - destruct (Captcha.has_type c "click-sequence" && negb (Captcha.isComplete s));
      [|split; [rewrite Cs|]; assumption].
    unfold Captcha.handleButtonClick.
    destruct (Captcha.click_response _ _ _) as [response|].
    + rewrite onChallengeComplete_fails. split; [right; reflexivity|exact Fr].
    + split; [left; exact Cs|exact Fr].
  - destruct (Captcha.has_type c "typing-cadence" && negb (Captcha.isComplete s));
      [|split; [rewrite Cs|]; assumption].
    unfold Captcha.handleInputChange. cbn [Captcha.setTypedText Captcha.startTime].
    destruct (Server.expectedText c) as [expected|]; [|split; [left; exact Cs|exact Fr]].
    destruct (String.eqb value expected).
    + rewrite onChallengeComplete_fails. split; [right; reflexivity|exact Fr].
    + split; [left; exact Cs|exact Fr].
Qed.

Lemma run_challenged_or_failed es : forall s,
  challenged_or_failed s -> challenged_or_failed (Captcha.run s es).
Proof.
  induction es as [|e es IH]; intros s H; [exact H|].
  cbn [Captcha.run fold_left]. apply IH. now apply step_challenged_or_failed.
Qed.

(** X12.  No answer to a challenge makes the session succeed.  The
    completion callback handed to [ChallengeSystem] is memoised with an
    empty dependency list, so the [validateChallengeResponse] it calls
    reads the [challenge] of the first render, which is [null]; the read
    of [challenge.type] throws and the [catch] block puts the session in
    the failure state without setting a result.  Hence, whatever the
    challenge and whatever the countdown, the buttons and the text input
    do, the session never reaches the success state, and the only result
    it can show is the one of the timeout; the expected sequence
    [[1,3,2]] itself fails the session. *)
Theorem no_response_passes_the_challenge (c : Server.Challenge) (now : float)
    (es : list Captcha.Event) :
  let s := Captcha.run (Captcha.start c now) es in
  Captcha.captchaState s <> Captcha.st_success /\
  (forall r, Captcha.finalResult s = Some r -> Captcha.method r = "timeout") /\
  (forall response s0,
     Captcha.captchaState (Captcha.onChallengeComplete response s0) = Captcha.st_failure /\
     Captcha.finalResult (Captcha.onChallengeComplete response s0) = Captcha.finalResult s0) /\
  (forall n1 n2 n3,
     Captcha.captchaState
       (Captcha.run (Captcha.start issued_click_sequence now)
          [Captcha.ButtonClick 1 n1; Captcha.ButtonClick 3 n2;
           Captcha.ButtonClick 2 n3]) = Captcha.st_failure).
Proof.
  intros s.
  assert (H : challenged_or_failed s).
  { apply run_challenged_or_failed. split; [left; reflexivity|discriminate]. }
  destruct H as [[St|St] Fr]; (split; [rewrite St; discriminate|]);
    (split; [exact Fr|split; [split; reflexivity|reflexivity]]).
Qed.

(** ** The typing challenge *)

Lemma typing_stays s c expected value now :
  Captcha.captchaState s = Captcha.st_challenge ->
  Captcha.challenge s = Some c ->
  Server.expectedText c = Some expected ->
  value <> expected ->
  let s' := Captcha.step s (Captcha.InputChange value now) in
  Captcha.captchaState s' = Captcha.st_challenge /\
  Captcha.challenge s' = Some c /\
  Captcha.isComplete s' = Captcha.isComplete s /\
  Captcha.finalResult s' = Captcha.finalResult s.
Proof.
  intros Cs Cc Ce N. unfold Captcha.step. rewrite Cs, Cc.
  destruct (Captcha.has_type c "typing-cadence" && negb (Captcha.isComplete s));
    [|repeat split; assumption].
  unfold Captcha.handleInputChange. rewrite Ce.
  destruct (String.eqb_spec value expected) as [E|E]; [contradiction|].
  repeat split; assumption.
Qed.

(** X13.  The typing challenge completes on the exact text only.  As long
    as no value of the input is the expected text, character for
    character and in the same case, no response is sent: the session
    stays under challenge, not complete and without a result, whatever
    is typed and however often.  The first value that is the expected
    text completes the challenge and takes the session out of the
    challenge state.  So a typing challenge never sends an incorrect
    response: it ends by the exact text or by the timeout. *)
Theorem typing_completes_on_exact_text (c : Server.Challenge) (expected : string)
    (inputs : list (string * float)) (now : float) :
  Server.type c = Some "typing-cadence" ->
  Server.expectedText c = Some expected ->
  Forall (fun input => fst input <> expected) inputs ->
  let s := Captcha.run (Captcha.start c now)
             (map (fun input => Captcha.InputChange (fst input) (snd input)) inputs) in
  (Captcha.captchaState s = Captcha.st_challenge /\
   Captcha.isComplete s = false /\ Captcha.finalResult s = None) /\
  (forall t, Captcha.isComplete (Captcha.step s (Captcha.InputChange expected t)) = true /\
             Captcha.captchaState (Captcha.step s (Captcha.InputChange expected t))
             <> Captcha.st_challenge).
Proof.
  intros Ht He F s.
  assert (I : Captcha.captchaState s = Captcha.st_challenge /\
              Captcha.challenge s = Some c /\
              Captcha.isComplete s = false /\ Captcha.finalResult s = None).
  { subst s. generalize (Captcha.start c now),
      (conj (eq_refl : Captcha.captchaState (Captcha.start c now) = Captcha.st_challenge)
         (conj (eq_refl : Captcha.challenge (Captcha.start c now) = Some c)
            (conj (eq_refl : Captcha.isComplete (Captcha.start c now) = false)
               (eq_refl : Captcha.finalResult (Captcha.start c now) = None)))).
    induction F as [|[value t] inputs N F IH]; intros s0 H0; [exact H0|].
    cbn [map Captcha.run fold_left fst snd]. apply IH.
    destruct H0 as (Cs & Cc & Ci & Cf). cbn [fst] in N.
    destruct (typing_stays s0 c expected value t Cs Cc He N) as (A & B & C & D).
    repeat split; congruence. }
  destruct I as (Cs & Cc & Ci & Cf).
  split; [repeat split; assumption|].
  intros t. unfold Captcha.step. rewrite Cs, Cc.
  unfold Captcha.has_type. rewrite Ht, Ci.
  replace (String.eqb "typing-cadence" "typing-cadence") with true by reflexivity.
  cbn [andb negb]. unfold Captcha.handleInputChange. rewrite He, String.eqb_refl.
  rewrite onChallengeComplete_fails. split; [reflexivity|discriminate].
Qed.

(** The text in lower case is not the expected text. *)
Lemma typing_completes_on_exact_text_witness :
  Captcha.captchaState
    (Captcha.run (Captcha.start issued_typing_cadence 0)
       (map (fun input => Captcha.InputChange (fst input) (snd input))
            [("I", 900); ("I am", 1800); ("i am human", 2500)]))
  = Captcha.st_challenge.
Proof.
  apply (typing_completes_on_exact_text issued_typing_cadence "I am human"
           [("I", 900); ("I am", 1800); ("i am human", 2500)] 0 eq_refl eq_refl).
  repeat constructor; discriminate.
Defined.

(** ** The drawing challenge *)

(** After every event the canvas is not drawing, its path has at most
    one point, and nothing has been sent. *)
Lemma step_never_draws c startTime d e :
  Drawing.isDrawing d = false ->
  (List.length (Drawing.mousePath d) <= 1)%nat ->
  Drawing.isDrawing (fst (Drawing.step c startTime d e)) = false /\
  (List.length (Drawing.mousePath (fst (Drawing.step c startTime d e))) <= 1)%nat /\
  snd (Drawing.step c startTime d e) = None.
Proof.
  intros I L. destruct e as [point|point|now|now|]; cbn [Drawing.step fst snd].
  - repeat split. cbn. lia.
  - unfold Drawing.draw. rewrite I. cbn [negb]. repeat split; assumption.
  - unfold Drawing.stopDrawing. rewrite I. repeat split. exact L.
  - unfold Drawing.stopDrawing. rewrite I. repeat split. exact L.
  - repeat split. exact L.
Qed.

Lemma run_never_draws c startTime es : forall d,
  Drawing.isDrawing d = false ->
  (List.length (Drawing.mousePath d) <= 1)%nat ->
  Drawing.isDrawing (fst (Drawing.run c startTime d es)) = false /\
  (List.length (Drawing.mousePath (fst (Drawing.run c startTime d es))) <= 1)%nat /\
  snd (Drawing.run c startTime d es) = [].
Proof.
  induction es as [|e es IH]; intros d I L; [repeat split; assumption|].
  cbn [Drawing.run].
  destruct (step_never_draws c startTime d e I L) as (I' & L' & S).
  destruct (Drawing.step c startTime d e) as [d' sent]. cbn [fst snd] in I', L', S.
  destruct (IH d' I' L') as (I'' & L'' & S').
  destruct (Drawing.run c startTime d' es) as [d'' later]. cbn [fst snd] in *.
  subst sent later. repeat split; assumption.
Qed.

(** The countdown is all that moves a drawing challenge. *)
Lemma step_mouse_pattern c s e :
  Server.type c = Some "mouse-pattern" ->
  Captcha.captchaState s = Captcha.st_challenge /\ Captcha.challenge s = Some c /\
  Captcha.finalResult s = None \/ Captcha.timed_out s ->
  Captcha.captchaState (Captcha.step s e) = Captcha.st_challenge /\
  Captcha.challenge (Captcha.step s e) = Some c /\
  Captcha.finalResult (Captcha.step s e) = None \/
  Captcha.timed_out (Captcha.step s e).
Proof.
  intros Ht [(Cs & Cc & Cf)|T].
  - unfold Captcha.step. rewrite Cs, Cc.
    destruct e as [|buttonNumber now|value now].
    + unfold Captcha.tick. destruct (Captcha.timeLeft s <=? 1).
      * right. split; reflexivity.
      * left. repeat split; assumption.
    + unfold Captcha.has_type. rewrite Ht. cbn [String.eqb Ascii.eqb Bool.eqb andb].
      left. repeat split; assumption.
    + unfold Captcha.has_type. rewrite Ht. cbn [String.eqb Ascii.eqb Bool.eqb andb].
      left. repeat split; assumption.
  - right. change (Captcha.step s e) with (Captcha.run s [e]).
    now rewrite (run_timed_out s [e] T).
Qed.

(** X14.  Nothing drawn completes the drawing challenge.
    [MousePatternChallenge] is declared inside the render of
    [ChallengeSystem], so every render of [ChallengeSystem] mounts it
    afresh, with [isDrawing] back at [false]; [startDrawing] itself
    causes such a render by setting the path.  Hence, whatever the mouse
    does on the canvas and whenever the component renders, no drawing is
    ever in progress when an event arrives, the path never has more than
    one point, and [stopDrawing] never sends a response, although it
    would send one for a drawing in progress of more than twenty points.
    A session under a drawing challenge is moved by the countdown only:
    it stays under challenge until it times out. *)
Theorem drawing_is_never_sent (c : Server.Challenge) (startTime : float)
    (es : list Drawing.Event) :
  (Drawing.isDrawing (fst (Drawing.run c startTime Drawing.blank es)) = false /\
   (List.length (Drawing.mousePath (fst (Drawing.run c startTime Drawing.blank es)))
    <= 1)%nat /\
   snd (Drawing.run c startTime Drawing.blank es) = []) /\
  (forall mousePath t,
     Drawing.stopDrawing c true mousePath t <> None <->
     (20 < List.length mousePath)%nat) /\
  (forall point,
     Drawing.isDrawing (Drawing.startDrawing point Drawing.blank) = false /\
     Drawing.mousePath (Drawing.startDrawing point Drawing.blank) = [point]) /\
  (Server.type c = Some "mouse-pattern" ->
   forall now events,
     let s := Captcha.run (Captcha.start c now) events in
     (Captcha.captchaState s = Captcha.st_challenge /\ Captcha.finalResult s = None) \/
     Captcha.timed_out s).
Proof.
  split; [|split; [|split]].
  - apply run_never_draws; [reflexivity|cbn; lia].
  - intros mousePath t. unfold Drawing.stopDrawing. cbn [andb].
    destruct (Nat.ltb_spec 20 (List.length mousePath)) as [L|L]; split;
      try discriminate; try (intros _; exact L); try lia.
    intros N. now elim N.
  - intros point. split; reflexivity.
  - intros Ht now events. cbv zeta.
    assert (H : forall s,
              Captcha.captchaState s = Captcha.st_challenge /\
              Captcha.challenge s = Some c /\ Captcha.finalResult s = None \/
              Captcha.timed_out s ->
              Captcha.captchaState (Captcha.run s events) = Captcha.st_challenge /\
              Captcha.challenge (Captcha.run s events) = Some c /\
              Captcha.finalResult (Captcha.run s events) = None \/
              Captcha.timed_out (Captcha.run s events)).
    { induction events as [|e events IH]; intros s I; [exact I|].
      cbn [Captcha.run fold_left]. apply IH. now apply step_mouse_pattern. }
    destruct (H (Captcha.start c now)) as [(A & _ & B)|T];
      [left; repeat split; reflexivity|left; split; assumption|right; exact T].
Qed.

(** ** The countdown does not fire early *)

(** X15.  The countdown of a challenge whose limit is a whole number [k]
    of seconds (from one second to an hour) fires at its [k]-th run and
    not before: after fewer than [k] runs the session is still under
    challenge, without a result, and the [k]-th run times it out. *)
Theorem countdown_does_not_fire_early (k n : nat) (c : Server.Challenge) (now : float) :
  (1 <= k <= 3600)%nat ->
  Server.timeLimit c = Some (1000 * Z.of_nat k)%Z ->
  (n < k)%nat ->
  let s := Captcha.run (Captcha.start c now) (repeat Captcha.Tick n) in
  Captcha.captchaState s = Captcha.st_challenge /\
  Captcha.finalResult s = None /\
  Captcha.timed_out (Captcha.step (Captcha.run (Captcha.start c now)
                                     (repeat Captcha.Tick (k - 1))) Captcha.Tick).
Proof.
  intros K L N.
  assert (F : Captcha.fires_within (k - 1) (Captcha.timeLeft (Captcha.start c now)) = false).
  { cbn [Captcha.start Captcha.timeLeft]. rewrite L. cbn [int_to_number].
    pose proof whole_seconds_do_not_fire_early as W. rewrite forallb_forall in W.
    apply negb_true_iff. apply W. apply in_seq. lia. }
  cbv zeta.
  destruct (still_open n (Captcha.start c now) c eq_refl eq_refl
              (fires_within_mono (k - 1) n _ ltac:(lia) F)) as [A B].
  split; [exact A|split; [exact B|]].
  assert (T : Captcha.timed_out
                (Captcha.run (Captcha.start c now) (repeat Captcha.Tick k))).
  { apply (fires_within_timed_out k _ c); try reflexivity.
    cbn [Captcha.start Captcha.timeLeft]. rewrite L. cbn [int_to_number].
    pose proof whole_seconds_fire as W. rewrite forallb_forall in W.
    apply W. apply in_seq. lia. }
  replace k with ((k - 1) + 1)%nat in T at 1 by lia.
  rewrite repeat_app, run_app in T. exact T.
Qed.

(** The typing challenge, nine seconds after it was shown. *)
Lemma countdown_does_not_fire_early_witness :
  Captcha.captchaState
    (Captcha.run (Captcha.start issued_typing_cadence 0) (repeat Captcha.Tick 9))
  = Captcha.st_challenge.
Proof.
  apply (countdown_does_not_fire_early 10 9 issued_typing_cadence 0);
    [lia|reflexivity|lia].
Defined.

(** ** Key presses *)

Lemma find_key_remove_key k m : Tracking.find_key k (Tracking.remove_key k m) = None.
Proof.
  induction m as [|[k' v] m IH]; [reflexivity|]. cbn [Tracking.remove_key].
  destruct (String.eqb k' k) eqn:E; [exact IH|].
  cbn [Tracking.find_key]. now rewrite E.
Qed.

Lemma find_key_remove_other k k' m :
  k' <> k -> Tracking.find_key k (Tracking.remove_key k' m) = Tracking.find_key k m.
Proof.
  intros N. induction m as [|[k'' v] m IH]; [reflexivity|]. cbn [Tracking.remove_key].
  destruct (String.eqb_spec k'' k') as [E|E]; cbn [Tracking.find_key].
  - subst k''. destruct (String.eqb_spec k' k); [contradiction|exact IH].
  - destruct (String.eqb k'' k); [reflexivity|exact IH].
Qed.

(** Events on other keys, mouse events and resets leave the press of [k]
    where it is. *)
Lemma step_keeps_press k h e :
  touches_key k e = false ->
  Tracking.find_key k (Tracking.keyPressStart (Tracking.step h e)) =
  Tracking.find_key k (Tracking.keyPressStart h).
Proof.
  destruct e as [cx cy now|cx cy now|k' now|k' now|hidden|now];
    cbn [touches_key Tracking.step]; intros T; try reflexivity.
  - unfold Tracking.handleKeyDown.
    destruct (String.eqb k' "__proto__"); [reflexivity|].
    cbn. rewrite T. apply find_key_remove_other.
    intros ->. now rewrite String.eqb_refl in T.
  - unfold Tracking.handleKeyUp. destruct (Tracking.pressed k' h); [|reflexivity].
    cbn. apply find_key_remove_other.
    intros ->. now rewrite String.eqb_refl in T.
Qed.

Lemma run_keeps_press k es : forall h,
  forallb (fun e => negb (touches_key k e)) es = true ->
  Tracking.find_key k (Tracking.keyPressStart (Tracking.run h es)) =
  Tracking.find_key k (Tracking.keyPressStart h).
Proof.
  induction es as [|e es IH]; intros h F; [reflexivity|].
  cbn [forallb] in F. apply andb_prop in F. destruct F as [Fe F].
  cbn [Tracking.run fold_left]. fold (Tracking.run (Tracking.step h e) es).
  rewrite IH by exact F. apply step_keeps_press. now apply negb_true_iff.
Qed.

Lemma minus_nan (t : float) : is_nan (t - nan) = true.
Proof.
  apply is_nan_spec. rewrite sub_spec. change (Prim2SF nan) with S754_nan.
  destruct (Prim2SF t) as [s|s| |s m e]; try destruct s; reflexivity.
Qed.

Lemma not_inherited_is_not_proto k :
  Tracking.inherited k = false -> String.eqb k "__proto__" = false.
Proof.
  unfold Tracking.inherited, Server.Object_prototype. cbn [existsb].
  intros H. repeat (apply orb_false_iff in H; destruct H as [? H]). assumption.
Qed.

(** X16.  A key press is recorded when the key is released, once.  For a
    key whose name [Object.prototype] does not define: after a key-down
    of [k] at [t0], whatever happens in between that is not a press or a
    release of [k] (mouse moves, clicks, other keys, a reset of the
    buffers), the key-up of [k] at [t1] appends the keystroke
    [{key: k, timestamp: t0, duration: t1 - t0}] to the last 29
    keystrokes and forgets the press: a second key-up of [k] changes
    nothing, and the presses of other keys are untouched.  The names
    that [Object.prototype] defines are different: a key-up of one of
    them that finds no press of its own finds what the prototype
    defines, and appends a keystroke whose duration is [NaN], every
    time; and a key-down of [__proto__] records no press at all. *)
Theorem key_press_is_recorded_on_release (k : string) (t0 t1 : float)
    (es : list Tracking.Event) (h : Tracking.Hook) :
  Tracking.inherited k = false ->
  truthy_num t0 = true ->
  forallb (fun e => negb (touches_key k e)) es = true ->
  let held := Tracking.run (Tracking.handleKeyDown k t0 h) es in
  let released := Tracking.handleKeyUp k t1 held in
  Tracking.keystrokes (Tracking.behaviorData released) =
    (Tracking.slice_last 29 (Tracking.keystrokes (Tracking.behaviorData held))
     ++ [ {| Tracking.key := k; Tracking.key_timestamp := Tracking.PressedAt t0;
             Tracking.duration := t1 - t0 |} ])%list /\
  Tracking.pressed k released = None /\
  (forall t2, Tracking.handleKeyUp k t2 released = released) /\
  (forall k', k' <> k -> Tracking.pressed k' released = Tracking.pressed k' held) /\
  (forall k' t h',
     Tracking.inherited k' = true ->
     Tracking.find_key k' (Tracking.keyPressStart h') = None ->
     let up := Tracking.handleKeyUp k' t h' in
     Tracking.keystrokes (Tracking.behaviorData up) =
       (Tracking.slice_last 29 (Tracking.keystrokes (Tracking.behaviorData h'))
        ++ [ {| Tracking.key := k';
                Tracking.key_timestamp := Tracking.FromPrototype;
                Tracking.duration := t - nan |} ])%list /\
     is_nan (t - nan) = true /\
     Tracking.find_key k' (Tracking.keyPressStart up) = None) /\
  (forall t h', Tracking.handleKeyDown "__proto__" t h' = h').
Proof.
  intros I T F held released.
  assert (P : Tracking.pressed k held = Some (Tracking.PressedAt t0)).
  { unfold Tracking.pressed, held. rewrite run_keeps_press by exact F.
    unfold Tracking.handleKeyDown. rewrite (not_inherited_is_not_proto k I).
    cbn. now rewrite String.eqb_refl, T. }
  assert (R : Tracking.pressed k released = None).
  { unfold Tracking.pressed, released, Tracking.handleKeyUp. rewrite P.
    cbn [Tracking.keyPressStart]. now rewrite find_key_remove_key, I. }
  split; [|split; [exact R|split; [|split; [|split]]]].
  - unfold released, Tracking.handleKeyUp. rewrite P. reflexivity.
  - intros t2. unfold Tracking.handleKeyUp at 1. now rewrite R.
  - intros k' N. unfold released, Tracking.handleKeyUp. rewrite P.
    unfold Tracking.pressed. cbn. now rewrite find_key_remove_other by congruence.
  - intros k' t h' I' N. cbv zeta. unfold Tracking.handleKeyUp, Tracking.pressed.
    rewrite N, I'. cbn.
    split; [reflexivity|split; [apply minus_nan|apply find_key_remove_key]].
  - reflexivity.
Qed.

(** A key held while the buffers are reset. *)
Lemma key_press_is_recorded_on_release_witness :
  Tracking.keystrokes
    (Tracking.behaviorData
       (Tracking.run (Tracking.init 1700000000000)
          [Tracking.KeyDown "a" 1700000000100; Tracking.Reset 1700000000150;
           Tracking.KeyUp "a" 1700000000180])) =
  [ {| Tracking.key := "a";
       Tracking.key_timestamp := Tracking.PressedAt 1700000000100;
       Tracking.duration := 1700000000180 - 1700000000100 |} ].
Proof.
  apply (key_press_is_recorded_on_release "a" 1700000000100 1700000000180
           [Tracking.Reset 1700000000150] (Tracking.init 1700000000000)
           eq_refl eq_refl eq_refl).
Defined.

(** ** The analytics of the hook *)

Lemma human_probability_range (bd : Tracking.BehaviorData) :
  let p := HookAnalytics.calculateHumanProbability bd in
  ((0.5 <=? p) && (p <=? 1))%bool = true.
Proof.
  unfold HookAnalytics.calculateHumanProbability. cbv zeta.
  split_tests; vm_compute; reflexivity.
Qed.

(** X17.  The [isHuman] score of the analytics of the hook lies between
    [0.5] and [1] for every behaviour data: the score starts at the
    neutral [0.5] and nothing ever lowers it.  With no mouse movement
    and no click it is exactly [0.5]. *)
Theorem human_probability_is_never_below_neutral (bd : Tracking.BehaviorData) :
  let p := HookAnalytics.analytics_isHuman (HookAnalytics.getAnalytics bd) in
  (0.5 <=? p) = true /\ (p <=? 1) = true /\
  (Tracking.mouseMovements bd = [] -> Tracking.clicks bd = [] -> p = 0.5).
Proof.
  cbn [HookAnalytics.getAnalytics HookAnalytics.analytics_isHuman].
  pose proof (human_probability_range bd) as R. cbv zeta in R.
  apply andb_prop in R. destruct R as [R1 R2].
  split; [exact R1|split; [exact R2|]].
  intros M C. unfold HookAnalytics.calculateHumanProbability,
    HookAnalytics.avgVelocity, HookAnalytics.clickFrequency.
  rewrite M, C. vm_compute. reflexivity.
Qed.

(** ** Flight and dwell times *)

Lemma flights_from_bounds rest : forall prev,
  Forall (fun f => (0 <=? f) = true /\ (f <? 2000) = true)
         (Keystrokes.flights_from prev rest) /\
  (List.length (Keystrokes.flights_from prev rest) <= List.length rest)%nat.
Proof.
  induction rest as [|k tl IH]; intros prev; cbn [Keystrokes.flights_from].
  - split; [constructor|apply Nat.le_refl].
  - destruct (IH k) as [F L].
    destruct (0 <=? _) eqn:A; cbn [andb]; [destruct (_ <? 2000) eqn:B|].
    + split; [constructor; [split; assumption|exact F]|cbn [List.length]; lia].
    + split; [exact F|cbn [List.length]; lia].
    + split; [exact F|cbn [List.length]; lia].
Qed.

(** X18.  The statistics of the keystroke analyzer only see what passes
    its filters: every flight time that is counted lies in [[0, 2000)]
    and every dwell time in [(0, 1000)]; [n] keystrokes give at most
    [n - 1] flight times and at most [n] dwell times.  So the average
    flight time of fewer than two keystrokes is zero, and the rhythm
    variability of fewer than three keystrokes is zero. *)
Theorem flight_and_dwell_times_are_filtered (ks : list Keystrokes.Keystroke) :
  Forall (fun f => (0 <=? f) = true /\ (f <? 2000) = true) (Keystrokes.flightTimes ks) /\
  Forall (fun d => (0 <? d) = true /\ (d <? 1000) = true) (Keystrokes.dwellTimes ks) /\
  (List.length (Keystrokes.flightTimes ks) <= List.length ks - 1)%nat /\
  (List.length (Keystrokes.dwellTimes ks) <= List.length ks)%nat /\
  ((List.length ks <= 1)%nat -> Keystrokes.averageFlightTime ks = 0) /\
  ((List.length ks <= 2)%nat -> Keystrokes.rhythmVariability ks = 0).
Proof.
  assert (FB : Forall (fun f => (0 <=? f) = true /\ (f <? 2000) = true)
                      (Keystrokes.flightTimes ks) /\
               (List.length (Keystrokes.flightTimes ks) <= List.length ks - 1)%nat).
  { destruct ks as [|k0 tl]; [split; [constructor|apply Nat.le_refl]|].
    cbn [Keystrokes.flightTimes]. destruct (flights_from_bounds tl k0) as [A B].
    split; [exact A|cbn [List.length]; lia]. }
  destruct FB as [F L].
  split; [exact F|split; [|split; [exact L|split; [|split]]]].
  - unfold Keystrokes.dwellTimes. apply Forall_forall. intros d I.
    apply filter_In in I. destruct I as [_ I]. apply andb_prop in I. exact I.
  - unfold Keystrokes.dwellTimes.
    rewrite <- (length_map Keystrokes.duration ks). apply filter_length_le.
  - intros S. unfold Keystrokes.averageFlightTime.
    destruct (Keystrokes.flightTimes ks); [reflexivity|cbn [List.length] in L; lia].
  - intros S. unfold Keystrokes.rhythmVariability.
    destruct (Nat.ltb_spec 1 (List.length (Keystrokes.flightTimes ks))); [lia|reflexivity].
Qed.

(** ** Key counts *)

Lemma lookup_assign k k' v m :
  KeyCounts.lookup k' (KeyCounts.assign k v m) =
  if String.eqb k k' then Some v else KeyCounts.lookup k' m.
Proof.
  induction m as [|[k'' n] m IH]; cbn [KeyCounts.assign KeyCounts.lookup].
  - reflexivity.
  - destruct (String.eqb_spec k'' k) as [E|E]; cbn [KeyCounts.lookup].
    + subst k''. now destruct (String.eqb k k').
    + rewrite IH. destruct (String.eqb_spec k k') as [E'|E']; [|reflexivity].
      subst k'. now destruct (String.eqb_spec k'' k).
Qed.

Lemma total_assign k m :
  list_sum (map snd (KeyCounts.assign k (KeyCounts.or_zero_count (KeyCounts.lookup k m) + 1) m))
  = (list_sum (map snd m) + 1)%nat.
Proof.
  induction m as [|[k' n] m IH]; cbn [KeyCounts.assign KeyCounts.lookup]; [reflexivity|].
  unfold list_sum in *.
  destruct (String.eqb k' k); cbn [map snd fold_right KeyCounts.or_zero_count].
  - lia.
  - rewrite IH. lia.
Qed.

Lemma count_keys_from ks : forall m,
  let m' := fold_left (fun m k =>
                         KeyCounts.assign (Keystrokes.key k)
                           (KeyCounts.or_zero_count (KeyCounts.lookup (Keystrokes.key k) m) + 1) m)
                      ks m in
  (forall name,
     KeyCounts.or_zero_count (KeyCounts.lookup name m') =
     (KeyCounts.or_zero_count (KeyCounts.lookup name m) + KeyCounts.occurrences name ks)%nat) /\
  (forall name, KeyCounts.lookup name m' = None <->
     KeyCounts.lookup name m = None /\ KeyCounts.occurrences name ks = 0%nat) /\
  list_sum (map snd m') = (list_sum (map snd m) + List.length ks)%nat.
Proof.
  induction ks as [|k ks IH]; intros m; cbn [fold_left].
  - cbn. repeat split; auto. now intros [H _].
  - destruct (IH (KeyCounts.assign (Keystrokes.key k)
                    (KeyCounts.or_zero_count (KeyCounts.lookup (Keystrokes.key k) m) + 1) m))
      as (A & B & C).
    cbv zeta. split; [|split].
    + intros name. rewrite A, lookup_assign. unfold KeyCounts.occurrences.
      cbn [filter]. destruct (String.eqb_spec (Keystrokes.key k) name) as [E|E].
      * subst name. cbn [List.length KeyCounts.or_zero_count]. lia.
      * reflexivity.
    + intros name. rewrite B, lookup_assign.
      unfold KeyCounts.occurrences. cbn [filter].
      destruct (String.eqb (Keystrokes.key k) name); cbn [List.length].
      * split; intros [H1 H2]; discriminate.
      * reflexivity.
    + rewrite C, total_assign. unfold list_sum. cbn [List.length]. lia.
Qed.

Lemma mistakes_split ks :
  KeyCounts.commonMistakes ks =
  (KeyCounts.occurrences "Backspace" ks + KeyCounts.occurrences "Delete" ks)%nat.
Proof.
  unfold KeyCounts.commonMistakes, KeyCounts.occurrences.
  induction ks as [|k ks IH]; [reflexivity|]. cbn [filter].
  destruct (String.eqb_spec (Keystrokes.key k) "Backspace") as [E|E].
  - rewrite E. cbn. now rewrite IH.
  - destruct (String.eqb (Keystrokes.key k) "Delete"); cbn; rewrite IH; lia.
Qed.

(** X19.  The key frequencies count every keystroke once, under its key:
    the entry of a key is the number of keystrokes of that key, a key has
    no entry exactly when it was never struck, the entries add up to the
    number of keystrokes, and [commonMistakes] is the sum of the entries
    of [Backspace] and [Delete]. *)
Theorem key_frequencies_count_keystrokes (ks : list Keystrokes.Keystroke)
    (m : list (string * nat)) :
  KeyCounts.keyFrequencies ks = Some m ->
  (forall name,
     KeyCounts.or_zero_count (KeyCounts.lookup name m) = KeyCounts.occurrences name ks) /\
  (forall name,
     KeyCounts.lookup name m = None <-> KeyCounts.occurrences name ks = 0%nat) /\
  list_sum (map snd m) = List.length ks /\
  KeyCounts.commonMistakes ks =
  (KeyCounts.or_zero_count (KeyCounts.lookup "Backspace" m)
   + KeyCounts.or_zero_count (KeyCounts.lookup "Delete" m))%nat.
Proof.
  unfold KeyCounts.keyFrequencies.
  destruct (existsb _ ks); [discriminate|]. intros [= <-].
  destruct (count_keys_from ks []) as (A & B & C). cbv zeta in A, B, C.
  fold (KeyCounts.count_keys ks) in A, B, C.
  split; [|split; [|split]].
  - intros name. now rewrite A.
  - intros name. rewrite B. cbn [KeyCounts.lookup]. tauto.
  - exact C.
  - rewrite mistakes_split, !A. reflexivity.
Qed.

(** An [a], a correction, an [a]. *)
Lemma key_frequencies_count_keystrokes_witness :
  KeyCounts.commonMistakes corrected_typing =
  (KeyCounts.or_zero_count (KeyCounts.lookup "Backspace" [("a", 2); ("Backspace", 1)])
   + KeyCounts.or_zero_count (KeyCounts.lookup "Delete" [("a", 2); ("Backspace", 1)]))%nat.
Proof.
  apply (key_frequencies_count_keystrokes corrected_typing
           [("a", 2%nat); ("Backspace", 1%nat)]).
  reflexivity.
Defined.

(** ** The life of the component *)

Lemma validateBehavior_consistent validation requestChallenge now s :
  Captcha.finalResult s = None ->
  Lifecycle.consistent (System.validateBehavior validation requestChallenge now s).
Proof.
  intros N. unfold System.validateBehavior.
  destruct (Api.makeRequest validation) as [e|[[] [result|]]]; cbn [bind throw ret];
    try (right; eexists; split; [reflexivity|cbn; auto]).
  cbn [Api.success Api.result].
  destruct (Api.needsChallenge result).
  - destruct (Api.makeRequest (requestChallenge _)) as [e|[[] [c|]]]; cbn [bind ret];
      try (right; eexists; split; [reflexivity|cbn; auto]).
    split; [exact N|discriminate].
  - unfold Lifecycle.consistent. cbn. eauto.
Qed.

Lemma step_consistent s e :
  Lifecycle.consistent s -> Lifecycle.consistent (Captcha.step s e).
Proof.
  intros C. unfold Captcha.step.
  destruct (Captcha.captchaState s) eqn:Cs; try exact C.
  destruct (Captcha.challenge s) as [c|] eqn:Cc; [|exact C].
  unfold Lifecycle.consistent in C. rewrite Cs in C. destruct C as [N _].
  assert (K : Lifecycle.consistent s).
  { unfold Lifecycle.consistent. rewrite Cs, Cc. split; [exact N|discriminate]. }
  assert (F : forall response s0, Captcha.finalResult s0 = None ->
              Lifecycle.consistent (Captcha.onChallengeComplete response s0)).
  { intros response s0 N0. now left. }
  destruct e as [|buttonNumber now|value now].
  - unfold Captcha.tick. destruct (Captcha.timeLeft s <=? 1).
    + right. eexists. split; [reflexivity|cbn; auto].
    + unfold Lifecycle.consistent. cbn. rewrite Cs, Cc. split; [exact N|discriminate].
  - destruct (Captcha.has_type c "click-sequence" && negb (Captcha.isComplete s));
      [|exact K].
    unfold Captcha.handleButtonClick.
    destruct (Captcha.click_response _ _ _) as [response|].
    + apply F. exact N.
    + unfold Lifecycle.consistent. cbn. rewrite Cs, Cc. split; [exact N|discriminate].
  - destruct (Captcha.has_type c "typing-cadence" && negb (Captcha.isComplete s));
      [|exact K].
    unfold Captcha.handleInputChange.
    destruct (Server.expectedText c) as [expected|].
    + destruct (String.eqb value expected).
      * apply F. exact N.
      * unfold Lifecycle.consistent. cbn. rewrite Cs, Cc. split; [exact N|discriminate].
    + unfold Lifecycle.consistent. cbn. rewrite Cs, Cc. split; [exact N|discriminate].
Qed.

Lemma act_consistent hs a :
  Lifecycle.consistent (snd hs) -> Lifecycle.consistent (snd (Lifecycle.act hs a)).
Proof.
  intros C. destruct a as [e|validation requestChallenge now|e|now]; cbn [Lifecycle.act].
  - destruct e; exact C.
  - destruct (Captcha.captchaState (snd hs)) eqn:Cs; try exact C.
    cbn [snd]. apply validateBehavior_consistent.
    unfold Lifecycle.consistent in C. now rewrite Cs in C.
  - cbn [snd]. now apply step_consistent.
  - destruct (Captcha.captchaState (snd hs)); try exact C; reflexivity.
Qed.

Lemma run_consistent actions : forall hs,
  Lifecycle.consistent (snd hs) ->
  Lifecycle.consistent (snd (fold_left Lifecycle.act actions hs)).
Proof.
  induction actions as [|a actions IH]; intros hs C; [exact C|].
  cbn [fold_left]. apply IH. now apply act_consistent.
Qed.

(** X20.  Through the whole life of the component, from the first render
    and across any number of validations, challenges and resets,
    whatever the backend answers: a session in the success state always
    shows a result with [challengeRequired = false] and method
    [ml_model], so every success is a pass without challenge and no
    session that was given a challenge ever succeeds; a session under
    challenge or collecting shows no result; and a result with
    [success = true] is shown in the success state only. *)
Theorem success_is_always_without_challenge (now : float)
    (actions : list Lifecycle.Action) :
  let s := Lifecycle.session_after now actions in
  (Captcha.captchaState s = Captcha.st_success ->
   exists b c,
     Captcha.finalResult s =
     Some {| Captcha.success := true; Captcha.isHuman := b; Captcha.confidence := c;
             Captcha.challengeRequired := false; Captcha.method := "ml_model" |}) /\
  (Captcha.captchaState s = Captcha.st_challenge ->
   Captcha.finalResult s = None /\ Captcha.challenge s <> None) /\
  (Captcha.captchaState s = Captcha.st_collecting -> Captcha.finalResult s = None) /\
  (forall r, Captcha.finalResult s = Some r ->
     Captcha.success r = true <-> Captcha.captchaState s = Captcha.st_success).
Proof.
  intros s.
  assert (C : Lifecycle.consistent s).
  { apply run_consistent. reflexivity. }
  unfold Lifecycle.consistent in C.
  destruct (Captcha.captchaState s) eqn:Cs.
  - (* collecting *)
    split; [discriminate|split; [discriminate|split; [intros _; exact C|]]].
    intros r Hr. rewrite C in Hr. discriminate Hr.
  - contradiction.
  - (* challenge *)
    destruct C as [N Ch].
    split; [discriminate|split; [intros _; split; assumption|split; [discriminate|]]].
    intros r Hr. rewrite N in Hr. discriminate Hr.
  - (* success *)
    destruct C as (b & c & R). split; [intros _; eauto|].
    split; [discriminate|split; [discriminate|]].
    intros r Hr. rewrite R in Hr. injection Hr as <-. cbn. tauto.
  - (* failure *)
    split; [discriminate|split; [discriminate|split; [discriminate|]]].
    intros r Hr. destruct C as [N|(r' & R & S & _)]; [rewrite N in Hr; discriminate Hr|].
    rewrite R in Hr. injection Hr as <-. rewrite S. split; discriminate.
Qed.
